(** * web-stats: event classification, timeline reconstruction and
      player dashboard aggregation

    A shallow embedding of [football/views.py] (the classifier predicates,
    the zone / third mappers and [compute_player_dashboard]) and of
    [football/services.py] (the roster matcher), with the properties of the
    specification proved or refuted on it.

    Python [str] values are sequences of Unicode code points and are modelled
    as [list N].  The Unicode database ([unicodedata], [str.lower],
    [str.isalnum], [str.isspace]) and Django's [slugify] are library code:
    the development is parametric in them (class [PyLib]); one concrete
    instance, covering ASCII and the Spanish accented letters, is used to
    evaluate the code on concrete inputs. *)

From Stdlib Require Import List ZArith NArith Lia Bool String Ascii.
From Stdlib Require Import Sorting.Sorted Permutation QArith Qround Lqa.
Import ListNotations.

Set Implicit Arguments.

(** ** Python strings *)

Module PyStr.

Definition pystr := list N.

(** Decoder of the UTF-8 bytes of a literal (one- and two-byte sequences,
    which covers every literal of the source). *)
Fixpoint utf8 (bs : list N) : pystr :=
  match bs with
  | [] => []
  | b :: rest =>
      if (b <? 128)%N then b :: utf8 rest
      else match rest with
           | [] => []
           | c :: rest' => ((b - 192) * 64 + (c - 128))%N :: utf8 rest'
           end
  end.

Definition u (s : string) : pystr :=
  utf8 (map N_of_ascii (list_ascii_of_string s)).

Fixpoint eqb (a b : pystr) : bool :=
  match a, b with
  | [], [] => true
  | x :: a', y :: b' => (x =? y)%N && eqb a' b'
  | _, _ => false
  end.

(** Lexicographic order on code points: Python's [<=] on [str]. *)
Fixpoint leb (a b : pystr) : bool :=
  match a, b with
  | [], _ => true
  | _ :: _, [] => false
  | x :: a', y :: b' =>
      if (x <? y)%N then true
      else if (y <? x)%N then false
      else leb a' b'
  end.

Fixpoint startswith (k s : pystr) : bool :=
  match k, s with
  | [], _ => true
  | _ :: _, [] => false
  | x :: k', y :: s' => (x =? y)%N && startswith k' s'
  end.

(** [k in s] for two strings: [k] occurs in [s] as a contiguous run. *)
Fixpoint pyin (k s : pystr) : bool :=
  startswith k s ||
  match s with
  | [] => false
  | _ :: s' => pyin k s'
  end.

(** [x in set_of_strings]. *)
Definition mem (x : pystr) (l : list pystr) : bool := existsb (eqb x) l.

(** The propositional reading of [k in s]. *)
Definition substring (k s : pystr) : Prop :=
  exists pre post, s = pre ++ k ++ post.

Fixpoint lstrip (sp : N -> bool) (s : pystr) : pystr :=
  match s with
  | [] => []
  | c :: s' => if sp c then lstrip sp s' else s
  end.

Definition rstrip (sp : N -> bool) (s : pystr) : pystr :=
  rev (lstrip sp (rev s)).

Definition strip_with (sp : N -> bool) (s : pystr) : pystr :=
  rstrip sp (lstrip sp s).

End PyStr.
Import PyStr.

(** ** The library environment *)

Class PyLib := {
  (** [unicodedata.normalize("NFKD", s)] *)
  nfkd : pystr -> pystr;
  (** [ch.isalnum()] and [ch.isspace()] on one character *)
  isalnum : N -> bool;
  isspace : N -> bool;
  (** [s.lower()] *)
  lower : pystr -> pystr;
  (** the value of a decimal digit (the characters [\d] matches and [int]
      reads), [None] on any other character *)
  digit_value : N -> option Z;
  (** [django.utils.text.slugify] *)
  slugify : pystr -> pystr
}.

(** [s.strip()] removes the characters [isspace] holds of from both ends. *)
Definition strip `{PyLib} (s : pystr) : pystr := strip_with isspace s.

(** *** A concrete instance: ASCII and the Spanish accented letters

    The tables below are the Unicode data for U+0000..U+007F, for the letters
    A/E/I/O/U with acute, U with diaeresis and N with tilde (both cases) and
    for the combining marks U+0301, U+0303, U+0308.  Other code points are
    left alone: the instance is only meant for texts over this alphabet. *)
Module Latin.

Definition in_range (lo hi c : N) : bool := ((lo <=? c) && (c <=? hi))%N.

Definition is_upper_accented (c : N) : bool :=
  existsb (N.eqb c) [193; 201; 205; 209; 211; 218; 220]%N.

Definition is_lower_accented (c : N) : bool :=
  existsb (N.eqb c) [225; 233; 237; 241; 243; 250; 252]%N.

Definition lower_char (c : N) : N :=
  if in_range 65 90 c || is_upper_accented c then (c + 32)%N else c.

(** Base letter and combining mark of a precomposed letter. *)
Definition decompose (c : N) : list N :=
  let lc := lower_char c in
  let shift := (lc - c)%N in
  let base (b m : N) := [(b - shift)%N; m] in
  if (lc =? 225)%N then base 97%N 769%N
  else if (lc =? 233)%N then base 101%N 769%N
  else if (lc =? 237)%N then base 105%N 769%N
  else if (lc =? 241)%N then base 110%N 771%N
  else if (lc =? 243)%N then base 111%N 769%N
  else if (lc =? 250)%N then base 117%N 769%N
  else if (lc =? 252)%N then base 117%N 776%N
  else [c].

Definition isalnum (c : N) : bool :=
  in_range 48 57 c || in_range 65 90 c || in_range 97 122 c
  || is_upper_accented c || is_lower_accented c.

Definition isspace (c : N) : bool :=
  in_range 9 13 c || in_range 28 32 c.

Definition digit_value (c : N) : option Z :=
  if in_range 48 57 c then Some (Z.of_N c - 48)%Z else None.

(** Django's [slugify] (ASCII mode):
<<
    value = unicodedata.normalize('NFKD', value).encode('ascii', 'ignore').decode('ascii')
    value = re.sub(r'[^\w\s-]', '', value.lower())
    return re.sub(r'[-\s]+', '-', value).strip('-_')
>> *)
Definition is_word (c : N) : bool :=
  in_range 48 57 c || in_range 65 90 c || in_range 97 122 c || (c =? 95)%N.

Definition is_dash_or_space (c : N) : bool := (c =? 45)%N || isspace c.

(** [re.sub(r'[-\s]+', '-', value)]: [in_run] tells that the previous
    character already belonged to the run being replaced. *)
Fixpoint collapse (in_run : bool) (s : pystr) : pystr :=
  match s with
  | [] => []
  | c :: s' =>
      if is_dash_or_space c
      then (if in_run then collapse true s' else 45%N :: collapse true s')
      else c :: collapse false s'
  end.

Definition is_dash_or_underscore (c : N) : bool := (c =? 45)%N || (c =? 95)%N.

Definition slugify (nfkd : pystr -> pystr) (value : pystr) : pystr :=
  let value := filter (fun c => (c <? 128)%N) (nfkd value) in
  let value := filter (fun c => is_word c || is_dash_or_space c)
                      (map lower_char value) in
  strip_with is_dash_or_underscore (collapse false value).

Definition lib : PyLib :=
  Build_PyLib (flat_map decompose) isalnum isspace (map lower_char)
              digit_value (slugify (flat_map decompose)).

End Latin.

(** ** Python runtime pieces: exceptions, insertion-ordered dicts, [sorted] *)

Inductive exn :=
| KeyError (key : pystr)
| ZeroDivisionError.

Inductive result (A : Type) :=
| Ok (a : A)
| Raise (e : exn).
Arguments Ok {A} a.
Arguments Raise {A} e.

Definition bind {A B} (c : result A) (k : A -> result B) : result B :=
  match c with
  | Ok a => k a
  | Raise e => Raise e
  end.

Declare Scope py_scope.
Delimit Scope py_scope with py.
Notation "x <- c ;; k" := (bind c (fun x => k))
  (at level 61, c at next level, right associativity) : py_scope.

(** [for x in xs: acc = step(acc, x)], where the body may raise. *)
Fixpoint for_each {A S} (step : S -> A -> result S) (xs : list A) (acc : S)
  : result S :=
  match xs with
  | [] => Ok acc
  | x :: xs' => bind (step acc x) (for_each step xs')
  end.

(** A [dict] keeps its keys in insertion order; assigning to a key that is
    present keeps the key where it is. *)
Module PyDict.
Section Dict.
Context {K V : Type} (keq : K -> K -> bool).

Definition dict := list (K * V).

Fixpoint get (d : dict) (k : K) : option V :=
  match d with
  | [] => None
  | (k', v) :: d' => if keq k k' then Some v else get d' k
  end.

Fixpoint set (d : dict) (k : K) (v : V) : dict :=
  match d with
  | [] => [(k, v)]
  | (k', v') :: d' =>
      if keq k k' then (k', v) :: d' else (k', v') :: set d' k v
  end.

(** [d.get(k, default)] *)
Definition get_or (d : dict) (k : K) (default : V) : V :=
  match get d k with
  | Some v => v
  | None => default
  end.

(** [d.setdefault(k, default)]: the value now stored under [k], and the
    dict. *)
Definition setdefault (d : dict) (k : K) (default : V) : V * dict :=
  match get d k with
  | Some v => (v, d)
  | None => (default, set d k default)
  end.

Definition keys (d : dict) : list K := map fst d.
Definition values (d : dict) : list V := map snd d.
End Dict.
End PyDict.

(** [d[k] += 1] on a dict of counters keyed by strings: reading a missing
    key raises [KeyError]. *)
Definition increment (d : list (pystr * Z)) (k : pystr)
  : result (list (pystr * Z)) :=
  match PyDict.get PyStr.eqb d k with
  | Some n => Ok (PyDict.set PyStr.eqb d k (n + 1)%Z)
  | None => Raise (KeyError k)
  end.

(** [sorted(l, key=key)] is a stable sort: [le] is the order on keys, and an
    element goes in front of the first one its key is not above, so that
    elements with equal keys keep the order of [l].  [sorted(..., reverse=True)]
    is the same with the order on keys turned around. *)
Section PySorted.
Context {A K : Type} (le : K -> K -> bool) (key : A -> K).

Fixpoint insert_sorted (x : A) (l : list A) : list A :=
  match l with
  | [] => [x]
  | y :: l' =>
      if le (key x) (key y) then x :: l else y :: insert_sorted x l'
  end.

Definition sorted (l : list A) : list A := fold_right insert_sorted [] l.
End PySorted.

Definition Z_geb (a b : Z) : bool := (b <=? a)%Z.

(** ** Keyword tables of [football/views.py] *)

Definition SUCCESS_RESULTS : list pystr :=
  [u"ok"; u"ganado"; u"g"; u"ganó"; u"goles"; u"anotado"; u"marcado"].

Definition DUEL_EVENT_KEYWORDS : list pystr :=
  [u"duelo"; u"regate"; u"regates"; u"robo"; u"robado"; u"intercepción";
   u"intervención"; u"entrada"; u"entradas"; u"recuperación"; u"recuperado";
   u"falta cometida"; u"falta recibida"; u"presión"; u"presionado";
   u"error forzado"; u"error"; u"disputa"].

Definition DUEL_SUCCESS_KEYWORD : list pystr :=
  [u"ganado"; u"recuperado"; u"ok"; u"fortaleza"; u"favorable"; u"superado"].

Definition ZONE_MAP : list (pystr * pystr) :=
  [(u"defensa izquierda", u"Defensa Izquierda");
   (u"lateral izquierdo", u"Defensa Izquierda");
   (u"carril izquierdo", u"Defensa Izquierda");
   (u"costa izquierda", u"Defensa Izquierda");
   (u"defensa izquierda centro", u"Defensa Izquierda");
   (u"defensa central", u"Defensa Centro");
   (u"central", u"Defensa Centro");
   (u"zona central", u"Defensa Centro");
   (u"defensa derecha", u"Defensa Derecha");
   (u"lateral derecho", u"Defensa Derecha");
   (u"carril derecho", u"Defensa Derecha");
   (u"costa derecha", u"Defensa Derecha");
   (u"medio izquierdo", u"Medio Izquierdo");
   (u"medio centro", u"Medio Centro");
   (u"mediocentro", u"Medio Centro");
   (u"medio derecho", u"Medio Derecho");
   (u"media punta", u"Ataque Centro");
   (u"pivote", u"Medio Centro");
   (u"central ofensivo", u"Medio Centro");
   (u"ataque izquierdo", u"Ataque Izquierda");
   (u"extremo izquierdo", u"Ataque Izquierda");
   (u"delantero izquierdo", u"Ataque Izquierda");
   (u"ataque centro", u"Ataque Centro");
   (u"delantero centro", u"Ataque Centro");
   (u"punta", u"Ataque Centro");
   (u"ataque derecho", u"Ataque Derecha");
   (u"delantero derecho", u"Ataque Derecha");
   (u"extremo derecho", u"Ataque Derecha");
   (u"delantero", u"Ataque Centro");
   (u"atacante", u"Ataque Centro");
   (u"delanztero", u"Ataque Centro")].

Definition POSITION_MAP : list (pystr * pystr) :=
  [(u"defensa izquierda", u"Defensa Izquierda");
   (u"lateral izquierdo", u"Defensa Izquierda");
   (u"carril izquierdo", u"Defensa Izquierda");
   (u"izquierda", u"Defensa Izquierda");
   (u"defensa central", u"Defensa Centro");
   (u"central", u"Defensa Centro");
   (u"defensa derecha", u"Defensa Derecha");
   (u"lateral derecho", u"Defensa Derecha");
   (u"carril derecho", u"Defensa Derecha");
   (u"derecha", u"Defensa Derecha");
   (u"medio izquierdo", u"Medio Izquierdo");
   (u"medio centro", u"Medio Centro");
   (u"mediocentro", u"Medio Centro");
   (u"medio derecho", u"Medio Derecho");
   (u"pivote", u"Medio Centro");
   (u"delantero izquierdo", u"Ataque Izquierda");
   (u"ataque izquierdo", u"Ataque Izquierda");
   (u"extremo izquierdo", u"Ataque Izquierda");
   (u"delantero centro", u"Ataque Centro");
   (u"ataque centro", u"Ataque Centro");
   (u"delantero derecho", u"Ataque Derecha");
   (u"ataque derecho", u"Ataque Derecha");
   (u"extremo derecho", u"Ataque Derecha");
   (u"punta", u"Ataque Centro");
   (u"delantero", u"Ataque Centro");
   (u"atacante", u"Ataque Centro")].

Definition TERCIO_MAP : list (pystr * pystr) :=
  [(u"ataque", u"Ataque");
   (u"ofensivo", u"Ataque");
   (u"zona ataque", u"Ataque");
   (u"finalización", u"Ataque");
   (u"propia", u"Defensa");
   (u"defensa", u"Defensa");
   (u"defensivo", u"Defensa");
   (u"construccion", u"Construcción");
   (u"construcción", u"Construcción");
   (u"medio", u"Construcción");
   (u"progresión", u"Construcción");
   (u"posesión", u"Construcción");
   (u"control", u"Construcción");
   (u"ataque centro", u"Ataque");
   (u"ataque izquierdo", u"Ataque")].

(** One cell of the field grid ([_build_field_zones]); the ['left'], ['top'],
    ['width'] and ['height'] strings of the source are the four percentages
    followed by a percent sign. *)
Record field_zone := {
  fz_key : pystr;
  fz_label : pystr;
  left_pct : Z;
  top_pct : Z;
  width_pct : Z;
  height_pct : Z
}.

Definition _build_field_zones : list field_zone :=
  let sections :=
    [(u"Defensa", 0, 35); (u"Medio", 35, 30); (u"Ataque", 65, 35)]%Z in
  let lanes :=
    [(u"Izquierda", 0, 33); (u"Centro", 33, 34); (u"Derecha", 67, 33)]%Z in
  flat_map
    (fun section : pystr * Z * Z =>
       let '(skey, sleft, swidth) := section in
       map (fun lane : pystr * Z * Z =>
              let '(suffix, ltop, lheight) := lane in
              {| fz_key := skey ++ u" " ++ suffix;
                 fz_label := skey ++ u" " ++ suffix;
                 left_pct := sleft; top_pct := ltop;
                 width_pct := swidth; height_pct := lheight |})
           lanes)
    sections.

Definition FIELD_ZONES : list field_zone := _build_field_zones.
Definition FIELD_ZONE_KEYS : list pystr := map fz_key FIELD_ZONES.
Definition STANDARD_TERCIO_LABELS : list pystr :=
  [u"Ataque"; u"Construcción"; u"Defensa"].
Definition SHOT_KEYWORDS : list pystr :=
  [u"tiro"; u"remate"; u"disparo"; u"chuza"; u"chute"].
Definition PASS_KEYWORDS : list pystr :=
  [u"pase"; u"pases"; u"pase clave"; u"pase al hueco"].
Definition GOAL_KEYWORDS : list pystr :=
  [u"gol"; u"goles"; u"anotado"; u"marcado"; u"goal"].
Definition ASSIST_KEYWORDS : list pystr :=
  [u"asistencia"; u"asist"; u"pase gol"; u"asiste"].
Definition YELLOW_CARD_KEYWORDS : list pystr :=
  [u"amarilla"; u"tarjeta amarilla"].
Definition RED_CARD_KEYWORDS : list pystr := [u"roja"; u"tarjeta roja"].
Definition SUBSTITUTION_KEYWORDS : list pystr :=
  [u"sustitucion"; u"sustitución"; u"cambio"].
Definition SUB_ENTRY_KEYWORDS : list pystr :=
  [u"entrada"; u"entrante"; u"subida"].
Definition SUB_EXIT_KEYWORDS : list pystr :=
  [u"salida"; u"saliente"; u"bajada"].

(** ** Classifier predicates and mappers ([football/views.py]) *)

Section Classifier.
Context `{L : PyLib}.

(** A text argument is [None] or a [str]; [not value] holds of [None] and of
    the empty string. *)
Definition falsy (value : option pystr) : bool :=
  match value with
  | None | Some [] => true
  | Some _ => false
  end.

Definition result_is_success (result : option pystr) : bool :=
  match result with
  | None | Some [] => false
  | Some r =>
      let normalized := lower (strip r) in
      mem normalized SUCCESS_RESULTS
  end.

Definition normalize_label (value : option pystr) : pystr :=
  match value with
  | None | Some [] => []
  | Some v =>
      let normalized := nfkd v in
      let filtered := filter (fun ch => isalnum ch || isspace ch) normalized in
      strip (lower filtered)
  end.

Definition contains_keyword (value : option pystr) (keywords : list pystr)
  : bool :=
  let normalized := normalize_label value in
  existsb (fun keyword => pyin keyword normalized) keywords.

Definition is_goal_event (event_type result observation : option pystr)
  : bool :=
  contains_keyword event_type GOAL_KEYWORDS
  || contains_keyword result GOAL_KEYWORDS
  || contains_keyword observation GOAL_KEYWORDS.

Definition is_assist_event (event_type result observation : option pystr)
  : bool :=
  contains_keyword event_type ASSIST_KEYWORDS
  || contains_keyword result ASSIST_KEYWORDS
  || contains_keyword observation ASSIST_KEYWORDS.

Definition is_yellow_card_event (event_type result zone : option pystr)
  : bool :=
  contains_keyword event_type YELLOW_CARD_KEYWORDS
  || contains_keyword result YELLOW_CARD_KEYWORDS
  || contains_keyword zone YELLOW_CARD_KEYWORDS.

Definition is_red_card_event (event_type result zone : option pystr) : bool :=
  contains_keyword event_type RED_CARD_KEYWORDS
  || contains_keyword result RED_CARD_KEYWORDS
  || contains_keyword zone RED_CARD_KEYWORDS.

Definition is_substitution_event (event_type zone : option pystr) : bool :=
  contains_keyword event_type SUBSTITUTION_KEYWORDS
  || contains_keyword zone SUBSTITUTION_KEYWORDS.

Definition is_substitution_entry (event_type result zone : option pystr)
  : bool :=
  if negb (is_substitution_event event_type zone) then false
  else contains_keyword result SUB_ENTRY_KEYWORDS
       || contains_keyword zone SUB_ENTRY_KEYWORDS.

Definition is_substitution_exit (event_type result zone : option pystr)
  : bool :=
  if negb (is_substitution_event event_type zone) then false
  else contains_keyword result SUB_EXIT_KEYWORDS
       || contains_keyword zone SUB_EXIT_KEYWORDS.

Definition min_or_none (current candidate : option Z) : option Z :=
  match candidate with
  | None => current
  | Some c =>
      match current with
      | None => Some c
      | Some cur => Some (Z.min cur c)
      end
  end.

(** [re.search(r'(\d+)', s)]: the first maximal run of decimal digits, and
    [int] of it. *)
Fixpoint read_digits (acc : Z) (s : pystr) : Z :=
  match s with
  | [] => acc
  | c :: s' =>
      match digit_value c with
      | Some d => read_digits (10 * acc + d) s'
      | None => acc
      end
  end.

Fixpoint search_digits (s : pystr) : option Z :=
  match s with
  | [] => None
  | c :: s' =>
      match digit_value c with
      | Some d => Some (read_digits d s')
      | None => search_digits s'
      end
  end.

Definition extract_round_number (value : option pystr) : option Z :=
  match value with
  | None | Some [] => None
  | Some v => search_digits v
  end.

Definition is_duel_event (event_type observation : option pystr) : bool :=
  let normalized := normalize_label event_type in
  match normalized with
  | [] => false
  | _ =>
      if existsb (fun keyword => pyin keyword normalized) DUEL_EVENT_KEYWORDS
      then true
      else if negb (falsy observation)
      then existsb (fun keyword => pyin keyword (normalize_label observation))
                   DUEL_EVENT_KEYWORDS
      else false
  end.

Definition duel_result_is_success (result : option pystr) : bool :=
  match result with
  | None | Some [] => false
  | Some r =>
      let normalized := lower (strip r) in
      existsb (fun keyword => pyin keyword normalized) DUEL_SUCCESS_KEYWORD
  end.

(** [sorted(table.items(), key=lambda item: -len(item[0]))] *)
Definition longest_first (table : list (pystr * pystr))
  : list (pystr * pystr) :=
  sorted Z.leb (fun item => (- Z.of_nat (List.length (fst item)))%Z) table.

(** [for key, label in items: if test(key): return label], else [None]. *)
Fixpoint first_label (test : pystr -> bool) (items : list (pystr * pystr))
  : option pystr :=
  match items with
  | [] => None
  | (key, label) :: items' =>
      if test key then Some label else first_label test items'
  end.

Definition categorize_position (player_position zone : option pystr)
  : option pystr :=
  let normalized_position := normalize_label player_position in
  let normalized_zone := normalize_label zone in
  first_label
    (fun key => pyin key normalized_position || pyin key normalized_zone)
    (longest_first POSITION_MAP).

Definition zone_to_tercio (zone_label : option pystr) : pystr :=
  let normalized := normalize_label zone_label in
  match normalized with
  | [] => []
  | _ =>
      if pyin (u"defensa") normalized then u"Defensa"
      else if pyin (u"medio") normalized || pyin (u"construcción") normalized
      then u"Construcción"
      else if pyin (u"ataque") normalized then u"Ataque"
      else []
  end.

Definition map_tercio (raw : option pystr) : option pystr :=
  let normalized := normalize_label raw in
  first_label (fun key => pyin key normalized) TERCIO_MAP.

Definition map_zone_label (zone : option pystr) : option pystr :=
  let normalized := normalize_label zone in
  first_label (fun key => pyin key normalized) (longest_first ZONE_MAP).

End Classifier.

(** ** Roster matcher ([football/services.py]) *)

Module RosterEntry.
Record t := {
  name : pystr;
  position : pystr;
  age : Z;
  pc : Z;
  pj : Z;
  pt : Z;
  minutes : Z;
  goals : Z;
  yellow_cards : Z;
  red_cards : Z;
  assists : Z
}.
End RosterEntry.

(** The season roster: a dict from canonical key to entry. *)
Definition roster := list (pystr * RosterEntry.t).

Definition ALIAS_MAP : list (pystr * pystr) :=
  [(u"antonio", u"antonio-gamez-paniagua");
   (u"andrew", u"andrew-brayce-gonzales-ticona");
   (u"andrews", u"andrew-brayce-gonzales-ticona");
   (u"andrew-brayce-gonzales-ticona", u"andrew-brayce-gonzales-ticona");
   (u"manu", u"manuel-torres-palenzuela");
   (u"lolo", u"manuel-fernandez-canete");
   (u"jaime", u"javier-gutierrez-palma");
   (u"javi", u"javier-gutierrez-palma");
   (u"martinez", u"antonio-martinez-campens");
   (u"nico", u"nicolas-villalba-alcaide");
   (u"nicolas", u"nicolas-villalba-alcaide");
   (u"nacho", u"ignacio-dorado-morales");
   (u"ivan", u"ivan-fernandez-reina");
   (u"yaco", u"yaco-uriel-campoamor");
   (u"acosta", u"jose-garcia-acosta");
   (u"francis", u"francisco-javier-ruiz-perez");
   (u"juanmi", u"juan-miguel-anaya-bustamante");
   (u"victor", u"victor-ruiz-postigo");
   (u"antonio-ruiz", u"antonio-vilches")].

(** One row of the roster table as [load_player_roster_stats] reads it: the
    name cell, the position cell and the numeric cells after
    [_parse_int(...) or 0]. *)
Module RosterRow.
Record t := {
  full_name : pystr;
  position : pystr;
  age : Z;
  pc : Z;
  pj : Z;
  pt : Z;
  minutes : Z;
  goals : Z;
  yellow_cards : Z;
  red_cards : Z
}.
End RosterRow.

Section Roster.
Context `{L : PyLib}.

Definition normalize_player_name (value : option pystr) : pystr :=
  slugify (match value with Some v => v | None => [] end).

(** The loop of [load_player_roster_stats] over the rows of the table. *)
Definition load_player_roster_stats (rows : list RosterRow.t) : roster :=
  fold_left
    (fun (roster : roster) (row : RosterRow.t) =>
       match RosterRow.full_name row with
       | [] => roster
       | full_name =>
           let normalized_name := normalize_player_name (Some full_name) in
           PyDict.set PyStr.eqb roster normalized_name
             {| RosterEntry.name := full_name;
                RosterEntry.position := RosterRow.position row;
                RosterEntry.age := RosterRow.age row;
                RosterEntry.pc := RosterRow.pc row;
                RosterEntry.pj := RosterRow.pj row;
                RosterEntry.pt := RosterRow.pt row;
                RosterEntry.minutes := RosterRow.minutes row;
                RosterEntry.goals := RosterRow.goals row;
                RosterEntry.yellow_cards := RosterRow.yellow_cards row;
                RosterEntry.red_cards := RosterRow.red_cards row;
                RosterEntry.assists := 0 |}
       end)
    rows [].

(** [_ROSTER_CACHE] is a module-level variable: [None] until the first call.
    The function returns the roster and the new value of the variable. *)
Definition get_roster_stats_cache (rows : list RosterRow.t)
    (_ROSTER_CACHE : option roster) : roster * option roster :=
  match _ROSTER_CACHE with
  | None =>
      let loaded := load_player_roster_stats rows in
      (loaded, Some loaded)
  | Some cached => (cached, Some cached)
  end.

Definition canonical_roster_key (player_name : pystr) : pystr :=
  let normalized := normalize_player_name (Some player_name) in
  PyDict.get_or PyStr.eqb ALIAS_MAP normalized normalized.

(** The entries of a roster are dicts with eleven keys, hence true in a
    test ([if entry:]). *)
Definition find_roster_entry (player_name : pystr) (roster : roster)
  : option RosterEntry.t :=
  let key := canonical_roster_key player_name in
  let entry :=
    match key with
    | [] => None
    | _ => PyDict.get PyStr.eqb roster key
    end in
  match entry with
  | Some entry => Some entry
  | None =>
      let target := strip (lower player_name) in
      match target with
      | [] => None
      | _ =>
          find (fun entry =>
                  let entry_name := lower (RosterEntry.name entry) in
                  pyin target entry_name || pyin entry_name target)
               (PyDict.values roster)
      end
  end.

End Roster.

(** ** Rows of the database ([football/models.py]) *)

Module Team.
Record t := { id : Z; name : pystr }.
Definition eqb (a b : t) : bool := (id a =? id b)%Z.
End Team.

Module Player.
Record t := {
  id : Z;
  team_id : Z;
  name : pystr;
  number : option Z;
  position : pystr
}.
End Player.

(** [datetime.date] and its [isoformat()], [YYYY-MM-DD]. *)
Module Date.
Record t := { year : N; month : N; day : N }.

Definition digit (n : N) : N := (48 + n mod 10)%N.

Definition isoformat (d : t) : pystr :=
  [digit (year d / 1000); digit (year d / 100); digit (year d / 10);
   digit (year d); 45%N;
   digit (month d / 10); digit (month d); 45%N;
   digit (day d / 10); digit (day d)].

(** [a <= b] on dates. *)
Definition leb (a b : t) : bool :=
  if (year a <? year b)%N then true
  else if (year b <? year a)%N then false
  else if (month a <? month b)%N then true
  else if (month b <? month a)%N then false
  else (day a <=? day b)%N.
End Date.

Module Match.
Record t := {
  id : Z;
  round : pystr;
  date : option Date.t;
  home_team : option Team.t;
  away_team : option Team.t
}.
End Match.

Module MatchEvent.
Record t := {
  match_ : option Match.t;
  player : option Player.t;
  minute : option Z;
  event_type : option pystr;
  result : option pystr;
  zone : option pystr;
  tercio : option pystr;
  observation : option pystr;
  system : pystr
}.
End MatchEvent.

(** The tables the dashboard reads.  [match_events] lists the rows in the
    order the database returns them for [order_by('player__name',
    'match__date')]; both querysets of [compute_player_dashboard] use that
    ordering, so each is this list filtered. *)
Record database := {
  match_events : list MatchEvent.t;
  players : list Player.t;
  roster_rows : list RosterRow.t
}.

Definition player_in_team (primary_team : Team.t) (event : MatchEvent.t)
  : bool :=
  match MatchEvent.player event with
  | Some player => (Player.team_id player =? Team.id primary_team)%Z
  | None => false
  end.

(** [MatchEvent.objects.exclude(system='touch-field')] *)
Definition confirmed_events_queryset (db : database) : list MatchEvent.t :=
  filter (fun event => negb (PyStr.eqb (MatchEvent.system event) (u"touch-field")))
         (match_events db).

(** ** The player dashboard ([compute_player_dashboard]) *)

Module MatchEntry.
Record t := {
  match_id : Z;
  round : pystr;
  date : option pystr;
  home : bool;
  opponent : pystr;
  actions : Z;
  successes : Z;
  success_rate : Z
}.
End MatchEntry.

Module Stats.
Record t := {
  player_id : Z;
  name : pystr;
  number : option Z;
  position : option pystr;
  total_actions : Z;
  successes : Z;
  pc : Z;
  pj : Z;
  pt : Z;
  minutes : Z;
  goals : Z;
  yellow_cards : Z;
  red_cards : Z;
  assists : Z;
  matches : list (Z * MatchEntry.t);
  zone_counts : list (pystr * Z);
  position_counts : list (pystr * Z);
  tercio_counts : list (pystr * Z);
  tercio_totals : list (pystr * Z);
  duels_total : Z;
  duels_won : Z;
  shot_attempts : Z;
  shots_on_target : Z;
  pass_attempts : Z;
  passes_completed : Z;
  age : option Z;
  has_events : bool
}.
End Stats.

Module Timeline.
Record t := { entry : option Z; exit : option Z; has_event : bool }.
End Timeline.

(** Python floats are modelled by exact rationals: [a / b] on two ints is the
    quotient, and raises on a zero divisor; [round(x)] and [round(x, 1)] round
    to the nearest integer and the nearest tenth, ties to even. *)
Definition truediv (a b : Z) : result Q :=
  if (b =? 0)%Z then Raise ZeroDivisionError
  else Ok (inject_Z a / inject_Z b)%Q.

Definition round_int (x : Q) : Z :=
  let f := Qfloor x in
  match Qcompare (x - inject_Z f) (1 # 2) with
  | Lt => f
  | Gt => (f + 1)%Z
  | Eq => if Z.even f then f else (f + 1)%Z
  end.

Definition round1 (x : Q) : Q := (inject_Z (round_int (x * 10)) / 10)%Q.

(** [round((num / den) * 100, 1) if den else 0] *)
Definition rate (num den : Z) : result Q :=
  if (den =? 0)%Z then Ok 0%Q
  else bind (truediv num den) (fun q => Ok (round1 (q * 100))).

Definition zero_counts (keys : list pystr) : list (pystr * Z) :=
  map (fun key => (key, 0%Z)) keys.

Definition count_if (b : bool) : Z := if b then 1%Z else 0%Z.

(** [text or ''] *)
Definition or_empty (text : option pystr) : pystr :=
  match text with
  | Some t => t
  | None => []
  end.

(** A label returned by a mapper, when it is true in a test. *)
Definition increment_if (d : list (pystr * Z)) (label : option pystr)
  : result (list (pystr * Z)) :=
  match label with
  | Some (c :: l) => increment d (c :: l)
  | _ => Ok d
  end.

(** One element of the list [compute_player_dashboard] returns:
    [{**stats, 'matches': ..., ...}].  [stats] holds the keys of the player's
    stats that the merge leaves alone. *)
Module Merged.
Record t := {
  stats : Stats.t;
  matches : list MatchEntry.t;
  match_count : Z;
  age : option Z;
  success_rate : Q;
  duel_summary : Z * Z;
  duel_rate : Q;
  zone_heatmap : list (pystr * Z);
  tercio_summary : list (pystr * Z * Q);
  tercio_heatmap : list (pystr * Z);
  position_breakdown : list (pystr * Z);
  dominant_position : option pystr;
  field_zones : list (field_zone * Z);
  shots : Z * Z * Q;
  passes : Z * Z * Q
}.
End Merged.

(** [[f(x) for x in xs]], where [f] may raise. *)
Fixpoint collect {A B} (f : A -> result B) (xs : list A) : result (list B) :=
  match xs with
  | [] => Ok []
  | x :: xs' =>
      bind (f x) (fun y => bind (collect f xs') (fun ys => Ok (y :: ys)))
  end.

(** [a <= b] on the tuples [(bool, int, str)] the matches are sorted by. *)
Definition match_key_leb (a b : bool * Z * pystr) : bool :=
  let '(a1, a2, a3) := a in
  let '(b1, b2, b3) := b in
  if Bool.eqb a1 b1
  then (if (a2 =? b2)%Z then PyStr.leb a3 b3 else (a2 <? b2)%Z)
  else negb a1.

Section Dashboard.
Context `{L : PyLib}.
Local Open Scope Z_scope.
Local Open Scope py_scope.

(** The stats a player starts from: the ones of the roster, all counters
    at zero. *)
Definition new_stats (player : Player.t) (position : option pystr)
    (age : option Z) (base : (RosterEntry.t -> Z) -> Z) : Stats.t :=
  {| Stats.player_id := Player.id player;
     Stats.name := Player.name player;
     Stats.number := Player.number player;
     Stats.position := position;
     Stats.total_actions := 0;
     Stats.successes := 0;
     Stats.pc := base RosterEntry.pc;
     Stats.pj := base RosterEntry.pj;
     Stats.pt := base RosterEntry.pt;
     Stats.minutes := base RosterEntry.minutes;
     Stats.goals := base RosterEntry.goals;
     Stats.yellow_cards := base RosterEntry.yellow_cards;
     Stats.red_cards := base RosterEntry.red_cards;
     Stats.assists := base RosterEntry.assists;
     Stats.matches := [];
     Stats.zone_counts := zero_counts FIELD_ZONE_KEYS;
     Stats.position_counts := zero_counts FIELD_ZONE_KEYS;
     Stats.tercio_counts := zero_counts STANDARD_TERCIO_LABELS;
     Stats.tercio_totals := zero_counts STANDARD_TERCIO_LABELS;
     Stats.duels_total := 0;
     Stats.duels_won := 0;
     Stats.shot_attempts := 0;
     Stats.shots_on_target := 0;
     Stats.pass_attempts := 0;
     Stats.passes_completed := 0;
     Stats.age := age;
     Stats.has_events := false |}.

(** [roster_entry.get(field, 0) if roster_entry else 0] *)
Definition base_of (roster_entry : option RosterEntry.t)
    (field : RosterEntry.t -> Z) : Z :=
  match roster_entry with
  | Some e => field e
  | None => 0
  end.

Definition opponent_of (primary_team : Team.t) (m : Match.t) : pystr :=
  let is_primary (team : option Team.t) :=
    match team with
    | Some t => Team.eqb t primary_team
    | None => false
    end in
  match Match.home_team m, Match.away_team m with
  | home, Some away =>
      if is_primary home then Team.name away
      else match home with
           | Some h => if Team.eqb away primary_team then Team.name h
                       else u"Rival desconocido"
           | None => u"Rival desconocido"
           end
  | _, None => u"Rival desconocido"
  end.

(** The per-match part of the first loop, after [if not match: continue]. *)
Definition count_match (primary_team : Team.t) (m : Match.t) (success : bool)
    (matches : list (Z * MatchEntry.t)) : result (list (Z * MatchEntry.t)) :=
  let match_key := Match.id m in
  let '(match_entry, matches) :=
    PyDict.setdefault Z.eqb matches match_key
      {| MatchEntry.match_id := Match.id m;
         MatchEntry.round :=
           match Match.round m with
           | [] => u"Partido sin jornada"
           | r => r
           end;
         MatchEntry.date := option_map Date.isoformat (Match.date m);
         MatchEntry.home :=
           match Match.home_team m with
           | Some h => Team.eqb h primary_team
           | None => false
           end;
         MatchEntry.opponent := opponent_of primary_team m;
         MatchEntry.actions := 0;
         MatchEntry.successes := 0;
         MatchEntry.success_rate := 0 |} in
  let actions := MatchEntry.actions match_entry + 1 in
  let successes := MatchEntry.successes match_entry + count_if success in
  success_rate <-
    (if actions =? 0 then Ok 0
     else q <- truediv successes actions ;; Ok (round_int (q * 100))) ;;
  Ok (PyDict.set Z.eqb matches match_key
        {| MatchEntry.match_id := MatchEntry.match_id match_entry;
           MatchEntry.round := MatchEntry.round match_entry;
           MatchEntry.date := MatchEntry.date match_entry;
           MatchEntry.home := MatchEntry.home match_entry;
           MatchEntry.opponent := MatchEntry.opponent match_entry;
           MatchEntry.actions := actions;
           MatchEntry.successes := successes;
           MatchEntry.success_rate := success_rate |}).

(** The body of [for event in events]. *)
Definition count_event (primary_team : Team.t) (roster_cache : roster)
    (player_stats : list (Z * Stats.t)) (event : MatchEvent.t)
  : result (list (Z * Stats.t)) :=
  match MatchEvent.player event with
  | None => Ok player_stats
  | Some player =>
      let roster_entry := find_roster_entry (Player.name player) roster_cache in
      let '(stats, player_stats) :=
        PyDict.setdefault Z.eqb player_stats (Player.id player)
          (new_stats player
             (match Player.position player with
              | [] => Some (match roster_entry with
                            | Some e => RosterEntry.position e
                            | None => []
                            end)
              | p => Some p
              end)
             (option_map RosterEntry.age roster_entry)
             (base_of roster_entry)) in
      let event_type := MatchEvent.event_type event in
      let result := MatchEvent.result event in
      let observation := MatchEvent.observation event in
      let success := result_is_success result in
      let duel := is_duel_event event_type observation in
      let zone := strip (or_empty (MatchEvent.zone event)) in
      let zone_label := map_zone_label (Some zone) in
      zone_counts <- increment_if (Stats.zone_counts stats) zone_label ;;
      let tercio := strip (or_empty (MatchEvent.tercio event)) in
      let mapped :=
        match tercio with
        | [] => None
        | _ => map_tercio (Some tercio)
        end in
      tercio_counts <- increment_if (Stats.tercio_counts stats) mapped ;;
      tercio_totals <- increment_if (Stats.tercio_totals stats) mapped ;;
      let position_label :=
        categorize_position (Some (Player.position player))
                            (MatchEvent.zone event) in
      position_counts <-
        increment_if (Stats.position_counts stats) position_label ;;
      let shot := contains_keyword event_type SHOT_KEYWORDS
                  || contains_keyword observation SHOT_KEYWORDS in
      let pass := contains_keyword event_type PASS_KEYWORDS
                  || contains_keyword observation PASS_KEYWORDS in
      matches <-
        match MatchEvent.match_ event with
        | None => Ok (Stats.matches stats)
        | Some m => count_match primary_team m success (Stats.matches stats)
        end ;;
      Ok (PyDict.set Z.eqb player_stats (Player.id player)
        {| Stats.player_id := Stats.player_id stats;
           Stats.name := Stats.name stats;
           Stats.number := Stats.number stats;
           Stats.position := Stats.position stats;
           Stats.total_actions := Stats.total_actions stats + 1;
           Stats.successes := Stats.successes stats + count_if success;
           Stats.pc := Stats.pc stats;
           Stats.pj := Stats.pj stats;
           Stats.pt := Stats.pt stats;
           Stats.minutes := Stats.minutes stats;
           Stats.goals :=
             Stats.goals stats
             + count_if (is_goal_event event_type result observation);
           Stats.yellow_cards :=
             Stats.yellow_cards stats
             + count_if (is_yellow_card_event event_type result
                                              (MatchEvent.zone event));
           Stats.red_cards :=
             Stats.red_cards stats
             + count_if (is_red_card_event event_type result
                                           (MatchEvent.zone event));
           Stats.assists :=
             Stats.assists stats
             + count_if (is_assist_event event_type result observation);
           Stats.matches := matches;
           Stats.zone_counts := zone_counts;
           Stats.position_counts := position_counts;
           Stats.tercio_counts := tercio_counts;
           Stats.tercio_totals := tercio_totals;
           Stats.duels_total := Stats.duels_total stats + count_if duel;
           Stats.duels_won :=
             Stats.duels_won stats
             + count_if (duel && duel_result_is_success result);
           Stats.shot_attempts := Stats.shot_attempts stats + count_if shot;
           Stats.shots_on_target :=
             Stats.shots_on_target stats + count_if (shot && success);
           Stats.pass_attempts := Stats.pass_attempts stats + count_if pass;
           Stats.passes_completed :=
             Stats.passes_completed stats + count_if (pass && success);
           Stats.age := Stats.age stats;
           Stats.has_events := true |})
  end.

(** The assignments to [timeline] in the second loop. *)
Definition mark_timeline (event : MatchEvent.t) (timeline : Timeline.t)
  : Timeline.t :=
  let minute_or_0 :=
    match MatchEvent.minute event with
    | Some minute => minute
    | None => 0
    end in
  let event_type := MatchEvent.event_type event in
  let result := MatchEvent.result event in
  let zone := MatchEvent.zone event in
  {| Timeline.entry :=
       if is_substitution_entry event_type result zone
       then min_or_none (Timeline.entry timeline) (Some minute_or_0)
       else Timeline.entry timeline;
     Timeline.exit :=
       if is_substitution_exit event_type result zone
       then min_or_none (Timeline.exit timeline) (Some minute_or_0)
       else Timeline.exit timeline;
     Timeline.has_event := true |}.

Definition empty_timeline : Timeline.t :=
  {| Timeline.entry := None; Timeline.exit := None;
     Timeline.has_event := false |}.

(** The body of [for event in live_events]: the state is
    [(match_end_minutes, player_match_timeline)]. *)
Definition track_event
    (state : list (Z * Z) * list (Z * list (Z * Timeline.t)))
    (event : MatchEvent.t)
  : list (Z * Z) * list (Z * list (Z * Timeline.t)) :=
  let '(match_end_minutes, player_match_timeline) := state in
  match MatchEvent.player event with
  | None => state
  | Some player =>
      let match_end_minutes :=
        match MatchEvent.match_ event, MatchEvent.minute event with
        | Some m, Some minute =>
            PyDict.set Z.eqb match_end_minutes (Match.id m)
              (Z.max (PyDict.get_or Z.eqb match_end_minutes (Match.id m) 0)
                     minute)
        | _, _ => match_end_minutes
        end in
      match MatchEvent.match_ event with
      | None => (match_end_minutes, player_match_timeline)
      | Some m =>
          let '(matches, player_match_timeline) :=
            PyDict.setdefault Z.eqb player_match_timeline (Player.id player)
                              [] in
          let '(timeline, matches) :=
            PyDict.setdefault Z.eqb matches (Match.id m) empty_timeline in
          let timeline := mark_timeline event timeline in
          (match_end_minutes,
           PyDict.set Z.eqb player_match_timeline (Player.id player)
             (PyDict.set Z.eqb matches (Match.id m) timeline))
      end
  end.

(** The entry and exit minutes the third loop derives from a timeline. *)
Definition derived_minutes (match_end : Z) (timeline : Timeline.t) : Z * Z :=
  let entry_minute := Timeline.entry timeline in
  let exit_minute := Timeline.exit timeline in
  let entry_minute :=
    match entry_minute with
    | None => 0
    | Some e => e
    end in
  let exit_minute :=
    match exit_minute with
    | None => Some match_end
    | Some x => Some x
    end in
  let exit_minute :=
    match exit_minute with
    | None => entry_minute
    | Some x => x
    end in
  let exit_minute :=
    if exit_minute <? entry_minute then entry_minute else exit_minute in
  (entry_minute, exit_minute).

(** [stats] with new values under ['pc'], ['pj'], ['pt'] and ['minutes']. *)
Definition with_appearances (stats : Stats.t) (pc pj pt minutes : Z)
  : Stats.t :=
  {| Stats.player_id := Stats.player_id stats;
     Stats.name := Stats.name stats;
     Stats.number := Stats.number stats;
     Stats.position := Stats.position stats;
     Stats.total_actions := Stats.total_actions stats;
     Stats.successes := Stats.successes stats;
     Stats.pc := pc;
     Stats.pj := pj;
     Stats.pt := pt;
     Stats.minutes := minutes;
     Stats.goals := Stats.goals stats;
     Stats.yellow_cards := Stats.yellow_cards stats;
     Stats.red_cards := Stats.red_cards stats;
     Stats.assists := Stats.assists stats;
     Stats.matches := Stats.matches stats;
     Stats.zone_counts := Stats.zone_counts stats;
     Stats.position_counts := Stats.position_counts stats;
     Stats.tercio_counts := Stats.tercio_counts stats;
     Stats.tercio_totals := Stats.tercio_totals stats;
     Stats.duels_total := Stats.duels_total stats;
     Stats.duels_won := Stats.duels_won stats;
     Stats.shot_attempts := Stats.shot_attempts stats;
     Stats.shots_on_target := Stats.shots_on_target stats;
     Stats.pass_attempts := Stats.pass_attempts stats;
     Stats.passes_completed := Stats.passes_completed stats;
     Stats.age := Stats.age stats;
     Stats.has_events := Stats.has_events stats |}.

(** The body of [for match_id, timeline in matches.items()]. *)
Definition apply_timeline (match_end_minutes : list (Z * Z))
    (stats : Stats.t) (item : Z * Timeline.t) : Stats.t :=
  let '(match_id, timeline) := item in
  let match_end := PyDict.get_or Z.eqb match_end_minutes match_id 0 in
  let '(entry_minute, exit_minute) := derived_minutes match_end timeline in
  with_appearances stats
    (Stats.pc stats)
    (Stats.pj stats + (if Timeline.has_event timeline then 1 else 0))
    (Stats.pt stats + (if entry_minute =? 0 then 1 else 0))
    (Stats.minutes stats + Z.max 0 (exit_minute - entry_minute)).

(** The inner loop over the matches of one player, and the assignment to
    ['pc'] that follows it. *)
Definition apply_matches (match_end_minutes : list (Z * Z))
    (matches : list (Z * Timeline.t)) (stats : Stats.t) : Stats.t :=
  let stats := fold_left (apply_timeline match_end_minutes) matches stats in
  with_appearances stats
    (Z.max (Stats.pc stats) (Stats.pj stats))
    (Stats.pj stats) (Stats.pt stats) (Stats.minutes stats).

(** The body of [for player_id, matches in player_match_timeline.items()]. *)
Definition apply_player_timelines (match_end_minutes : list (Z * Z))
    (player_stats : list (Z * Stats.t))
    (item : Z * list (Z * Timeline.t)) : list (Z * Stats.t) :=
  let '(player_id, matches) := item in
  match PyDict.get Z.eqb player_stats player_id with
  | None => player_stats
  | Some stats =>
      PyDict.set Z.eqb player_stats player_id
        (apply_matches match_end_minutes matches stats)
  end.

(** The body of [for player in roster_players]. *)
Definition add_roster_player (roster_cache : roster)
    (player_stats : list (Z * Stats.t)) (player : Player.t)
  : list (Z * Stats.t) :=
  match PyDict.get Z.eqb player_stats (Player.id player) with
  | Some _ => player_stats
  | None =>
      let normalized := normalize_player_name (Some (Player.name player)) in
      let roster_entry := PyDict.get PyStr.eqb roster_cache normalized in
      PyDict.set Z.eqb player_stats (Player.id player)
        (new_stats player
           (match Player.position player with
            | [] => option_map RosterEntry.position roster_entry
            | p => Some p
            end)
           (option_map RosterEntry.age roster_entry)
           (base_of roster_entry))
  end.

Definition match_sort_key (entry : MatchEntry.t) : bool * Z * pystr :=
  let number := extract_round_number (Some (MatchEntry.round entry)) in
  (match number with
   | None => true
   | Some _ => false
   end,
   match number with
   | None | Some 0 => 9999
   | Some n => n
   end,
   or_empty (MatchEntry.date entry)).

(** The body of [for stats in player_stats.values()].  [player] is the
    variable of that name as the earlier loops left it; it is read only if
    [position_list] is empty, and ['position_counts'] always has its nine
    keys. *)
Definition merge_stats (roster_cache : roster) (player : option Player.t)
    (stats : Stats.t) : result Merged.t :=
  let matches :=
    sorted match_key_leb match_sort_key (PyDict.values (Stats.matches stats)) in
  let roster_entry := find_roster_entry (Stats.name stats) roster_cache in
  let total_tercios :=
    fold_left Z.add (PyDict.values (Stats.tercio_totals stats)) 0 in
  let position_list :=
    sorted Z_geb snd (Stats.position_counts stats) in
  let field_zones :=
    map (fun zone =>
           (zone, PyDict.get_or PyStr.eqb (Stats.zone_counts stats)
                                (fz_key zone) 0))
        FIELD_ZONES in
  success_rate <- rate (Stats.successes stats) (Stats.total_actions stats) ;;
  duel_rate <- rate (Stats.duels_won stats) (Stats.duels_total stats) ;;
  tercio_summary <-
    collect
      (fun tercio_label =>
         let count :=
           PyDict.get_or PyStr.eqb (Stats.tercio_totals stats) tercio_label 0 in
         pct <- rate count total_tercios ;;
         Ok (tercio_label, count, pct))
      [u"Ataque"; u"Construcción"; u"Defensa"] ;;
  shot_accuracy <-
    rate (Stats.shots_on_target stats) (Stats.shot_attempts stats) ;;
  pass_accuracy <-
    rate (Stats.passes_completed stats) (Stats.pass_attempts stats) ;;
  Ok {| Merged.stats := stats;
        Merged.matches := matches;
        Merged.match_count := Z.of_nat (List.length matches);
        Merged.age :=
          match Stats.age stats with
          | Some 0 | None => option_map RosterEntry.age roster_entry
          | Some a => Some a
          end;
        Merged.success_rate := success_rate;
        Merged.duel_summary := (Stats.duels_won stats, Stats.duels_total stats);
        Merged.duel_rate := duel_rate;
        Merged.zone_heatmap :=
          firstn 5
            (sorted Z_geb snd
               (filter (fun item => 0 <? snd item) (Stats.zone_counts stats)));
        Merged.tercio_summary := tercio_summary;
        Merged.tercio_heatmap :=
          firstn 5 (sorted Z_geb snd (Stats.tercio_counts stats));
        Merged.position_breakdown := position_list;
        Merged.dominant_position :=
          match position_list with
          | (label, _) :: _ => Some label
          | [] => option_map Player.position player
          end;
        Merged.field_zones := field_zones;
        Merged.shots :=
          (Stats.shot_attempts stats, Stats.shots_on_target stats,
           shot_accuracy);
        Merged.passes :=
          (Stats.pass_attempts stats, Stats.passes_completed stats,
           pass_accuracy) |}.

Definition is_final (event : MatchEvent.t) : bool :=
  PyStr.eqb (MatchEvent.system event) (u"touch-field-final").

(** The two querysets and the players of the team. *)
Definition events_of (db : database) (primary_team : Team.t)
  : list MatchEvent.t :=
  filter (player_in_team primary_team) (confirmed_events_queryset db).

Definition live_events_of (db : database) (primary_team : Team.t)
  : list MatchEvent.t :=
  filter (fun event => player_in_team primary_team event && is_final event)
         (match_events db).

Definition roster_players_of (db : database) (primary_team : Team.t)
  : list Player.t :=
  filter (fun player => Player.team_id player =? Team.id primary_team)
         (players db).

(** The stats of every player after the first four loops. *)
Definition gather_stats (events live_events : list MatchEvent.t)
    (roster_players : list Player.t) (primary_team : Team.t)
    (roster_cache : roster) : result (list (Z * Stats.t)) :=
  player_stats <- for_each (count_event primary_team roster_cache) events [] ;;
  let '(match_end_minutes, player_match_timeline) :=
    fold_left track_event live_events ([], []) in
  let player_stats :=
    fold_left (apply_player_timelines match_end_minutes)
              player_match_timeline player_stats in
  Ok (fold_left (add_roster_player roster_cache) roster_players player_stats).

(** The value of the variable [player] when the last loop starts. *)
Definition last_player (events live_events : list MatchEvent.t)
    (roster_players : list Player.t) : option Player.t :=
  match rev roster_players, rev live_events, rev events with
  | player :: _, _, _ => Some player
  | [], event :: _, _ => MatchEvent.player event
  | [], [], event :: _ => MatchEvent.player event
  | [], [], [] => None
  end.

(** [compute_player_dashboard(primary_team)]: the list it returns, or the
    exception it raises, and the module's [_ROSTER_CACHE] afterwards. *)
Definition compute_player_dashboard (db : database) (primary_team : Team.t)
    (_ROSTER_CACHE : option roster)
  : result (list Merged.t) * option roster :=
  let '(roster_cache, _ROSTER_CACHE) :=
    get_roster_stats_cache (roster_rows db) _ROSTER_CACHE in
  let events := events_of db primary_team in
  let live_events := live_events_of db primary_team in
  let roster_players := roster_players_of db primary_team in
  (player_stats <-
     gather_stats events live_events roster_players primary_team roster_cache ;;
   result <-
     collect (merge_stats roster_cache
                (last_player events live_events roster_players))
             (PyDict.values player_stats) ;;
   Ok (sorted Z_geb (fun player => Stats.total_actions (Merged.stats player))
              result),
   _ROSTER_CACHE).

End Dashboard.

(** ** The player cards ([compute_player_cards]) *)

Module Card.
Record t := {
  player_id : Z;
  name : pystr;
  pj : Z;
  pt : Z;
  minutes : Z;
  goals : Z;
  yellow_cards : Z;
  red_cards : Z;
  actions : Z;
  successes : Z;
  success_rate : Z
}.
End Card.

Section Cards.
Context `{L : PyLib}.
Local Open Scope Z_scope.
Local Open Scope py_scope.

(** The dict appended to [cards] for a player of the dashboard. *)
Definition card_of (player : Merged.t) : result Card.t :=
  let stats := Merged.stats player in
  success_rate <-
    (if Stats.total_actions stats =? 0 then Ok 0
     else q <- truediv (Stats.successes stats) (Stats.total_actions stats) ;;
          Ok (round_int (q * 100))) ;;
  Ok {| Card.player_id := Stats.player_id stats;
        Card.name := Stats.name stats;
        Card.pj := Stats.pj stats;
        Card.pt := Stats.pt stats;
        Card.minutes := Stats.minutes stats;
        Card.goals := Stats.goals stats;
        Card.yellow_cards := Stats.yellow_cards stats;
        Card.red_cards := Stats.red_cards stats;
        Card.actions := Stats.total_actions stats;
        Card.successes := Stats.successes stats;
        Card.success_rate := success_rate |}.

(** The body of [for player in players]: the state is
    [(cards, seen_keys)]. *)
Definition add_card (state : list Card.t * list pystr) (player : Merged.t)
  : result (list Card.t * list pystr) :=
  let '(cards, seen_keys) := state in
  let key := canonical_roster_key (Stats.name (Merged.stats player)) in
  if mem key seen_keys then Ok state
  else
    card <- card_of player ;;
    Ok (cards ++ [card], key :: seen_keys).

(** [compute_player_cards(primary_team)], with the module's
    [_ROSTER_CACHE] afterwards. *)
Definition compute_player_cards (db : database) (primary_team : Team.t)
    (_ROSTER_CACHE : option roster)
  : result (list Card.t) * option roster :=
  let '(players, _ROSTER_CACHE) :=
    compute_player_dashboard db primary_team _ROSTER_CACHE in
  (players <- players ;;
   state <- for_each add_card players ([], []) ;;
   Ok (fst state),
   _ROSTER_CACHE).

End Cards.

(** ** The rival's roster ([compute_probable_eleven], [build_rival_insights]) *)

(** A player of a rival roster: the dict [parse_preferente_roster] and
    [parse_preferente_roster_text] build, with its ten keys.  [eqb] is
    [==] on two such dicts. *)
Module RivalPlayer.
Record t := {
  name : pystr;
  position : pystr;
  age : Z;
  pc : Z;
  pj : Z;
  pt : Z;
  minutes : Z;
  goals : Z;
  yellow_cards : Z;
  red_cards : Z
}.

Definition eqb (a b : t) : bool :=
  PyStr.eqb (name a) (name b) && PyStr.eqb (position a) (position b)
  && (age a =? age b)%Z && (pc a =? pc b)%Z && (pj a =? pj b)%Z
  && (pt a =? pt b)%Z && (minutes a =? minutes b)%Z
  && (goals a =? goals b)%Z && (yellow_cards a =? yellow_cards b)%Z
  && (red_cards a =? red_cards b)%Z.
End RivalPlayer.

(** [a >= b] on tuples of two and of three ints: the order of
    [sort(..., reverse=True)] on such keys. *)
Definition pair_geb (a b : Z * Z) : bool :=
  let '(a1, a2) := a in
  let '(b1, b2) := b in
  if (a1 =? b1)%Z then (b2 <=? a2)%Z else (b1 <? a1)%Z.

Definition triple_geb (a b : Z * Z * Z) : bool :=
  let '(a1, a2, a3) := a in
  let '(b1, b2, b3) := b in
  if (a1 =? b1)%Z then pair_geb (a2, a3) (b2, b3) else (b1 <? a1)%Z.

Section Rival.
Context `{L : PyLib}.
Local Open Scope Z_scope.

Definition eleven_key (p : RivalPlayer.t) : Z * Z * Z :=
  (RivalPlayer.minutes p, RivalPlayer.pt p, RivalPlayer.pj p).

Definition is_goalkeeper (p : RivalPlayer.t) : bool :=
  pyin (u"portero") (lower (RivalPlayer.position p)).

(** [for player in eligible: ...], which stops at eleven players. *)
Fixpoint fill_lineup (eligible lineup : list RivalPlayer.t)
  : list RivalPlayer.t :=
  match eligible with
  | [] => lineup
  | player :: rest =>
      if existsb (RivalPlayer.eqb player) lineup then fill_lineup rest lineup
      else
        let lineup := lineup ++ [player] in
        if (11 <=? List.length lineup)%nat then lineup
        else fill_lineup rest lineup
  end.

Definition compute_probable_eleven (players : list RivalPlayer.t)
  : list RivalPlayer.t :=
  match players with
  | [] => []
  | _ =>
      let eligible :=
        filter (fun p => 0 <? RivalPlayer.minutes p) players in
      let eligible := sorted triple_geb eleven_key eligible in
      let gks := filter is_goalkeeper eligible in
      let lineup :=
        match gks with
        | gk :: _ => [gk]
        | [] => []
        end in
      firstn 11 (fill_lineup eligible lineup)
  end.

Definition scorer_key (p : RivalPlayer.t) : Z * Z :=
  (RivalPlayer.goals p, RivalPlayer.minutes p).

Definition cards_key (p : RivalPlayer.t) : Z :=
  RivalPlayer.red_cards p * 2 + RivalPlayer.yellow_cards p.

(** The dict of [build_rival_insights]. *)
Record rival_insights := {
  top_scorers : list RivalPlayer.t;
  most_minutes : list RivalPlayer.t;
  most_cards : list RivalPlayer.t
}.

Definition build_rival_insights (players : list RivalPlayer.t)
  : rival_insights :=
  match players with
  | [] => {| top_scorers := []; most_minutes := []; most_cards := [] |}
  | _ =>
      {| top_scorers := firstn 3 (sorted pair_geb scorer_key players);
         most_minutes :=
           firstn 3 (sorted Z_geb RivalPlayer.minutes players);
         most_cards := firstn 3 (sorted Z_geb cards_key players) |}
  end.

End Rival.

(** ** The team metrics ([compute_team_metrics]) *)

(** [collections.Counter(xs)]: the keys in the order they are first met,
    each with the number of times it occurs. *)
Definition Counter {K} (keq : K -> K -> bool) (xs : list K) : list (K * Z) :=
  fold_left
    (fun counter x =>
       PyDict.set keq counter x (PyDict.get_or keq counter x 0 + 1)%Z)
    xs [].

(** [counter.most_common(n)]: the [n] keys with the largest counts, a key
    met earlier first among equal counts. *)
Definition most_common {K} (n : nat) (counter : list (K * Z))
  : list (K * Z) :=
  firstn n (sorted Z_geb snd counter).

(** [==] on the values of a nullable text column. *)
Definition text_eqb (a b : option pystr) : bool :=
  match a, b with
  | Some x, Some y => PyStr.eqb x y
  | None, None => true
  | _, _ => false
  end.

Record team_metrics := {
  total_events : Z;
  top_event_types : list (option pystr * Z);
  top_results : list (option pystr * Z)
}.

(** The confirmed events of the matches the team plays in.  The rows come
    in the order the database returns them for this queryset. *)
Definition team_events_queryset (db : database) (primary_team : Team.t)
  : list MatchEvent.t :=
  filter
    (fun event =>
       match MatchEvent.match_ event with
       | Some m =>
           match Match.home_team m with
           | Some home => Team.eqb home primary_team
           | None => false
           end
           || match Match.away_team m with
              | Some away => Team.eqb away primary_team
              | None => false
              end
       | None => false
       end)
    (confirmed_events_queryset db).

Definition compute_team_metrics (db : database) (primary_team : Team.t)
  : team_metrics :=
  let events := team_events_queryset db primary_team in
  let total_events := Z.of_nat (List.length events) in
  let event_counter := Counter text_eqb (map MatchEvent.event_type events) in
  let result_counter := Counter text_eqb (map MatchEvent.result events) in
  {| total_events := total_events;
     top_event_types := most_common 5 event_counter;
     top_results := most_common 5 result_counter |}.

(** The confirmed events of one match. *)
Definition match_events_queryset (db : database) (m : Match.t)
  : list MatchEvent.t :=
  filter
    (fun event =>
       match MatchEvent.match_ event with
       | Some m' => (Match.id m' =? Match.id m)%Z
       | None => false
       end)
    (confirmed_events_queryset db).

Definition compute_team_metrics_for_match (db : database) (m : Match.t)
  : team_metrics :=
  let events := match_events_queryset db m in
  let total_events := Z.of_nat (List.length events) in
  let event_counter := Counter text_eqb (map MatchEvent.event_type events) in
  let result_counter := Counter text_eqb (map MatchEvent.result events) in
  {| total_events := total_events;
     top_event_types := most_common 6 event_counter;
     top_results := most_common 6 result_counter |}.

(** ** The page of a player in a match ([player_match_stats_page]) *)

(** The dict [stats] while the loop over the events runs. *)
Module PageStats.
Record t := {
  player_id : Z;
  name : pystr;
  number : option Z;
  position : pystr;
  total_actions : Z;
  successes : Z;
  goals : Z;
  assists : Z;
  yellow_cards : Z;
  red_cards : Z;
  zone_counts : list (pystr * Z);
  tercio_counts : list (pystr * Z);
  tercio_totals : list (pystr * Z);
  duels_total : Z;
  duels_won : Z;
  shot_attempts : Z;
  shots_on_target : Z;
  pass_attempts : Z;
  passes_completed : Z
}.
End PageStats.

(** The dict [stats] the view renders: the counters, and the keys added
    after the loop. *)
Module PlayerMatchStats.
Record t := {
  counts : PageStats.t;
  success_rate : Q;
  duel_rate : Q;
  zone_heatmap : list (pystr * Z);
  tercio_heatmap : list (pystr * Z);
  tercio_summary : list (pystr * Z * Q);
  shots : Z * Z * Q;
  passes : Z * Z * Q;
  field_zones : list (field_zone * Z)
}.
End PlayerMatchStats.

Section PlayerMatchPage.
Context `{L : PyLib}.
Local Open Scope Z_scope.
Local Open Scope py_scope.

(** The body of [for event in events]. *)
Definition count_page_event (stats : PageStats.t) (event : MatchEvent.t)
  : result PageStats.t :=
  let event_type := MatchEvent.event_type event in
  let result := MatchEvent.result event in
  let observation := MatchEvent.observation event in
  let success := result_is_success result in
  let duel := is_duel_event event_type observation in
  let zone_label :=
    map_zone_label (Some (strip (or_empty (MatchEvent.zone event)))) in
  zone_counts <- increment_if (PageStats.zone_counts stats) zone_label ;;
  let tercio_raw := strip (or_empty (MatchEvent.tercio event)) in
  let mapped :=
    match tercio_raw with
    | [] => None
    | _ => map_tercio (Some tercio_raw)
    end in
  tercio_counts <- increment_if (PageStats.tercio_counts stats) mapped ;;
  tercio_totals <- increment_if (PageStats.tercio_totals stats) mapped ;;
  let shot := contains_keyword event_type SHOT_KEYWORDS
              || contains_keyword observation SHOT_KEYWORDS in
  let pass := contains_keyword event_type PASS_KEYWORDS
              || contains_keyword observation PASS_KEYWORDS in
  Ok {| PageStats.player_id := PageStats.player_id stats;
        PageStats.name := PageStats.name stats;
        PageStats.number := PageStats.number stats;
        PageStats.position := PageStats.position stats;
        PageStats.total_actions := PageStats.total_actions stats + 1;
        PageStats.successes := PageStats.successes stats + count_if success;
        PageStats.goals :=
          PageStats.goals stats
          + count_if (is_goal_event event_type result observation);
        PageStats.assists :=
          PageStats.assists stats
          + count_if (is_assist_event event_type result observation);
        PageStats.yellow_cards :=
          PageStats.yellow_cards stats
          + count_if (is_yellow_card_event event_type result
                                           (MatchEvent.zone event));
        PageStats.red_cards :=
          PageStats.red_cards stats
          + count_if (is_red_card_event event_type result
                                        (MatchEvent.zone event));
        PageStats.zone_counts := zone_counts;
        PageStats.tercio_counts := tercio_counts;
        PageStats.tercio_totals := tercio_totals;
        PageStats.duels_total := PageStats.duels_total stats + count_if duel;
        PageStats.duels_won :=
          PageStats.duels_won stats
          + count_if (duel && duel_result_is_success result);
        PageStats.shot_attempts :=
          PageStats.shot_attempts stats + count_if shot;
        PageStats.shots_on_target :=
          PageStats.shots_on_target stats + count_if (shot && success);
        PageStats.pass_attempts :=
          PageStats.pass_attempts stats + count_if pass;
        PageStats.passes_completed :=
          PageStats.passes_completed stats + count_if (pass && success) |}.

(** The [stats] of the context [player_match_stats_page] renders, for the
    player the view has looked up and the rows [events] of its queryset
    (the confirmed events of the player in the match), in the order the
    database returns them. *)
Definition player_match_stats_page (player : Player.t)
    (events : list MatchEvent.t) : result PlayerMatchStats.t :=
  stats <-
    for_each count_page_event events
      {| PageStats.player_id := Player.id player;
         PageStats.name := Player.name player;
         PageStats.number := Player.number player;
         PageStats.position := Player.position player;
         PageStats.total_actions := 0;
         PageStats.successes := 0;
         PageStats.goals := 0;
         PageStats.assists := 0;
         PageStats.yellow_cards := 0;
         PageStats.red_cards := 0;
         PageStats.zone_counts := zero_counts FIELD_ZONE_KEYS;
         PageStats.tercio_counts := zero_counts STANDARD_TERCIO_LABELS;
         PageStats.tercio_totals := zero_counts STANDARD_TERCIO_LABELS;
         PageStats.duels_total := 0;
         PageStats.duels_won := 0;
         PageStats.shot_attempts := 0;
         PageStats.shots_on_target := 0;
         PageStats.pass_attempts := 0;
         PageStats.passes_completed := 0 |} ;;
  let total_tercios :=
    fold_left Z.add (PyDict.values (PageStats.tercio_totals stats)) 0 in
  success_rate <-
    rate (PageStats.successes stats) (PageStats.total_actions stats) ;;
  duel_rate <-
    rate (PageStats.duels_won stats) (PageStats.duels_total stats) ;;
  tercio_summary <-
    collect
      (fun tercio_label =>
         let count :=
           PyDict.get_or PyStr.eqb (PageStats.tercio_totals stats)
                         tercio_label 0 in
         pct <- rate count total_tercios ;;
         Ok (tercio_label, count, pct))
      [u"Ataque"; u"Construcción"; u"Defensa"] ;;
  shot_accuracy <-
    rate (PageStats.shots_on_target stats) (PageStats.shot_attempts stats) ;;
  pass_accuracy <-
    rate (PageStats.passes_completed stats)
         (PageStats.pass_attempts stats) ;;
  Ok {| PlayerMatchStats.counts := stats;
        PlayerMatchStats.success_rate := success_rate;
        PlayerMatchStats.duel_rate := duel_rate;
        PlayerMatchStats.zone_heatmap :=
          firstn 5
            (sorted Z_geb snd
               (filter (fun item => 0 <? snd item)
                       (PageStats.zone_counts stats)));
        PlayerMatchStats.tercio_heatmap :=
          firstn 5 (sorted Z_geb snd (PageStats.tercio_counts stats));
        PlayerMatchStats.tercio_summary := tercio_summary;
        PlayerMatchStats.shots :=
          (PageStats.shot_attempts stats, PageStats.shots_on_target stats,
           shot_accuracy);
        PlayerMatchStats.passes :=
          (PageStats.pass_attempts stats, PageStats.passes_completed stats,
           pass_accuracy);
        PlayerMatchStats.field_zones :=
          map (fun zone =>
                 (zone, PyDict.get_or PyStr.eqb (PageStats.zone_counts stats)
                                      (fz_key zone) 0))
              FIELD_ZONES |}.

End PlayerMatchPage.

(** ** The quick actions of the match sheet ([load_match_actions]) *)

Definition DEFAULT_QUICK_ACTIONS : list pystr :=
  [u"Disparo"; u"Pase clave"; u"Robo"; u"Falta"; u"Cambio"; u"Duelo aéreo";
   u"Regate"].

Section MatchActions.
Context `{L : PyLib}.

(** The body of [for action in actions]: the state is [(ordered, seen)]. *)
Definition add_action (state : list pystr * list pystr) (action : pystr)
  : list pystr * list pystr :=
  let '(ordered, seen) := state in
  let normalized := lower (strip action) in
  match normalized with
  | [] => state
  | _ =>
      if mem normalized seen then state
      else (ordered ++ [strip action], normalized :: seen)
  end.

(** The body of [for extra in DEFAULT_QUICK_ACTIONS]. *)
Definition add_default (state : list pystr * list pystr) (extra : pystr)
  : list pystr * list pystr :=
  let '(ordered, seen) := state in
  let normalized := lower (strip extra) in
  if mem normalized seen then state
  else (ordered ++ [extra], normalized :: seen).

(** [load_match_actions()], from the actions [_read_match_list_sheet]
    returns. *)
Definition load_match_actions (actions : list pystr) : list pystr :=
  match actions with
  | [] => DEFAULT_QUICK_ACTIONS
  | _ =>
      let state := fold_left add_action actions ([], []) in
      let state := fold_left add_default DEFAULT_QUICK_ACTIONS state in
      fst state
  end.

End MatchActions.

(** ** The live match sheet ([register_match_action], [finalize_match_actions]) *)

(** The fields of [request.POST] that [register_match_action] reads.
    [player] is the id the form sends and [minute] what [_parse_int] makes of
    its field ([None] when it is missing or no number). *)
Module Post.
Record t := {
  player : option Z;
  action_type : option pystr;
  minute : option Z;
  result : option pystr;
  zone : option pystr;
  tercio : option pystr;
  observation : option pystr
}.
End Post.

Section MatchSheet.
Context `{L : PyLib}.

(** [Player.objects.filter(team=primary_team, id=player_id).first()] *)
Definition player_of_team (db : database) (primary_team : Team.t)
    (player_id : option Z) : option Player.t :=
  match player_id with
  | None => None
  | Some player_id =>
      find (fun player =>
              (Player.team_id player =? Team.id primary_team)%Z
              && (Player.id player =? player_id)%Z)
           (players db)
  end.

(** [register_match_action(request)]: the row [MatchEvent.objects.create]
    writes, [None] when the view answers with an error and writes nothing.
    [primary_team] is the team the first query finds and [active_match] the
    result of [get_active_match]. *)
Definition register_match_action (db : database) (primary_team : option Team.t)
    (active_match : option Match.t) (post : Post.t) : option MatchEvent.t :=
  match primary_team with
  | None => None
  | Some primary_team =>
      match player_of_team db primary_team (Post.player post) with
      | None => None
      | Some player =>
          let action_type := strip (or_empty (Post.action_type post)) in
          match action_type with
          | [] => None
          | _ =>
              match active_match with
              | None => None
              | Some m =>
                  let minute :=
                    match Post.minute post with
                    | Some minute => Some (Z.max 0 (Z.min minute 120))
                    | None => None
                    end in
                  let result := strip (or_empty (Post.result post)) in
                  let zone := strip (or_empty (Post.zone post)) in
                  let tercio :=
                    match zone_to_tercio (Some zone) with
                    | [] => strip (or_empty (Post.tercio post))
                    | label => label
                    end in
                  let observation :=
                    strip (or_empty (Post.observation post)) in
                  Some {| MatchEvent.match_ := Some m;
                          MatchEvent.player := Some player;
                          MatchEvent.minute := minute;
                          MatchEvent.event_type := Some action_type;
                          MatchEvent.result := Some result;
                          MatchEvent.zone := Some zone;
                          MatchEvent.tercio := Some tercio;
                          MatchEvent.observation := Some observation;
                          MatchEvent.system := u"touch-field" |}
              end
          end
      end
  end.

End MatchSheet.

(** [MatchEvent.objects.filter(match=match, system='touch-field')] *)
Definition is_pending (m : Match.t) (event : MatchEvent.t) : bool :=
  match MatchEvent.match_ event with
  | Some m' => (Match.id m' =? Match.id m)%Z
  | None => false
  end
  && PyStr.eqb (MatchEvent.system event) (u"touch-field").

(** [update(system='touch-field-final')] on one row. *)
Definition set_final (event : MatchEvent.t) : MatchEvent.t :=
  {| MatchEvent.match_ := MatchEvent.match_ event;
     MatchEvent.player := MatchEvent.player event;
     MatchEvent.minute := MatchEvent.minute event;
     MatchEvent.event_type := MatchEvent.event_type event;
     MatchEvent.result := MatchEvent.result event;
     MatchEvent.zone := MatchEvent.zone event;
     MatchEvent.tercio := MatchEvent.tercio event;
     MatchEvent.observation := MatchEvent.observation event;
     MatchEvent.system := u"touch-field-final" |}.

(** [finalize_match_actions(request)]: the tables after the view.  [written]
    tells whether [append_events_to_bd_eventos] returned (it raises when the
    workbook cannot be written, and then nothing is updated).  The rows whose
    id is among those of [pending_events] are the pending rows themselves. *)
Definition finalize_match_actions (db : database) (primary_team : option Team.t)
    (active_match : option Match.t) (written : bool) : database :=
  match primary_team with
  | None => db
  | Some _ =>
      match active_match with
      | None => db
      | Some m =>
          let pending_events := filter (is_pending m) (match_events db) in
          match pending_events with
          | [] => db
          | _ =>
              if written then
                {| match_events :=
                     map (fun event =>
                            if is_pending m event then set_final event
                            else event)
                         (match_events db);
                   players := players db;
                   roster_rows := roster_rows db |}
              else db
          end
      end
  end.


(** ** Vocabulary of the statements *)

(** [event] belongs to the pair (player, match). *)
Definition event_of (event : MatchEvent.t) (player_id match_id : Z) : bool :=
  match MatchEvent.player event, MatchEvent.match_ event with
  | Some player, Some m =>
      (Player.id player =? player_id)%Z && (Match.id m =? match_id)%Z
  | _, _ => false
  end.

(** The timeline of a pair in [player_match_timeline]. *)
Definition timeline_of (player_match_timeline : list (Z * list (Z * Timeline.t)))
    (player_id match_id : Z) : option Timeline.t :=
  match PyDict.get Z.eqb player_match_timeline player_id with
  | Some matches => PyDict.get Z.eqb matches match_id
  | None => None
  end.

Definition entry_event `{L : PyLib} (event : MatchEvent.t) : bool :=
  is_substitution_entry (MatchEvent.event_type event)
    (MatchEvent.result event) (MatchEvent.zone event).

Definition exit_event `{L : PyLib} (event : MatchEvent.t) : bool :=
  is_substitution_exit (MatchEvent.event_type event)
    (MatchEvent.result event) (MatchEvent.zone event).

(** What one live event does to the timeline of a pair. *)
Definition observe `{L : PyLib} (player_id match_id : Z) (timeline : option Timeline.t)
    (event : MatchEvent.t) : option Timeline.t :=
  if event_of event player_id match_id
  then Some (mark_timeline event
               (match timeline with
                | Some t => t
                | None => empty_timeline
                end))
  else timeline.

Definition entry_of (timeline : option Timeline.t) : option Z :=
  match timeline with
  | Some t => Timeline.entry t
  | None => None
  end.

Definition exit_of (timeline : option Timeline.t) : option Z :=
  match timeline with
  | Some t => Timeline.exit t
  | None => None
  end.

(** The counters of one match of a player, and its success rate. *)
Definition match_entry_ok (entry : MatchEntry.t) : Prop :=
  (0 <= MatchEntry.successes entry <= MatchEntry.actions entry
   /\ 0 <= MatchEntry.success_rate entry <= 100
   /\ (MatchEntry.actions entry = 0 -> MatchEntry.success_rate entry = 0))%Z.

(** The four pairs of counters the rates are computed from, and the
    counters of every match. *)
Definition counters_ok (stats : Stats.t) : Prop :=
  (0 <= Stats.successes stats <= Stats.total_actions stats
   /\ 0 <= Stats.duels_won stats <= Stats.duels_total stats
   /\ 0 <= Stats.shots_on_target stats <= Stats.shot_attempts stats
   /\ 0 <= Stats.passes_completed stats <= Stats.pass_attempts stats)%Z
  /\ forall entry, In entry (PyDict.values (Stats.matches stats)) ->
                   match_entry_ok entry.

Definition all_counters_ok (player_stats : list (Z * Stats.t)) : Prop :=
  forall stats, In stats (PyDict.values player_stats) -> counters_ok stats.


(** The test of the substring fallback of [find_roster_entry]. *)
Definition fallback_match `{L : PyLib} (player_name : pystr)
    (entry : RosterEntry.t) : bool :=
  let target := strip (lower player_name) in
  let entry_name := lower (RosterEntry.name entry) in
  pyin target entry_name || pyin entry_name target.

(** The appearances a player starts from: the ['pj'] of the roster entry
    the dashboard resolved for the player, through [find_roster_entry] when
    the player has events and through the normalized name otherwise. *)
Definition baseline_pj `{L : PyLib} (roster_cache : roster) (stats : Stats.t)
  : Z :=
  if Stats.has_events stats
  then base_of (find_roster_entry (Stats.name stats) roster_cache)
               RosterEntry.pj
  else base_of (PyDict.get PyStr.eqb roster_cache
                  (normalize_player_name (Some (Stats.name stats))))
               RosterEntry.pj.

(** What the first loop keeps true of the stats of every player. *)
Definition stats_wf `{L : PyLib} (roster_cache : roster)
    (player_stats : list (Z * Stats.t)) : Prop :=
  forall k stats,
    PyDict.get Z.eqb player_stats k = Some stats ->
    Stats.player_id stats = k
    /\ Stats.has_events stats = true
    /\ Stats.pj stats = baseline_pj roster_cache stats.

(** What the second loop keeps true of [player_match_timeline]. *)
Definition timelines_wf (player_match_timeline : list (Z * list (Z * Timeline.t)))
  : Prop :=
  NoDup (PyDict.keys player_match_timeline)
  /\ forall player_id matches,
       PyDict.get Z.eqb player_match_timeline player_id = Some matches ->
       NoDup (PyDict.keys matches).

(** A label a mapper returns is a key of the counters (or there is no
    label). *)
Definition known_zone (label : option pystr) : bool :=
  match label with
  | Some (c :: l) => mem (c :: l) FIELD_ZONE_KEYS
  | _ => true
  end.

(** The zone and the position the first loop maps an event to are keys of
    ['zone_counts'] and ['position_counts']. *)
Definition zones_known `{L : PyLib} (event : MatchEvent.t) : bool :=
  match MatchEvent.player event with
  | None => true
  | Some player =>
      known_zone (map_zone_label
                    (Some (strip (or_empty (MatchEvent.zone event)))))
      && known_zone (categorize_position (Some (Player.position player))
                                         (MatchEvent.zone event))
  end.

(** The counters of a player keep the keys they are created with. *)
Definition counter_keys_ok (stats : Stats.t) : Prop :=
  PyDict.keys (Stats.zone_counts stats) = FIELD_ZONE_KEYS
  /\ PyDict.keys (Stats.position_counts stats) = FIELD_ZONE_KEYS
  /\ PyDict.keys (Stats.tercio_counts stats) = STANDARD_TERCIO_LABELS
  /\ PyDict.keys (Stats.tercio_totals stats) = STANDARD_TERCIO_LABELS.

(** [event.minute or 0] *)
Definition minute_or_0 (event : MatchEvent.t) : Z :=
  match MatchEvent.minute event with
  | Some minute => minute
  | None => 0%Z
  end.

(** The minute an event contributes to the end minute of a match: the
    event has a player, belongs to the match and has a minute. *)
Definition minute_in_match (event : MatchEvent.t) (match_id : Z) : option Z :=
  match MatchEvent.player event, MatchEvent.match_ event,
        MatchEvent.minute event with
  | Some _, Some m, Some minute =>
      if (Match.id m =? match_id)%Z then Some minute else None
  | _, _, _ => None
  end.

(** The earliest minute seen so far among the events [selected] holds of. *)
Definition earliest (selected : MatchEvent.t -> bool) (seen : option Z)
    (event : MatchEvent.t) : option Z :=
  if selected event then min_or_none seen (Some (minute_or_0 event)) else seen.

(** [minute] is the least [minute_or_0] of the selected events of a list. *)
Definition least_minute (selected : MatchEvent.t -> bool)
    (events : list MatchEvent.t) (minute : Z) : Prop :=
  (exists event, In event events /\ selected event = true
                 /\ minute_or_0 event = minute)
  /\ forall event, In event events -> selected event = true ->
                   (minute <= minute_or_0 event)%Z.

(** Every player's counters have the keys they are created with. *)
Definition all_counter_keys_ok (player_stats : list (Z * Stats.t)) : Prop :=
  forall stats, In stats (PyDict.values player_stats) -> counter_keys_ok stats.


(** [event] is an event of the player. *)
Definition by_player (player_id : Z) (event : MatchEvent.t) : bool :=
  match MatchEvent.player event with
  | Some player => (Player.id player =? player_id)%Z
  | None => false
  end.

(** The number of events of the player that a test holds of. *)
Definition count_events (player_id : Z) (selected : MatchEvent.t -> bool)
    (events : list MatchEvent.t) : Z :=
  Z.of_nat (List.length
              (filter (fun event => by_player player_id event && selected event)
                      events)).

(** The tests the first loop applies to an event. *)
Definition success_event `{L : PyLib} (event : MatchEvent.t) : bool :=
  result_is_success (MatchEvent.result event).

Definition goal_event `{L : PyLib} (event : MatchEvent.t) : bool :=
  is_goal_event (MatchEvent.event_type event) (MatchEvent.result event)
                (MatchEvent.observation event).

Definition assist_event `{L : PyLib} (event : MatchEvent.t) : bool :=
  is_assist_event (MatchEvent.event_type event) (MatchEvent.result event)
                  (MatchEvent.observation event).

Definition yellow_card_event `{L : PyLib} (event : MatchEvent.t) : bool :=
  is_yellow_card_event (MatchEvent.event_type event) (MatchEvent.result event)
                       (MatchEvent.zone event).

Definition red_card_event `{L : PyLib} (event : MatchEvent.t) : bool :=
  is_red_card_event (MatchEvent.event_type event) (MatchEvent.result event)
                    (MatchEvent.zone event).

Definition duel_event `{L : PyLib} (event : MatchEvent.t) : bool :=
  is_duel_event (MatchEvent.event_type event) (MatchEvent.observation event).

Definition duel_won_event `{L : PyLib} (event : MatchEvent.t) : bool :=
  duel_event event && duel_result_is_success (MatchEvent.result event).

Definition shot_event `{L : PyLib} (event : MatchEvent.t) : bool :=
  contains_keyword (MatchEvent.event_type event) SHOT_KEYWORDS
  || contains_keyword (MatchEvent.observation event) SHOT_KEYWORDS.

Definition pass_event `{L : PyLib} (event : MatchEvent.t) : bool :=
  contains_keyword (MatchEvent.event_type event) PASS_KEYWORDS
  || contains_keyword (MatchEvent.observation event) PASS_KEYWORDS.

(** The zone, the position and the tercio the first loop counts an event
    under. *)
Definition zone_label_of `{L : PyLib} (event : MatchEvent.t) : option pystr :=
  map_zone_label (Some (strip (or_empty (MatchEvent.zone event)))).

Definition position_label_of `{L : PyLib} (player : Player.t)
    (event : MatchEvent.t) : option pystr :=
  categorize_position (Some (Player.position player)) (MatchEvent.zone event).

Definition tercio_label_of `{L : PyLib} (event : MatchEvent.t)
  : option pystr :=
  let tercio := strip (or_empty (MatchEvent.tercio event)) in
  match tercio with
  | [] => None
  | _ => map_tercio (Some tercio)
  end.

(** The value of a roster field a player starts from: that of the roster
    entry the dashboard resolved for the player, through [find_roster_entry]
    when the player has events and through the normalized name otherwise;
    0 without an entry. *)
Definition baseline `{L : PyLib} (roster_cache : roster) (stats : Stats.t)
    (field : RosterEntry.t -> Z) : Z :=
  if Stats.has_events stats
  then base_of (find_roster_entry (Stats.name stats) roster_cache) field
  else base_of (PyDict.get PyStr.eqb roster_cache
                  (normalize_player_name (Some (Stats.name stats))))
               field.

(** What the body of the first loop does to the stats of the player of an
    event. *)
Definition counted `{L : PyLib} (primary_team : Team.t) (player : Player.t)
    (before after : Stats.t) (event : MatchEvent.t) : Prop :=
  MatchEvent.player event = Some player
  /\ (Stats.player_id after = Stats.player_id before
      /\ Stats.name after = Stats.name before
      /\ Stats.has_events after = true)
  /\ (Stats.pc after = Stats.pc before
      /\ Stats.pj after = Stats.pj before
      /\ Stats.pt after = Stats.pt before
      /\ Stats.minutes after = Stats.minutes before)
  /\ (Stats.total_actions after = Stats.total_actions before + 1
      /\ Stats.successes after
         = Stats.successes before + count_if (success_event event)
      /\ Stats.goals after = Stats.goals before + count_if (goal_event event)
      /\ Stats.assists after
         = Stats.assists before + count_if (assist_event event)
      /\ Stats.yellow_cards after
         = Stats.yellow_cards before + count_if (yellow_card_event event)
      /\ Stats.red_cards after
         = Stats.red_cards before + count_if (red_card_event event))%Z
  /\ (Stats.duels_total after
      = Stats.duels_total before + count_if (duel_event event)
      /\ Stats.duels_won after
         = Stats.duels_won before + count_if (duel_won_event event)
      /\ Stats.shot_attempts after
         = Stats.shot_attempts before + count_if (shot_event event)
      /\ Stats.shots_on_target after
         = Stats.shots_on_target before
           + count_if (shot_event event && success_event event)
      /\ Stats.pass_attempts after
         = Stats.pass_attempts before + count_if (pass_event event)
      /\ Stats.passes_completed after
         = Stats.passes_completed before
           + count_if (pass_event event && success_event event))%Z
  /\ (increment_if (Stats.zone_counts before) (zone_label_of event)
      = Ok (Stats.zone_counts after)
      /\ increment_if (Stats.position_counts before)
                      (position_label_of player event)
         = Ok (Stats.position_counts after)
      /\ increment_if (Stats.tercio_counts before) (tercio_label_of event)
         = Ok (Stats.tercio_counts after)
      /\ increment_if (Stats.tercio_totals before) (tercio_label_of event)
         = Ok (Stats.tercio_totals after))
  /\ match MatchEvent.match_ event with
     | Some m =>
         count_match primary_team m (success_event event)
                     (Stats.matches before)
         = Ok (Stats.matches after)
     | None => Stats.matches after = Stats.matches before
     end.

(** What the first loop keeps true of a counter [f] that starts from
    [start] and goes up by one on the events [selected] holds of; [seen] are
    the events handled so far. *)
Definition tally_ok `{L : PyLib} (f : Stats.t -> Z)
    (selected : MatchEvent.t -> bool)
    (start : ((RosterEntry.t -> Z) -> Z) -> Z)
    (roster_cache : roster) (seen : list MatchEvent.t)
    (player_stats : list (Z * Stats.t)) : Prop :=
  (forall k stats,
     PyDict.get Z.eqb player_stats k = Some stats ->
     Stats.has_events stats = true
     /\ f stats = (start (baseline roster_cache stats)
                   + count_events k selected seen)%Z)
  /\ forall k,
       PyDict.get Z.eqb player_stats k = None ->
       forall event, In event seen -> by_player k event = false.

(** [label] is the key [key] of a counter. *)
Definition label_is (key : pystr) (label : option pystr) : bool :=
  match label with
  | Some (c :: l) => PyStr.eqb (c :: l) key
  | _ => false
  end.

(** The position an event is counted under, from the position of its
    player. *)
Definition position_label `{L : PyLib} (event : MatchEvent.t)
  : option pystr :=
  match MatchEvent.player event with
  | Some player => position_label_of player event
  | None => None
  end.

(** [event] belongs to the match. *)
Definition in_match (match_id : Z) (event : MatchEvent.t) : bool :=
  match MatchEvent.match_ event with
  | Some m => (Match.id m =? match_id)%Z
  | None => false
  end.

(** A counter of the entry of a match in ['matches'], 0 without an entry. *)
Definition match_counter (matches : list (Z * MatchEntry.t)) (match_id : Z)
    (counter : MatchEntry.t -> Z) : Z :=
  match PyDict.get Z.eqb matches match_id with
  | Some entry => counter entry
  | None => 0%Z
  end.

(** What the first loop keeps true of the ['matches'] of a player. *)
Definition matches_wf (matches : list (Z * MatchEntry.t)) : Prop :=
  NoDup (PyDict.keys matches)
  /\ forall match_id entry,
       PyDict.get Z.eqb matches match_id = Some entry ->
       MatchEntry.match_id entry = match_id
       /\ (1 <= MatchEntry.actions entry)%Z
       /\ MatchEntry.success_rate entry
          = round_int (inject_Z (MatchEntry.successes entry)
                       / inject_Z (MatchEntry.actions entry) * 100)%Q.

(** The roster key of a card and of a player of the dashboard. *)
Definition card_key `{L : PyLib} (card : Card.t) : pystr :=
  canonical_roster_key (Card.name card).

Definition player_key `{L : PyLib} (player : Merged.t) : pystr :=
  canonical_roster_key (Stats.name (Merged.stats player)).

(** [card] is the card of the first player of [players] with its roster
    key. *)
Definition first_with_key `{L : PyLib} (players : list Merged.t)
    (card : Card.t) : Prop :=
  exists before player after,
    players = before ++ player :: after
    /\ card_of player = Ok card
    /\ forall other, In other before -> player_key other <> player_key player.

(** What the loop of [compute_player_cards] keeps true; [done] are the
    players handled so far. *)
Definition cards_inv `{L : PyLib} (done : list Merged.t)
    (state : list Card.t * list pystr) : Prop :=
  let '(cards, seen_keys) := state in
  (forall key, In key seen_keys <->
               exists player, In player done /\ player_key player = key)
  /\ NoDup (map card_key cards)
  /\ (forall card, In card cards ->
        In (card_key card) seen_keys /\ first_with_key done card)
  /\ forall player, In player done ->
       exists card, In card cards /\ card_key card = player_key player.

(** The entry [load_player_roster_stats] stores for a row. *)
Definition roster_entry_of (row : RosterRow.t) : RosterEntry.t :=
  {| RosterEntry.name := RosterRow.full_name row;
     RosterEntry.position := RosterRow.position row;
     RosterEntry.age := RosterRow.age row;
     RosterEntry.pc := RosterRow.pc row;
     RosterEntry.pj := RosterRow.pj row;
     RosterEntry.pt := RosterRow.pt row;
     RosterEntry.minutes := RosterRow.minutes row;
     RosterEntry.goals := RosterRow.goals row;
     RosterEntry.yellow_cards := RosterRow.yellow_cards row;
     RosterEntry.red_cards := RosterRow.red_cards row;
     RosterEntry.assists := 0%Z |}.

(** The row has a name, and the name normalizes to [key]. *)
Definition row_has_key `{L : PyLib} (key : pystr) (row : RosterRow.t)
  : bool :=
  match RosterRow.full_name row with
  | [] => false
  | full_name => PyStr.eqb (normalize_player_name (Some full_name)) key
  end.

(** The entry stored under the canonical key of a name, if the key is not
    empty. *)
Definition exact_entry `{L : PyLib} (player_name : pystr) (roster : roster)
  : option RosterEntry.t :=
  match canonical_roster_key player_name with
  | [] => None
  | key => PyDict.get PyStr.eqb roster key
  end.

(** [top] is the first [n] of [l] in descending order of [key]: the
    elements left out, [rest], are not above any element of [top]. *)
Definition top_of {A K} (ge : K -> K -> bool) (key : A -> K) (n : nat)
    (l top : list A) : Prop :=
  exists rest,
    Permutation (top ++ rest) l
    /\ List.length top = Nat.min n (List.length l)
    /\ StronglySorted (fun a b => ge (key a) (key b) = true) top
    /\ forall x y, In x top -> In y rest -> ge (key x) (key y) = true.

(** The number of times [k] occurs in [xs]. *)
Definition occurrences {K} (keq : K -> K -> bool) (k : K) (xs : list K) : Z :=
  Z.of_nat (List.length (filter (keq k) xs)).

(** [top] lists the [n] most frequent values of [xs] with their numbers of
    occurrences, in descending order of that number; a value of [xs] that
    is left out occurs no more often than any value listed, and the list is
    then full. *)
Definition most_frequent {K} (keq : K -> K -> bool) (n : nat) (xs : list K)
    (top : list (K * Z)) : Prop :=
  NoDup (map fst top)
  /\ (List.length top <= n)%nat
  /\ (forall k c, In (k, c) top ->
        In k xs /\ c = occurrences keq k xs)
  /\ StronglySorted (fun a b => (snd b <= snd a)%Z) top
  /\ forall k, In k xs ->
       In (k, occurrences keq k xs) top
       \/ (List.length top = n
           /\ forall item, In item top ->
                (occurrences keq k xs <= snd item)%Z).

(** What the second loop keeps true when every minute of a live event lies
    between 0 and [M]: so do the end minutes and the entry and exit minutes
    of the timelines; a player with a timeline has one for some match, and
    every timeline has seen an event. *)
Definition timelines_bounded (M : Z)
    (state : list (Z * Z) * list (Z * list (Z * Timeline.t))) : Prop :=
  (forall match_id match_end,
     PyDict.get Z.eqb (fst state) match_id = Some match_end ->
     (0 <= match_end <= M)%Z)
  /\ forall player_id matches,
       PyDict.get Z.eqb (snd state) player_id = Some matches ->
       matches <> []
       /\ forall match_id timeline,
            PyDict.get Z.eqb matches match_id = Some timeline ->
            Timeline.has_event timeline = true
            /\ (forall e, Timeline.entry timeline = Some e -> (0 <= e <= M)%Z)
            /\ (forall x, Timeline.exit timeline = Some x -> (0 <= x <= M)%Z).

(** The number of events of a list that a test holds of. *)
Definition count_of (selected : MatchEvent.t -> bool)
    (events : list MatchEvent.t) : Z :=
  Z.of_nat (List.length (filter selected events)).

(** The counters of the page keep the keys they are created with. *)
Definition page_keys_ok (stats : PageStats.t) : Prop :=
  PyDict.keys (PageStats.zone_counts stats) = FIELD_ZONE_KEYS
  /\ PyDict.keys (PageStats.tercio_counts stats) = STANDARD_TERCIO_LABELS
  /\ PyDict.keys (PageStats.tercio_totals stats) = STANDARD_TERCIO_LABELS.

(** What the loop of the page adds to the counters over [events]. *)
Definition page_counted `{L : PyLib} (before after : PageStats.t)
    (events : list MatchEvent.t) : Prop :=
  (PageStats.total_actions after
   = PageStats.total_actions before + count_of (fun _ => true) events
   /\ PageStats.successes after
      = PageStats.successes before + count_of success_event events
   /\ PageStats.goals after
      = PageStats.goals before + count_of goal_event events
   /\ PageStats.assists after
      = PageStats.assists before + count_of assist_event events
   /\ PageStats.yellow_cards after
      = PageStats.yellow_cards before + count_of yellow_card_event events
   /\ PageStats.red_cards after
      = PageStats.red_cards before + count_of red_card_event events)%Z
  /\ (PageStats.duels_total after
      = PageStats.duels_total before + count_of duel_event events
      /\ PageStats.duels_won after
         = PageStats.duels_won before + count_of duel_won_event events
      /\ PageStats.shot_attempts after
         = PageStats.shot_attempts before + count_of shot_event events
      /\ PageStats.shots_on_target after
         = PageStats.shots_on_target before
           + count_of (fun event => shot_event event && success_event event)
                      events
      /\ PageStats.pass_attempts after
         = PageStats.pass_attempts before + count_of pass_event events
      /\ PageStats.passes_completed after
         = PageStats.passes_completed before
           + count_of (fun event => pass_event event && success_event event)
                      events)%Z
  /\ forall key,
       (PyDict.get_or PyStr.eqb (PageStats.zone_counts after) key 0
        = PyDict.get_or PyStr.eqb (PageStats.zone_counts before) key 0
          + count_of (fun event => label_is key (zone_label_of event))
                     events)%Z.

(** The rows of the queryset of the page: the confirmed events of the
    player in the match. *)
Definition page_events (db : database) (player : Player.t) (m : Match.t)
  : list MatchEvent.t :=
  filter (fun event => by_player (Player.id player) event
                       && in_match (Match.id m) event)
         (confirmed_events_queryset db).


(** The key [load_match_actions] compares two actions by. *)
Definition action_key `{L : PyLib} (action : pystr) : pystr :=
  lower (strip action).

(** What the loops of [load_match_actions] keep true of
    [(ordered, seen)]. *)
Definition actions_inv `{L : PyLib} (state : list pystr * list pystr)
  : Prop :=
  NoDup (map action_key (fst state))
  /\ forall key, In key (snd state) <->
                 exists item, In item (fst state) /\ action_key item = key.

(** The text holds the code point. *)
Definition has_code (code : N) (text : pystr) : bool :=
  existsb (N.eqb code) text.

(** The duel keywords without a precomposed "ó" (U+00F3). *)
Definition plain_duel_keywords : list pystr :=
  filter (fun keyword => negb (has_code 243 keyword)) DUEL_EVENT_KEYWORDS.

(** The tables with the rows [rows] in the place of the match events. *)
Definition with_events (db : database) (rows : list MatchEvent.t) : database :=
  {| match_events := rows;
     players := players db;
     roster_rows := roster_rows db |}.


(** ** Sample data *)

Module Sample.

Definition benagalbon : Team.t := {| Team.id := 1; Team.name := u"Benagalbón" |}.
Definition rival : Team.t := {| Team.id := 2; Team.name := u"Rival" |}.

Definition manu : Player.t :=
  {| Player.id := 7; Player.team_id := 1; Player.name := u"Manu";
     Player.number := Some 7%Z; Player.position := u"Delantero" |}.

(** Round 2 was played in January, round 1 (postponed) in February. *)
Definition round2 : Match.t :=
  {| Match.id := 1; Match.round := u"Jornada 2";
     Match.date := Some {| Date.year := 2024; Date.month := 1; Date.day := 10 |};
     Match.home_team := Some benagalbon; Match.away_team := Some rival |}.

Definition round1 : Match.t :=
  {| Match.id := 2; Match.round := u"Jornada 1";
     Match.date := Some {| Date.year := 2024; Date.month := 2; Date.day := 10 |};
     Match.home_team := Some rival; Match.away_team := Some benagalbon |}.

Definition event (m : Match.t) (minute : option Z)
    (event_type result zone system : string) : MatchEvent.t :=
  {| MatchEvent.match_ := Some m;
     MatchEvent.player := Some manu;
     MatchEvent.minute := minute;
     MatchEvent.event_type := Some (u event_type);
     MatchEvent.result := Some (u result);
     MatchEvent.zone := Some (u zone);
     MatchEvent.tercio := Some [];
     MatchEvent.observation := Some [];
     MatchEvent.system := u system |}.

Definition zero_stats : Stats.t :=
  new_stats manu (Some (u"Delantero")) None (fun _ => 0%Z).

Definition inverted : Timeline.t :=
  {| Timeline.entry := Some 10%Z; Timeline.exit := Some 5%Z;
     Timeline.has_event := true |}.


(** Two actions of one player, in round 2 (January) and round 1 (February). *)
Definition db_two_rounds : database :=
  {| match_events :=
       [event round2 (Some 12%Z) "Pase" "OK" "" "touch-field-final";
        event round1 (Some 30%Z) "Disparo" "OK" "Ataque Centro"
              "touch-field-final"];
     players := [manu];
     roster_rows := [] |}.

Definition row (full_name position : string) (pj minutes : Z) : RosterRow.t :=
  {| RosterRow.full_name := u full_name;
     RosterRow.position := u position;
     RosterRow.age := 24; RosterRow.pc := pj; RosterRow.pj := pj;
     RosterRow.pt := pj; RosterRow.minutes := minutes;
     RosterRow.goals := 0; RosterRow.yellow_cards := 0;
     RosterRow.red_cards := 0 |}.

Definition roster_table : list RosterRow.t :=
  [row "Antonio Gámez Paniagua" "Portero" 10 900;
   row "Manuel Torres Palenzuela" "Delantero" 8 560].

(** One imported action: the system column holds the formation. *)
Definition db_imported : database :=
  {| match_events := [event round2 (Some 12%Z) "Pase" "OK" "" "1-4-4-2"];
     players := [manu];
     roster_rows := [] |}.

Definition toni : Player.t :=
  {| Player.id := 9; Player.team_id := 1; Player.name := u"Toni";
     Player.number := Some 1%Z; Player.position := u"Portero" |}.

Definition lucas : Player.t :=
  {| Player.id := 11; Player.team_id := 1; Player.name := u"Lucas";
     Player.number := None; Player.position := [] |}.

Definition event_by (player : Player.t) (m : Match.t) (minute : option Z)
    (event_type result zone system : string) : MatchEvent.t :=
  {| MatchEvent.match_ := Some m;
     MatchEvent.player := Some player;
     MatchEvent.minute := minute;
     MatchEvent.event_type := Some (u event_type);
     MatchEvent.result := Some (u result);
     MatchEvent.zone := Some (u zone);
     MatchEvent.tercio := Some (u"Ataque");
     MatchEvent.observation := None;
     MatchEvent.system := u system |}.

(** Three players of the team: one save of the goalkeeper, two actions of
    the forward, and a player without events. *)
Definition db_squad : database :=
  {| match_events :=
       [event_by toni round2 (Some 5%Z) "Parada" "OK" "Defensa Centro"
                 "touch-field-final";
        event_by manu round2 (Some 12%Z) "Pase" "OK" "Ataque Centro"
                 "touch-field-final";
        event_by manu round2 (Some 30%Z) "Disparo" "Gol" "Ataque Centro"
                 "touch-field-final"];
     players := [toni; lucas; manu];
     roster_rows := [] |}.

End Sample.

(** * Properties *)

(** ** Strings *)

Lemma eqb_eq (a b : pystr) : PyStr.eqb a b = true <-> a = b.
Proof.
  revert b; induction a as [|x a IH]; intros [|y b]; simpl;
    try (split; [discriminate | congruence]); try tauto.
  rewrite andb_true_iff, N.eqb_eq, IH.
  split; [intros [-> ->]; reflexivity | intros [= -> ->]; auto].
Qed.

Lemma eqb_refl (a : pystr) : PyStr.eqb a a = true.
Proof. apply eqb_eq; reflexivity. Qed.

Lemma startswith_spec (k s : pystr) :
  startswith k s = true <-> exists post, s = k ++ post.
Proof.
  revert s; induction k as [|x k IH]; intros s; simpl.
  - split; [exists s; reflexivity | reflexivity].
  - destruct s as [|y s].
    + split; [discriminate | intros [post [=]]].
    + rewrite andb_true_iff, N.eqb_eq, IH. split.
      * intros [-> [post ->]]. exists post; reflexivity.
      * intros [post [= -> ->]]. split; [reflexivity | exists post; reflexivity].
Qed.

Lemma pyin_spec (k s : pystr) : pyin k s = true <-> substring k s.
Proof.
  unfold substring. induction s as [|c s IH].
  - simpl. rewrite orb_false_r, startswith_spec. split.
    + intros [post E]. exists [], post. exact E.
    + intros [[|? ?] [post E]]; [exists post; exact E | discriminate].
  - cbn [pyin]. rewrite orb_true_iff, startswith_spec, IH. split.
    + intros [[post E] | [pre [post E]]].
      * exists [], post. exact E.
      * exists (c :: pre), post. simpl. now rewrite E.
    + intros [[|c' pre] [post E]].
      * left. exists post. exact E.
      * right. injection E as _ E. exists pre, post. exact E.
Qed.

Lemma pyin_empty (k : pystr) : k <> [] -> pyin k [] = false.
Proof. destruct k; [congruence | reflexivity]. Qed.

(** ** The goal predicate (C1) *)

Section ClassifierFacts.
Context `{L : PyLib}.

Lemma contains_keyword_spec (value : option pystr) (keywords : list pystr) :
  contains_keyword value keywords = true <->
  exists keyword,
    In keyword keywords /\ substring keyword (normalize_label value).
Proof.
  unfold contains_keyword. rewrite existsb_exists.
  split; intros [k [Hin Hk]]; exists k; (split; [exact Hin|]);
    apply pyin_spec; exact Hk.
Qed.

Lemma contains_keyword_absent (keywords : list pystr) :
  Forall (fun keyword => keyword <> []) keywords ->
  contains_keyword None keywords = false.
Proof.
  intros Hne. unfold contains_keyword. simpl.
  induction Hne as [|k ks Hk _ IH]; simpl; [reflexivity|].
  rewrite IH, orb_false_r. destruct k; [congruence | reflexivity].
Qed.

(** C1.  [is_goal_event] holds exactly when the normalized text of the
    event type, of the result or of the observation contains a keyword of
    [GOAL_KEYWORDS]; the normalized text is the NFKD form with the
    characters that are neither alphanumeric nor spaces removed, in lower
    case and stripped; an absent or empty text normalizes to the empty
    string and matches no keyword. *)
Theorem is_goal_event_iff_keyword
    (event_type result observation : option pystr) :
  (is_goal_event event_type result observation = true <->
   exists text,
     In text [event_type; result; observation] /\
     exists keyword,
       In keyword GOAL_KEYWORDS /\ substring keyword (normalize_label text))
  /\ (forall c v,
        normalize_label (Some (c :: v)) =
        strip (lower (filter (fun ch => isalnum ch || isspace ch)
                             (nfkd (c :: v)))))
  /\ normalize_label None = []
  /\ normalize_label (Some []) = []
  /\ contains_keyword None GOAL_KEYWORDS = false
  /\ contains_keyword (Some []) GOAL_KEYWORDS = false.
Proof.
  split; [|repeat split; reflexivity].
  unfold is_goal_event. rewrite !orb_true_iff, !contains_keyword_spec.
  split.
  - intros [[H | H] | H].
    + exists event_type. split; [simpl; auto | exact H].
    + exists result. split; [simpl; auto | exact H].
    + exists observation. split; [simpl; auto | exact H].
  - intros [text [Hin H]]. simpl in Hin.
    destruct Hin as [<- | [<- | [<- | []]]]; auto.
Qed.

(** ** Substitution entry and exit (C7) *)

(** C7, amended.  An event is never both a substitution entry and a
    substitution exit unless its result and zone texts hold an entry keyword
    and an exit keyword at once. *)
Theorem entry_exit_exclusive_unless_both_keywords
    (event_type result zone : option pystr) :
  (contains_keyword result SUB_ENTRY_KEYWORDS
   || contains_keyword zone SUB_ENTRY_KEYWORDS)
  && (contains_keyword result SUB_EXIT_KEYWORDS
      || contains_keyword zone SUB_EXIT_KEYWORDS) = false ->
  is_substitution_entry event_type result zone
  && is_substitution_exit event_type result zone = false.
Proof.
  unfold is_substitution_entry, is_substitution_exit.
  destruct (is_substitution_event event_type zone); simpl; auto.
Qed.

End ClassifierFacts.

(** C7 as stated fails: a substitution whose result says "Entrada" and whose
    zone says "Salida" is an entry and an exit. *)
Lemma substitution_entry_and_exit_at_once :
  @is_substitution_entry Latin.lib
    (Some (u"Cambio")) (Some (u"Entrada")) (Some (u"Salida")) = true
  /\ @is_substitution_exit Latin.lib
    (Some (u"Cambio")) (Some (u"Entrada")) (Some (u"Salida")) = true.
Proof. split; vm_compute; reflexivity. Qed.

Lemma entry_exit_exclusive_witness :
  @is_substitution_entry Latin.lib (Some (u"Cambio")) (Some (u"Entrada")) None
  && @is_substitution_exit Latin.lib (Some (u"Cambio")) (Some (u"Entrada")) None
  = false.
Proof.
  apply (@entry_exit_exclusive_unless_both_keywords Latin.lib).
  vm_compute; reflexivity.
Defined.

(** ** The third mapper (C6) *)

(** C6.  [map_tercio] walks [TERCIO_MAP] in the order it is written, not
    longest phrase first as [map_zone_label] and [categorize_position] do:
    "Construcción de ataque" holds "construccion" (12 letters) and "ataque"
    (6 letters), and is mapped to the third of the shorter. *)
Theorem map_tercio_prefers_table_order :
  let raw := Some (u"Construcción de ataque") in
  @map_tercio Latin.lib raw = Some (u"Ataque")
  /\ first_label (fun key => pyin key (@normalize_label Latin.lib raw))
                 (longest_first TERCIO_MAP) = Some (u"Construcción")
  /\ pyin (u"construccion") (@normalize_label Latin.lib raw) = true
  /\ pyin (u"ataque") (@normalize_label Latin.lib raw) = true.
Proof. repeat split; vm_compute; reflexivity. Qed.

(** ** Dicts *)

Section DictFacts.
Context {K V : Type} (keq : K -> K -> bool).
Hypothesis keq_spec : forall a b, keq a b = true <-> a = b.

Lemma keq_refl (k : K) : keq k k = true.
Proof. apply keq_spec; reflexivity. Qed.

Lemma keq_neq (a b : K) : a <> b -> keq a b = false.
Proof.
  intros Hne. destruct (keq a b) eqn:E; [|reflexivity].
  apply keq_spec in E. contradiction.
Qed.

Lemma get_set_same (d : list (K * V)) k v :
  PyDict.get keq (PyDict.set keq d k v) k = Some v.
Proof.
  induction d as [|[k' v'] d IH]; simpl.
  - now rewrite keq_refl.
  - destruct (keq k k') eqn:E; simpl; rewrite E; auto.
Qed.

Lemma get_set_other (d : list (K * V)) k k' v :
  k <> k' -> PyDict.get keq (PyDict.set keq d k v) k' = PyDict.get keq d k'.
Proof.
  intros Hne. induction d as [|[k0 v0] d IH]; simpl.
  - rewrite keq_neq; auto.
  - destruct (keq k k0) eqn:E; simpl.
    + apply keq_spec in E; subst k0. rewrite !keq_neq; auto.
    + rewrite IH. reflexivity.
Qed.

Lemma get_In (d : list (K * V)) k v :
  PyDict.get keq d k = Some v -> In (k, v) d.
Proof.
  induction d as [|[k' v'] d IH]; simpl; [discriminate|].
  destruct (keq k k') eqn:E.
  - apply keq_spec in E; subst. intros [= ->]. now left.
  - intros H. right. auto.
Qed.

Lemma get_None_keys (d : list (K * V)) k :
  PyDict.get keq d k = None <-> ~ In k (PyDict.keys d).
Proof.
  induction d as [|[k' v'] d IH]; simpl; [tauto|].
  destruct (keq k k') eqn:E.
  - apply keq_spec in E; subst. split; [discriminate | tauto].
  - rewrite IH. split; [|tauto].
    intros Hn [Heq | Hin]; [|tauto].
    subst. rewrite keq_refl in E. discriminate.
Qed.

Lemma In_get (d : list (K * V)) k v :
  NoDup (PyDict.keys d) -> In (k, v) d -> PyDict.get keq d k = Some v.
Proof.
  induction d as [|[k' v'] d IH]; simpl; [tauto|].
  intros Hnd [[= -> ->] | Hin].
  - now rewrite keq_refl.
  - inversion Hnd as [|? ? Hnotin Hnd']; subst.
    destruct (keq k k') eqn:E.
    + apply keq_spec in E; subst. exfalso. apply Hnotin.
      apply (in_map fst) in Hin. exact Hin.
    + auto.
Qed.

Lemma keys_set (d : list (K * V)) k v :
  PyDict.keys (PyDict.set keq d k v) =
  match PyDict.get keq d k with
  | Some _ => PyDict.keys d
  | None => PyDict.keys d ++ [k]
  end.
Proof.
  induction d as [|[k' v'] d IH]; simpl; [reflexivity|].
  destruct (keq k k') eqn:E; simpl; [reflexivity|].
  rewrite IH. destruct (PyDict.get keq d k); reflexivity.
Qed.

Lemma NoDup_keys_set (d : list (K * V)) k v :
  NoDup (PyDict.keys d) -> NoDup (PyDict.keys (PyDict.set keq d k v)).
Proof.
  intros Hnd. rewrite keys_set.
  destruct (PyDict.get keq d k) eqn:E; [assumption|].
  apply get_None_keys in E.
  apply NoDup_rev in Hnd. rewrite <- (rev_involutive (_ ++ _)).
  apply NoDup_rev. rewrite rev_app_distr. simpl.
  constructor; [|assumption]. now rewrite <- in_rev.
Qed.

Lemma In_values_set (d : list (K * V)) k v x :
  In x (PyDict.values (PyDict.set keq d k v)) ->
  x = v \/ In x (PyDict.values d).
Proof.
  induction d as [|[k' v'] d IH]; simpl.
  - intros [<- | []]. now left.
  - destruct (keq k k'); simpl.
    + intros [<- | Hin]; auto.
    + intros [<- | Hin]; auto. destruct (IH Hin); auto.
Qed.

Lemma get_In_values (d : list (K * V)) k v :
  PyDict.get keq d k = Some v -> In v (PyDict.values d).
Proof.
  intros H. apply get_In in H. apply (in_map snd) in H. exact H.
Qed.
End DictFacts.

Lemma Z_eqb_spec (a b : Z) : (a =? b)%Z = true <-> a = b.
Proof. apply Z.eqb_eq. Qed.

(** ** Timeline reconstruction (C3, C10) *)

Section TimelineFacts.
Context `{L : PyLib}.
Local Open Scope Z_scope.

(** C3.  When the exit minute the third loop derives (the recorded one, or
    the match end minute) is earlier than the entry minute (the recorded
    one, or 0), the loop takes the entry minute as exit minute and adds no
    minutes to the player; the step is a total function, and no timeline
    ever lowers the minutes. *)
Theorem inverted_timeline_adds_no_minutes
    (match_end_minutes : list (Z * Z)) (stats : Stats.t) (match_id : Z)
    (timeline : Timeline.t) :
  let match_end := PyDict.get_or Z.eqb match_end_minutes match_id 0 in
  let entry_minute :=
    match Timeline.entry timeline with
    | Some minute => minute
    | None => 0
    end in
  let exit_minute :=
    match Timeline.exit timeline with
    | Some minute => minute
    | None => match_end
    end in
  exit_minute < entry_minute ->
  derived_minutes match_end timeline = (entry_minute, entry_minute)
  /\ Stats.minutes (apply_timeline match_end_minutes stats (match_id, timeline))
     = Stats.minutes stats + 0
  /\ (forall any_timeline,
        Stats.minutes stats <=
        Stats.minutes
          (apply_timeline match_end_minutes stats (match_id, any_timeline))).
Proof.
  intros match_end entry_minute exit_minute Hlt.
  assert (Hmono : forall any_timeline,
             Stats.minutes stats <=
             Stats.minutes
               (apply_timeline match_end_minutes stats (match_id, any_timeline))).
  { intros t. unfold apply_timeline.
    destruct (derived_minutes _ t) as [e x]. simpl. lia. }
  assert (Hd : derived_minutes match_end timeline
               = (entry_minute, entry_minute)).
  { unfold derived_minutes. subst entry_minute exit_minute.
    destruct (Timeline.entry timeline), (Timeline.exit timeline);
      apply Z.ltb_lt in Hlt; now rewrite Hlt. }
  split; [exact Hd|]. split; [|exact Hmono].
  unfold apply_timeline. fold match_end. rewrite Hd. simpl.
  rewrite Z.sub_diag. reflexivity.
Qed.

Lemma track_event_timeline state event player_id match_id :
  timeline_of (snd (track_event state event)) player_id match_id =
  observe player_id match_id (timeline_of (snd state) player_id match_id) event.
Proof.
  destruct state as [ends pmt]. unfold track_event, observe, event_of.
  destruct (MatchEvent.player event) as [player|]; [|reflexivity].
  destruct (MatchEvent.match_ event) as [m|];
    [|destruct (MatchEvent.minute event); reflexivity].
  unfold PyDict.setdefault, timeline_of. cbn [snd].
  destruct (Z.eqb_spec (Player.id player) player_id) as [-> | Hp].
  - destruct (PyDict.get Z.eqb pmt player_id) as [matches|] eqn:Hget.
    + destruct (PyDict.get Z.eqb matches (Match.id m)) as [t|] eqn:Ht;
        cbn [snd]; rewrite (get_set_same Z.eqb Z_eqb_spec);
        (destruct (Z.eqb_spec (Match.id m) match_id) as [<- | Hm];
         [ rewrite (get_set_same Z.eqb Z_eqb_spec); cbn [andb];
           rewrite ?Ht; reflexivity
         | rewrite !(get_set_other Z.eqb Z_eqb_spec) by assumption;
           reflexivity ]).
    + cbn [PyDict.get snd]. rewrite (get_set_same Z.eqb Z_eqb_spec).
      destruct (Z.eqb_spec (Match.id m) match_id) as [<- | Hm].
      * rewrite (get_set_same Z.eqb Z_eqb_spec). reflexivity.
      * rewrite !(get_set_other Z.eqb Z_eqb_spec) by assumption. reflexivity.
  - cbn [andb].
    destruct (PyDict.get Z.eqb pmt (Player.id player)) as [matches|] eqn:Hget;
      destruct (PyDict.get Z.eqb _ (Match.id m)); cbn [snd];
      rewrite !(get_set_other Z.eqb Z_eqb_spec) by assumption; reflexivity.
Qed.

Lemma fold_track_timeline live_events state player_id match_id :
  timeline_of (snd (fold_left track_event live_events state))
              player_id match_id =
  fold_left (observe player_id match_id) live_events
            (timeline_of (snd state) player_id match_id).
Proof.
  revert state. induction live_events as [|event l IH]; intros state; simpl.
  - reflexivity.
  - rewrite IH, track_event_timeline. reflexivity.
Qed.

Lemma observe_some player_id match_id live_events t :
  exists t',
    fold_left (observe player_id match_id) live_events (Some t) = Some t'.
Proof.
  revert t. induction live_events as [|event l IH]; intros t; simpl.
  - exists t; reflexivity.
  - unfold observe at 2. destruct (event_of event player_id match_id); apply IH.
Qed.



Lemma observe_exists player_id match_id live_events init :
  existsb (fun event => event_of event player_id match_id) live_events = true ->
  exists t,
    fold_left (observe player_id match_id) live_events init = Some t.
Proof.
  revert init. induction live_events as [|event l IH]; intros init; simpl.
  - discriminate.
  - unfold observe at 2.
    destruct (event_of event player_id match_id); simpl.
    + intros _. apply observe_some.
    + apply IH.
Qed.




End TimelineFacts.

Lemma inverted_timeline_witness :
  derived_minutes (PyDict.get_or Z.eqb [(1, 90)] 1 0)%Z Sample.inverted
    = (10, 10)%Z
  /\ Stats.minutes (apply_timeline [(1, 90)]%Z Sample.zero_stats
                                    (1%Z, Sample.inverted)) = (0 + 0)%Z.
Proof.
  pose proof (@inverted_timeline_adds_no_minutes [(1, 90)]%Z Sample.zero_stats
                1%Z Sample.inverted eq_refl) as H.
  split; [exact (proj1 H) | exact (proj1 (proj2 H))].
Defined.


(** ** Rates (C2) *)

Lemma bind_Ok {A B} (c : result A) (k : A -> result B) (b : B) :
  bind c k = Ok b -> exists a, c = Ok a /\ k a = Ok b.
Proof. destruct c as [a|e]; simpl; [eauto | discriminate]. Qed.

Lemma bind_Raise {A B} (c : result A) (k : A -> result B) (e : exn) :
  bind c k = Raise e -> c = Raise e \/ exists a, c = Ok a /\ k a = Raise e.
Proof. destruct c as [a|e']; simpl; [eauto | intros [= ->]; auto]. Qed.

Lemma for_each_invariant {A S} (P : S -> Prop) (step : S -> A -> result S)
    (xs : list A) :
  (forall acc x acc', P acc -> step acc x = Ok acc' -> P acc') ->
  forall init out, P init -> for_each step xs init = Ok out -> P out.
Proof.
  intros Hstep. induction xs as [|x xs IH]; intros init out Hinit; simpl.
  - intros [= <-]. exact Hinit.
  - intros H. apply bind_Ok in H as [acc [Hacc Hrest]].
    eapply IH; [|exact Hrest]. eapply Hstep; eauto.
Qed.

Lemma for_each_raises {A S} (Q : exn -> Prop) (step : S -> A -> result S)
    (xs : list A) :
  (forall acc x e, step acc x = Raise e -> Q e) ->
  forall init e, for_each step xs init = Raise e -> Q e.
Proof.
  intros Hstep. induction xs as [|x xs IH]; intros init e; simpl.
  - discriminate.
  - intros H. apply bind_Raise in H as [H | [acc [_ H]]]; eauto.
Qed.

Lemma collect_In {A B} (f : A -> result B) (xs : list A) (ys : list B) :
  collect f xs = Ok ys ->
  forall y, In y ys -> exists x, In x xs /\ f x = Ok y.
Proof.
  revert ys. induction xs as [|x xs IH]; intros ys; simpl.
  - intros [= <-] y [].
  - intros H. apply bind_Ok in H as [y0 [Hy0 H]].
    apply bind_Ok in H as [ys0 [Hys0 [= <-]]].
    intros y [<- | Hin].
    + exists x. auto.
    + destruct (IH _ Hys0 y Hin) as [x' [Hx' Hf]]. exists x'. auto.
Qed.

Lemma collect_raises {A B} (Q : exn -> Prop) (f : A -> result B)
    (xs : list A) :
  (forall x e, f x = Raise e -> Q e) ->
  forall e, collect f xs = Raise e -> Q e.
Proof.
  intros Hf. induction xs as [|x xs IH]; intros e; simpl.
  - discriminate.
  - intros H. apply bind_Raise in H as [H | [y [_ H]]]; [eauto|].
    apply bind_Raise in H as [H | [ys [_ H]]]; [eauto | discriminate].
Qed.

Lemma round_int_bounds (x : Q) (a b : Z) :
  (inject_Z a <= x)%Q -> (x <= inject_Z b)%Q ->
  (a <= round_int x <= b)%Z.
Proof.
  intros Ha Hb. unfold round_int.
  pose proof (Qfloor_le x) as Hfl. pose proof (Qlt_floor x) as Hfu.
  set (f := Qfloor x) in *.
  assert (Haf : (a <= f)%Z).
  { assert (H : (inject_Z a < inject_Z (f + 1))%Q)
      by (eapply Qle_lt_trans; eauto).
    rewrite <- Zlt_Qlt in H. lia. }
  assert (Hfb : (f <= b)%Z).
  { rewrite Zle_Qle. eapply Qle_trans; eauto. }
  assert (Hup : (Qcompare (x - inject_Z f) (1 # 2) <> Lt -> f + 1 <= b)%Z).
  { intros Hc. destruct (Z.eq_dec f b) as [Heq | Hne]; [|lia].
    exfalso. apply Hc. rewrite <- Qlt_alt. subst b. lra. }
  destruct (Qcompare (x - inject_Z f) (1 # 2)) eqn:Hc.
  - destruct (Z.even f); [lia|]. assert (f + 1 <= b)%Z by (apply Hup; congruence).
    lia.
  - lia.
  - assert (f + 1 <= b)%Z by (apply Hup; congruence). lia.
Qed.

Lemma rate_spec (num den : Z) :
  exists r, rate num den = Ok r
            /\ (den = 0%Z -> r = 0%Q)
            /\ ((0 <= num <= den)%Z -> (0 <= r)%Q /\ (r <= 100)%Q).
Proof.
  unfold rate, truediv. destruct (Z.eqb_spec den 0) as [-> | Hne].
  - exists 0%Q. repeat split; try reflexivity; try discriminate.
  - simpl. eexists. split; [reflexivity|]. split; [congruence|].
    intros [Hlo Hhi]. unfold round1.
    assert (Hden : (0 < den)%Z) by lia.
    assert (Hq : (inject_Z 0 <= inject_Z num / inject_Z den * 100 * 10)%Q
                 /\ (inject_Z num / inject_Z den * 100 * 10 <= inject_Z 1000)%Q).
    { assert (Hd : (0 < inject_Z den)%Q) by (rewrite (Zlt_Qlt 0 den) in Hden; exact Hden).
      assert (Hn : (0 <= inject_Z num)%Q) by (rewrite (Zle_Qle 0 num) in Hlo; exact Hlo).
      assert (Hnd : (inject_Z num <= inject_Z den)%Q) by (rewrite <- Zle_Qle; exact Hhi).
      assert (H0 : (0 <= inject_Z num / inject_Z den)%Q).
      { apply Qle_shift_div_l; [exact Hd|]. lra. }
      assert (H1 : (inject_Z num / inject_Z den <= 1)%Q).
      { apply Qle_shift_div_r; [exact Hd|]. lra. }
      change (inject_Z 0) with 0%Q. change (inject_Z 1000) with 1000%Q.
      split; lra. }
    destruct Hq as [Hq0 Hq1].
    pose proof (round_int_bounds Hq0 Hq1) as [Hr0 Hr1].
    rewrite Zle_Qle in Hr0, Hr1.
    change (inject_Z 0) with 0%Q in Hr0. change (inject_Z 1000) with 1000%Q in Hr1.
    set (z := inject_Z (round_int _)) in *.
    split.
    + apply Qle_shift_div_l; lra.
    + apply Qle_shift_div_r; lra.
Qed.

Lemma sorted_In {A K} (le : K -> K -> bool) (key : A -> K) (l : list A) x :
  In x (sorted le key l) <-> In x l.
Proof.
  assert (Hins : forall y l', In x (insert_sorted le key y l') <->
                              y = x \/ In x l').
  { intros y l'. induction l' as [|z l' IH]; simpl; [tauto|].
    destruct (le (key y) (key z)); simpl; [tauto|]. rewrite IH. tauto. }
  induction l as [|y l IH]; simpl; [tauto|].
  rewrite Hins, IH. tauto.
Qed.

Lemma setdefault_values {K V} (keq : K -> K -> bool)
    (keq_spec : forall a b, keq a b = true <-> a = b)
    (d d' : list (K * V)) k v x :
  PyDict.setdefault keq d k v = (x, d') ->
  (x = v \/ In x (PyDict.values d))
  /\ PyDict.get keq d' k = Some x
  /\ forall y, In y (PyDict.values d') -> y = v \/ In y (PyDict.values d).
Proof.
  unfold PyDict.setdefault.
  destruct (PyDict.get keq d k) as [x0|] eqn:Hget; intros [= <- <-].
  - split; [right; eapply get_In_values; eauto|]. split; auto.
  - split; [now left|]. split; [now apply get_set_same|].
    intros y Hy. now apply In_values_set in Hy.
Qed.

Section DashboardFacts.
Context `{L : PyLib}.
Local Open Scope Z_scope.

Lemma increment_if_raises d label e :
  increment_if d label = Raise e -> exists key, e = KeyError key.
Proof.
  unfold increment_if, increment. destruct label as [[|c l]|]; try discriminate.
  destruct (PyDict.get _ d (c :: l)); [discriminate|].
  intros [= <-]. eauto.
Qed.

Lemma count_match_Ok primary_team m success matches :
  exists matches', count_match primary_team m success matches = Ok matches'.
Proof.
  unfold count_match. destruct (PyDict.setdefault _ _ _ _) as [entry ms].
  unfold truediv.
  destruct (MatchEntry.actions entry + 1 =? 0); simpl; eauto.
Qed.

Lemma count_event_raises primary_team roster_cache player_stats event e :
  count_event primary_team roster_cache player_stats event = Raise e ->
  exists key, e = KeyError key.
Proof.
  unfold count_event.
  destruct (MatchEvent.player event) as [player|]; [|discriminate].
  destruct (PyDict.setdefault _ _ _ _) as [stats ps1].
  intros H.
  repeat (apply bind_Raise in H as [H | [? [_ H]]];
          [eapply increment_if_raises; exact H|]).
  apply bind_Raise in H as [H | [? [_ H]]]; [|discriminate].
  destruct (MatchEvent.match_ event) as [m|]; [|discriminate].
  destruct (count_match_Ok primary_team m
              (result_is_success (MatchEvent.result event))
              (Stats.matches stats)) as [ms Hms].
  rewrite Hms in H. discriminate.
Qed.

Lemma new_stats_counters_ok player position age base :
  counters_ok (new_stats player position age base).
Proof. split; [simpl; lia | intros entry []]. Qed.

Lemma round_int_percent (successes actions : Z) :
  0 <= successes <= actions -> 0 < actions ->
  0 <= round_int (inject_Z successes / inject_Z actions * 100) <= 100.
Proof.
  intros [Hlo Hhi] Hpos. apply round_int_bounds.
  - assert (Hd : (0 < inject_Z actions)%Q)
      by (rewrite (Zlt_Qlt 0 actions) in Hpos; exact Hpos).
    assert (Hn : (0 <= inject_Z successes)%Q)
      by (rewrite (Zle_Qle 0 successes) in Hlo; exact Hlo).
    assert (H0 : (0 <= inject_Z successes / inject_Z actions)%Q)
      by (apply Qle_shift_div_l; [exact Hd | lra]).
    change (inject_Z 0) with 0%Q. lra.
  - assert (Hd : (0 < inject_Z actions)%Q)
      by (rewrite (Zlt_Qlt 0 actions) in Hpos; exact Hpos).
    assert (Hnd : (inject_Z successes <= inject_Z actions)%Q)
      by (rewrite <- Zle_Qle; exact Hhi).
    assert (H1 : (inject_Z successes / inject_Z actions <= 1)%Q)
      by (apply Qle_shift_div_r; [exact Hd | lra]).
    change (inject_Z 100) with 100%Q. lra.
Qed.

Lemma count_match_entries primary_team m success matches matches' :
  (forall entry, In entry (PyDict.values matches) -> match_entry_ok entry) ->
  count_match primary_team m success matches = Ok matches' ->
  forall entry, In entry (PyDict.values matches') -> match_entry_ok entry.
Proof.
  intros Hall. unfold count_match.
  destruct (PyDict.setdefault _ _ _ _) as [e ms] eqn:Hsd.
  apply (setdefault_values Z.eqb Z_eqb_spec) in Hsd as [He [_ Hms]].
  assert (Hok : match_entry_ok e).
  { destruct He as [-> | Hin]; [|auto]. unfold match_entry_ok. cbn. lia. }
  destruct Hok as [Hs [_ _]].
  intros H. apply bind_Ok in H as [rate_value [Hrate [= <-]]].
  intros entry Hin. apply (In_values_set Z.eqb) in Hin as [-> | Hin].
  - unfold match_entry_ok. cbn.
    assert (Hs' : 0 <= MatchEntry.successes e + count_if success
                  <= MatchEntry.actions e + 1)
      by (unfold count_if; destruct success; lia).
    split; [exact Hs'|].
    destruct (Z.eqb_spec (MatchEntry.actions e + 1) 0) as [Hz | Hnz]; [lia|].
    unfold truediv in Hrate.
    destruct (Z.eqb_spec (MatchEntry.actions e + 1) 0); [lia|].
    cbn in Hrate. injection Hrate as <-.
    split; [apply round_int_percent; lia | lia].
  - destruct (Hms entry Hin) as [-> | Hin'];
      [unfold match_entry_ok; cbn; lia | auto].
Qed.

Lemma count_event_counters primary_team roster_cache player_stats event out :
  all_counters_ok player_stats ->
  count_event primary_team roster_cache player_stats event = Ok out ->
  all_counters_ok out.
Proof.
  intros Hall. unfold count_event.
  destruct (MatchEvent.player event) as [player|];
    [|intros [= <-]; exact Hall].
  destruct (PyDict.setdefault _ _ _ _) as [stats ps1] eqn:Hsd.
  apply (setdefault_values Z.eqb Z_eqb_spec) in Hsd as [Hstats [_ Hps1]].
  assert (Hok : counters_ok stats).
  { destruct Hstats as [-> | Hin]; [apply new_stats_counters_ok | auto]. }
  intros H. do 4 (apply bind_Ok in H as [? [_ H]]).
  apply bind_Ok in H as [matches' [Hmatches H]].
  injection H as <-.
  intros s Hs. apply (In_values_set Z.eqb) in Hs as [-> | Hs].
  - destruct Hok as [[H1 [H2 [H3 H4]]] H5]. split.
    + cbn. unfold count_if.
      repeat match goal with
             | |- context [if ?b && ?c then _ else _] => destruct b; cbn [andb]
             | |- context [if ?b then _ else _] => destruct b
             end; lia.
    + cbn [Stats.matches].
      destruct (MatchEvent.match_ event) as [m|].
      * eapply count_match_entries; eauto.
      * injection Hmatches as <-. exact H5.
  - destruct (Hps1 s Hs) as [-> | Hin];
      [apply new_stats_counters_ok | auto].
Qed.

Lemma with_appearances_counters_ok stats pc pj pt minutes :
  counters_ok stats -> counters_ok (with_appearances stats pc pj pt minutes).
Proof. exact (fun H => H). Qed.

Lemma apply_timelines_counters_ok match_end_minutes matches stats :
  counters_ok stats ->
  counters_ok (fold_left (apply_timeline match_end_minutes) matches stats).
Proof.
  revert stats. induction matches as [|[match_id t] l IH]; intros stats H.
  - exact H.
  - cbn [fold_left]. apply IH. unfold apply_timeline.
    destruct (derived_minutes _ t). exact H.
Qed.

Lemma apply_player_timelines_counters match_end_minutes player_stats item :
  all_counters_ok player_stats ->
  all_counters_ok (apply_player_timelines match_end_minutes player_stats item).
Proof.
  intros Hall. destruct item as [player_id matches]. unfold apply_player_timelines.
  destruct (PyDict.get Z.eqb player_stats player_id) as [stats|] eqn:Hget;
    [|exact Hall].
  intros s Hs. apply (In_values_set Z.eqb) in Hs as [-> | Hs]; [|auto].
  unfold apply_matches.
  apply with_appearances_counters_ok, apply_timelines_counters_ok.
  apply Hall. eapply get_In_values; [apply Z_eqb_spec | exact Hget].
Qed.

Lemma add_roster_player_counters roster_cache player_stats player :
  all_counters_ok player_stats ->
  all_counters_ok (add_roster_player roster_cache player_stats player).
Proof.
  intros Hall. unfold add_roster_player.
  destruct (PyDict.get Z.eqb player_stats (Player.id player)); [exact Hall|].
  intros s Hs. apply (In_values_set Z.eqb) in Hs as [-> | Hs]; [|auto].
  apply new_stats_counters_ok.
Qed.

Lemma fold_left_invariant {A S} (P : S -> Prop) (step : S -> A -> S)
    (xs : list A) :
  (forall acc x, P acc -> P (step acc x)) ->
  forall init, P init -> P (fold_left step xs init).
Proof.
  intros Hstep. induction xs as [|x xs IH]; intros init H; simpl; auto.
Qed.

Lemma gather_stats_counters events live_events roster_players primary_team
    roster_cache player_stats :
  gather_stats events live_events roster_players primary_team roster_cache
    = Ok player_stats ->
  all_counters_ok player_stats.
Proof.
  unfold gather_stats. intros H. apply bind_Ok in H as [ps1 [H1 H]].
  destruct (fold_left track_event live_events ([], [])) as [ends pmt].
  injection H as <-.
  apply fold_left_invariant; [intros; now apply add_roster_player_counters|].
  apply fold_left_invariant;
    [intros; now apply apply_player_timelines_counters|].
  assert (Hinit : all_counters_ok []) by (intros s []).
  revert H1. apply for_each_invariant; [|exact Hinit].
  intros acc x acc' Hacc Hstep. eapply count_event_counters; eauto.
Qed.

Lemma gather_stats_raises events live_events roster_players primary_team
    roster_cache e :
  gather_stats events live_events roster_players primary_team roster_cache
    = Raise e ->
  exists key, e = KeyError key.
Proof.
  unfold gather_stats. intros H. apply bind_Raise in H as [H | [ps1 [_ H]]].
  - eapply (for_each_raises (fun e => exists key, e = KeyError key)); [|exact H].
    intros acc x e0. apply count_event_raises.
  - destruct (fold_left track_event live_events ([], [])). discriminate.
Qed.

End DashboardFacts.

Section RateFacts.
Context `{L : PyLib}.
Local Open Scope Z_scope.

Lemma rate_Ok num den : exists r, rate num den = Ok r.
Proof. destruct (rate_spec num den) as [r [H _]]. eauto. Qed.

Lemma merge_stats_spec roster_cache player stats :
  exists merged,
    merge_stats roster_cache player stats = Ok merged
    /\ Merged.stats merged = stats
    /\ Merged.matches merged =
       sorted match_key_leb match_sort_key (PyDict.values (Stats.matches stats))
    /\ rate (Stats.successes stats) (Stats.total_actions stats)
       = Ok (Merged.success_rate merged)
    /\ rate (Stats.duels_won stats) (Stats.duels_total stats)
       = Ok (Merged.duel_rate merged)
    /\ (exists accuracy,
          Merged.shots merged =
          (Stats.shot_attempts stats, Stats.shots_on_target stats, accuracy)
          /\ rate (Stats.shots_on_target stats) (Stats.shot_attempts stats)
             = Ok accuracy)
    /\ (exists accuracy,
          Merged.passes merged =
          (Stats.pass_attempts stats, Stats.passes_completed stats, accuracy)
          /\ rate (Stats.passes_completed stats) (Stats.pass_attempts stats)
             = Ok accuracy).
Proof.
  unfold merge_stats.
  destruct (rate_Ok (Stats.successes stats) (Stats.total_actions stats))
    as [r1 ->].
  destruct (rate_Ok (Stats.duels_won stats) (Stats.duels_total stats))
    as [r2 ->].
  destruct (rate_Ok (Stats.shots_on_target stats) (Stats.shot_attempts stats))
    as [r3 ->].
  destruct (rate_Ok (Stats.passes_completed stats) (Stats.pass_attempts stats))
    as [r4 ->].
  cbn [bind collect].
  repeat match goal with
         | |- context [rate ?a ?b] =>
             let r := fresh "r" in
             let E := fresh "E" in
             destruct (rate_Ok a b) as [r E]; rewrite E; cbn [bind]
         end.
  eexists. split; [reflexivity|]. cbn.
  repeat split; eauto.
Qed.

(** C2.  The dashboard never raises [ZeroDivisionError]; in every element
    of the list it returns, the success rate, the duel rate, the shot
    accuracy and the pass accuracy lie between 0 and 100, and each is 0 when
    its denominator (total actions, duels, shot attempts, pass attempts)
    is 0; so does the success rate of each match of the player. *)
Theorem rates_between_0_and_100
    (db : database) (primary_team : Team.t) (_ROSTER_CACHE : option roster) :
  fst (compute_player_dashboard db primary_team _ROSTER_CACHE)
    <> Raise ZeroDivisionError
  /\ forall players,
       fst (compute_player_dashboard db primary_team _ROSTER_CACHE)
         = Ok players ->
       forall player, In player players ->
         let stats := Merged.stats player in
         ((0 <= Merged.success_rate player)%Q
          /\ (Merged.success_rate player <= 100)%Q
          /\ (Stats.total_actions stats = 0 ->
              Merged.success_rate player = 0%Q))
         /\ ((0 <= Merged.duel_rate player)%Q
             /\ (Merged.duel_rate player <= 100)%Q
             /\ (Stats.duels_total stats = 0 ->
                 Merged.duel_rate player = 0%Q))
         /\ (fst (fst (Merged.shots player)) = Stats.shot_attempts stats
             /\ (0 <= snd (Merged.shots player))%Q
             /\ (snd (Merged.shots player) <= 100)%Q
             /\ (Stats.shot_attempts stats = 0 ->
                 snd (Merged.shots player) = 0%Q))
         /\ (fst (fst (Merged.passes player)) = Stats.pass_attempts stats
             /\ (0 <= snd (Merged.passes player))%Q
             /\ (snd (Merged.passes player) <= 100)%Q
             /\ (Stats.pass_attempts stats = 0 ->
                 snd (Merged.passes player) = 0%Q))
         /\ (forall entry, In entry (Merged.matches player) ->
               0 <= MatchEntry.success_rate entry <= 100
               /\ (MatchEntry.actions entry = 0 ->
                   MatchEntry.success_rate entry = 0)).
Proof.
  unfold compute_player_dashboard.
  destruct (get_roster_stats_cache (roster_rows db) _ROSTER_CACHE)
    as [roster_cache cache']. cbn [fst].
  set (events := events_of db primary_team).
  set (live_events := live_events_of db primary_team).
  set (roster_players := roster_players_of db primary_team).
  split.
  - intros H. apply bind_Raise in H as [H | [ps [_ H]]].
    + apply gather_stats_raises in H as [key H]. discriminate.
    + apply bind_Raise in H as [H | [ms [_ H]]]; [|discriminate].
      apply (collect_raises (fun e => e <> ZeroDivisionError)) in H;
        [now apply H|].
      intros stats e He.
      destruct (merge_stats_spec roster_cache
                  (last_player events live_events roster_players) stats)
        as [m [Hm _]].
      rewrite Hm in He. discriminate.
  - intros players H player Hin.
    apply bind_Ok in H as [ps [Hps H]].
    apply bind_Ok in H as [ms [Hms [= <-]]].
    apply sorted_In in Hin.
    destruct (collect_In _ _ Hms player Hin) as [stats [Hstats Hmerge]].
    pose proof (gather_stats_counters _ _ _ _ _ Hps stats Hstats)
      as [[H1 [H2 [H3 H4]]] H5].
    destruct (merge_stats_spec roster_cache
                (last_player events live_events roster_players) stats)
      as [m [Hm [Hs [Hmatches
                       [Hr1 [Hr2 [[a3 [Hshots Hr3]] [a4 [Hpasses Hr4]]]]]]]]].
    rewrite Hm in Hmerge. injection Hmerge as <-.
    cbn zeta. rewrite Hs, Hshots, Hpasses, Hmatches. cbn [fst snd].
    assert (H6 : forall entry,
               In entry (sorted match_key_leb match_sort_key
                                (PyDict.values (Stats.matches stats))) ->
               0 <= MatchEntry.success_rate entry <= 100
               /\ (MatchEntry.actions entry = 0 ->
                   MatchEntry.success_rate entry = 0)).
    { intros entry He. apply sorted_In in He.
      destruct (H5 entry He) as [_ [Hb Hz]]. auto. }
    destruct (rate_spec (Stats.successes stats) (Stats.total_actions stats))
      as [r1 [E1 [Z1 B1]]].
    destruct (rate_spec (Stats.duels_won stats) (Stats.duels_total stats))
      as [r2 [E2 [Z2 B2]]].
    destruct (rate_spec (Stats.shots_on_target stats)
                        (Stats.shot_attempts stats)) as [r3 [E3 [Z3 B3]]].
    destruct (rate_spec (Stats.passes_completed stats)
                        (Stats.pass_attempts stats)) as [r4 [E4 [Z4 B4]]].
    rewrite E1 in Hr1. rewrite E2 in Hr2. rewrite E3 in Hr3. rewrite E4 in Hr4.
    injection Hr1 as <-. injection Hr2 as <-.
    injection Hr3 as <-. injection Hr4 as <-.
    specialize (B1 H1). specialize (B2 H2).
    specialize (B3 H3). specialize (B4 H4).
    tauto.
Qed.

End RateFacts.

(** ** Order of the matches (C9) *)



Lemma sorted_Sorted {A K} (le : K -> K -> bool) (key : A -> K) (l : list A) :
  (forall a b, le a b = false -> le b a = true) ->
  Sorted (fun a b => le (key a) (key b) = true) (sorted le key l).
Proof.
  intros Htotal.
  assert (Hins : forall x l', Sorted (fun a b => le (key a) (key b) = true) l' ->
                 Sorted (fun a b => le (key a) (key b) = true)
                        (insert_sorted le key x l')).
  { intros x l' Hs. induction Hs as [|y l' Hs IH Hhd]; simpl.
    - repeat constructor.
    - destruct (le (key x) (key y)) eqn:Hle.
      + constructor; [constructor; assumption | constructor; exact Hle].
      + constructor; [exact IH|].
        destruct l' as [|z l'']; simpl.
        * constructor. now apply Htotal.
        * destruct (le (key x) (key z)).
          -- constructor. now apply Htotal.
          -- constructor. inversion Hhd; assumption. }
  induction l as [|x l IH]; simpl; [constructor | apply Hins, IH].
Qed.

Section OrderFacts.
Context `{L : PyLib}.



End OrderFacts.



(** ** Repeatability (C4) *)

Section RepeatFacts.
Context `{L : PyLib}.

Lemma find_first {A} (f : A -> bool) (l : list A) (x : A) :
  find f l = Some x ->
  exists before after,
    l = before ++ x :: after /\ f x = true
    /\ forall y, In y before -> f y = false.
Proof.
  induction l as [|y l IH]; simpl; [discriminate|].
  destruct (f y) eqn:Hy.
  - intros [= ->]. exists [], l. repeat split; auto. intros ? [].
  - intros H. destruct (IH H) as [before [after [-> [Hx Hb]]]].
    exists (y :: before), after. repeat split; auto.
    intros z [<- | Hz]; auto.
Qed.


End RepeatFacts.

(** ** The roster matcher (C8) *)

Lemma alias_keys_functional :
  forallb (fun item =>
             match PyDict.get PyStr.eqb ALIAS_MAP (fst item) with
             | Some target => PyStr.eqb target (snd item)
             | None => false
             end) ALIAS_MAP = true.
Proof. vm_compute; reflexivity. Qed.

Lemma alias_targets_fixed :
  forallb (fun item =>
             PyStr.eqb (PyDict.get_or PyStr.eqb ALIAS_MAP (snd item) (snd item))
                       (snd item)
             && negb (PyStr.eqb (snd item) [])) ALIAS_MAP = true.
Proof. vm_compute; reflexivity. Qed.

Section RosterFacts.
Context `{L : PyLib}.

(** Every entry of a loaded roster is stored under the canonical key of its
    own name. *)
Lemma load_player_roster_stats_keys (rows : list RosterRow.t) key entry :
  PyDict.get PyStr.eqb (load_player_roster_stats rows) key = Some entry ->
  normalize_player_name (Some (RosterEntry.name entry)) = key.
Proof.
  unfold load_player_roster_stats.
  set (step := fun (roster : roster) (row : RosterRow.t) => _).
  assert (Hinv : forall rows0 (r : roster),
    (forall k e, PyDict.get PyStr.eqb r k = Some e ->
                 normalize_player_name (Some (RosterEntry.name e)) = k) ->
    forall k e, PyDict.get PyStr.eqb (fold_left step rows0 r) k = Some e ->
                normalize_player_name (Some (RosterEntry.name e)) = k).
  { induction rows0 as [|row rows0 IH]; intros r Hr; [exact Hr|].
    cbn [fold_left]. apply IH. subst step. cbn beta.
    destruct (RosterRow.full_name row) as [|c name] eqn:Hname; [exact Hr|].
    intros k e.
    destruct (PyStr.eqb (normalize_player_name (Some (c :: name))) k) eqn:Hk.
    - apply eqb_eq in Hk. subst k.
      rewrite (get_set_same PyStr.eqb eqb_eq). intros [= <-]. reflexivity.
    - rewrite (get_set_other PyStr.eqb eqb_eq).
      + apply Hr.
      + intros Heq. rewrite Heq, eqb_refl in Hk. discriminate. }
  apply Hinv. intros k e. discriminate.
Qed.

(** C8.  Resolving a name twice, through the roster cache, returns the same
    entry; and when the target of an alias is a key of the loaded roster,
    a name that normalizes to the alias and the display name of the target
    entry both resolve to that entry. *)
Theorem alias_and_target_resolve_to_same_entry
    (rows : list RosterRow.t) (alias target alias_name : pystr)
    (entry : RosterEntry.t) :
  In (alias, target) ALIAS_MAP ->
  normalize_player_name (Some alias_name) = alias ->
  PyDict.get PyStr.eqb (load_player_roster_stats rows) target = Some entry ->
  (forall name _ROSTER_CACHE,
     let first := get_roster_stats_cache rows _ROSTER_CACHE in
     let second := get_roster_stats_cache rows (snd first) in
     find_roster_entry name (fst second) = find_roster_entry name (fst first))
  /\ find_roster_entry alias_name (load_player_roster_stats rows) = Some entry
  /\ find_roster_entry (RosterEntry.name entry) (load_player_roster_stats rows)
     = Some entry.
Proof.
  intros Hin Halias Hget.
  pose proof alias_keys_functional as Hfun.
  pose proof alias_targets_fixed as Hfix.
  rewrite forallb_forall in Hfun, Hfix.
  specialize (Hfun _ Hin). specialize (Hfix _ Hin). cbn [fst snd] in Hfun, Hfix.
  apply andb_true_iff in Hfix as [Hfix Hne]. apply eqb_eq in Hfix.
  assert (Hnonempty : target <> []).
  { intros ->. discriminate. }
  split; [|split].
  - intros name cache. unfold get_roster_stats_cache.
    destruct cache; reflexivity.
  - unfold find_roster_entry, canonical_roster_key. rewrite Halias.
    unfold PyDict.get_or.
    destruct (PyDict.get PyStr.eqb ALIAS_MAP alias) as [t|]; [|discriminate].
    apply eqb_eq in Hfun. subst t.
    destruct target; [congruence|]. now rewrite Hget.
  - unfold find_roster_entry, canonical_roster_key.
    rewrite (load_player_roster_stats_keys rows target Hget), Hfix.
    destruct target; [congruence|]. now rewrite Hget.
Qed.

End RosterFacts.

Lemma alias_resolution_witness :
  @find_roster_entry Latin.lib (u"Manu")
    (@load_player_roster_stats Latin.lib Sample.roster_table)
  = @find_roster_entry Latin.lib (u"Manuel Torres Palenzuela")
      (@load_player_roster_stats Latin.lib Sample.roster_table).
Proof.
  assert (Hin : In (u"manu", u"manuel-torres-palenzuela") ALIAS_MAP).
  { vm_compute. do 4 right. left. reflexivity. }
  destruct (@alias_and_target_resolve_to_same_entry Latin.lib
              Sample.roster_table (u"manu") (u"manuel-torres-palenzuela")
              (u"Manu")
              {| RosterEntry.name := u"Manuel Torres Palenzuela";
                 RosterEntry.position := u"Delantero";
                 RosterEntry.age := 24; RosterEntry.pc := 8;
                 RosterEntry.pj := 8; RosterEntry.pt := 8;
                 RosterEntry.minutes := 560; RosterEntry.goals := 0;
                 RosterEntry.yellow_cards := 0; RosterEntry.red_cards := 0;
                 RosterEntry.assists := 0 |}
              Hin ltac:(vm_compute; reflexivity) ltac:(vm_compute; reflexivity))
    as [_ [H1 H2]].
  rewrite H1. symmetry. exact H2.
Defined.

(** ** Appearances (C5) *)

Lemma setdefault_get {K V} (keq : K -> K -> bool)
    (keq_spec : forall a b, keq a b = true <-> a = b)
    (d d' : list (K * V)) k v x :
  PyDict.setdefault keq d k v = (x, d') ->
  PyDict.get keq d' k = Some x
  /\ (forall k', k' <> k -> PyDict.get keq d' k' = PyDict.get keq d k')
  /\ (NoDup (PyDict.keys d) -> NoDup (PyDict.keys d'))
  /\ (PyDict.get keq d k = Some x \/ (PyDict.get keq d k = None /\ x = v)).
Proof.
  unfold PyDict.setdefault.
  destruct (PyDict.get keq d k) as [x0|] eqn:Hget; intros [= <- <-].
  - repeat split; auto.
  - split; [now apply get_set_same|]. split.
    + intros k' Hne. apply get_set_other; auto.
    + split; [now apply NoDup_keys_set | auto].
Qed.

Section AppearanceFacts.
Context `{L : PyLib}.
Local Open Scope Z_scope.

Lemma count_event_wf primary_team roster_cache player_stats event out :
  count_event primary_team roster_cache player_stats event = Ok out ->
  NoDup (PyDict.keys player_stats) /\ stats_wf roster_cache player_stats ->
  (NoDup (PyDict.keys out) /\ stats_wf roster_cache out)
  /\ (forall k, PyDict.get Z.eqb player_stats k <> None ->
                PyDict.get Z.eqb out k <> None)
  /\ (forall player, MatchEvent.player event = Some player ->
                     PyDict.get Z.eqb out (Player.id player) <> None).
Proof.
  unfold count_event. intros H [Hnd Hwf].
  destruct (MatchEvent.player event) as [player|];
    [|injection H as <-; split; [split; assumption|];
      split; [auto | intros; discriminate]].
  destruct (PyDict.setdefault _ _ _ _) as [stats ps1] eqn:Hsd.
  apply (setdefault_get Z.eqb Z_eqb_spec) in Hsd
    as [Hget1 [Hother1 [Hnd1 Hfrom]]].
  repeat (apply bind_Ok in H as [? [_ H]]).
  injection H as <-.
  assert (Hstats : Stats.player_id stats = Player.id player
                   /\ Stats.pj stats =
                      base_of (find_roster_entry (Stats.name stats)
                                                 roster_cache) RosterEntry.pj).
  { destruct Hfrom as [Hold | [_ ->]].
    - destruct (Hwf _ _ Hold) as [Hid [Hev Hpj]].
      unfold baseline_pj in Hpj. rewrite Hev in Hpj. auto.
    - split; reflexivity. }
  destruct Hstats as [Hid Hpj].
  split; [split|split].
  - apply (NoDup_keys_set Z.eqb Z_eqb_spec). auto.
  - intros k s Hs. destruct (Z.eq_dec k (Player.id player)) as [-> | Hne].
    + rewrite (get_set_same Z.eqb Z_eqb_spec) in Hs. injection Hs as <-.
      split; [exact Hid|]. split; [reflexivity|].
      unfold baseline_pj. cbn. exact Hpj.
    + rewrite (get_set_other Z.eqb Z_eqb_spec) in Hs by congruence.
      rewrite Hother1 in Hs by assumption. apply (Hwf _ _ Hs).
  - intros k Hk. destruct (Z.eq_dec k (Player.id player)) as [-> | Hne].
    + rewrite (get_set_same Z.eqb Z_eqb_spec). discriminate.
    + rewrite (get_set_other Z.eqb Z_eqb_spec) by congruence.
      rewrite Hother1 by assumption. exact Hk.
  - intros p [= <-]. rewrite (get_set_same Z.eqb Z_eqb_spec). discriminate.
Qed.

Lemma first_loop_wf primary_team roster_cache events init out :
  for_each (count_event primary_team roster_cache) events init = Ok out ->
  NoDup (PyDict.keys init) /\ stats_wf roster_cache init ->
  (NoDup (PyDict.keys out) /\ stats_wf roster_cache out)
  /\ (forall k, PyDict.get Z.eqb init k <> None ->
                PyDict.get Z.eqb out k <> None)
  /\ (forall event player, In event events ->
        MatchEvent.player event = Some player ->
        PyDict.get Z.eqb out (Player.id player) <> None).
Proof.
  revert init. induction events as [|event events IH]; intros init H Hinit.
  - injection H as <-. split; [exact Hinit|]. split; [auto|]. intros ? ? [].
  - cbn [for_each] in H. apply bind_Ok in H as [ps [Hstep Hrest]].
    destruct (count_event_wf primary_team event Hstep Hinit)
      as [Hps [Hkeep Hnew]].
    destruct (IH _ Hrest Hps) as [Hout [Hkeep' Hnew']].
    split; [exact Hout|]. split.
    + intros k Hk. apply Hkeep', Hkeep, Hk.
    + intros ev player [<- | Hin] Hp.
      * apply Hkeep', (Hnew _ Hp).
      * eapply Hnew'; eauto.
Qed.

Lemma track_event_wf state event :
  timelines_wf (snd state) -> timelines_wf (snd (track_event state event)).
Proof.
  destruct state as [ends pmt]. cbn [snd]. intros [Hnd Hinner].
  unfold track_event.
  destruct (MatchEvent.player event) as [player|]; [|split; assumption].
  destruct (MatchEvent.match_ event) as [m|];
    [|destruct (MatchEvent.minute event); split; assumption].
  destruct (PyDict.setdefault Z.eqb pmt (Player.id player) [])
    as [matches pmt1] eqn:Hsd1.
  apply (setdefault_get Z.eqb Z_eqb_spec) in Hsd1
    as [Hget1 [Hother1 [Hnd1 Hfrom1]]].
  destruct (PyDict.setdefault Z.eqb matches (Match.id m) empty_timeline)
    as [timeline matches1] eqn:Hsd2.
  apply (setdefault_get Z.eqb Z_eqb_spec) in Hsd2
    as [Hget2 [Hother2 [Hnd2 Hfrom2]]].
  cbn [snd]. split.
  - apply (NoDup_keys_set Z.eqb Z_eqb_spec). auto.
  - intros p ms Hms.
    destruct (Z.eq_dec p (Player.id player)) as [-> | Hne].
    + rewrite (get_set_same Z.eqb Z_eqb_spec) in Hms. injection Hms as <-.
      apply (NoDup_keys_set Z.eqb Z_eqb_spec). apply Hnd2.
      destruct Hfrom1 as [Hold | [_ ->]]; [eapply Hinner; eauto | constructor].
    + rewrite (get_set_other Z.eqb Z_eqb_spec) in Hms by congruence.
      rewrite Hother1 in Hms by assumption. eapply Hinner; eauto.
Qed.

Lemma second_loop_wf live_events :
  timelines_wf (snd (fold_left track_event live_events ([], []))).
Proof.
  apply (fold_left_invariant (fun state => timelines_wf (snd state))).
  - intros acc x. apply track_event_wf.
  - split; [constructor | intros ? ? [=]].
Qed.

Lemma observe_unrelated player_id match_id live_events init :
  (forall event, In event live_events ->
                 event_of event player_id match_id = false) ->
  fold_left (observe player_id match_id) live_events init = init.
Proof.
  revert init. induction live_events as [|event l IH]; intros init H.
  - reflexivity.
  - cbn [fold_left]. unfold observe at 2.
    rewrite (H event (or_introl eq_refl)). apply IH.
    intros e He. apply H. now right.
Qed.

Lemma observe_has_event player_id match_id live_events init t :
  (forall t0, init = Some t0 -> Timeline.has_event t0 = true) ->
  fold_left (observe player_id match_id) live_events init = Some t ->
  Timeline.has_event t = true.
Proof.
  revert init. induction live_events as [|event l IH]; intros init Hinit.
  - cbn. intros ->. now apply Hinit.
  - cbn [fold_left]. apply IH. unfold observe.
    destruct (event_of event player_id match_id); [|exact Hinit].
    intros t0 [= <-]. reflexivity.
Qed.

(** A pair has a timeline exactly when a live event belongs to it, and the
    timeline then has its flag set. *)
Lemma timeline_iff_live_event live_events player_id match_id :
  let pmt := snd (fold_left track_event live_events ([], [])) in
  (timeline_of pmt player_id match_id <> None <->
   exists event, In event live_events
                 /\ event_of event player_id match_id = true)
  /\ forall t, timeline_of pmt player_id match_id = Some t ->
               Timeline.has_event t = true.
Proof.
  cbn zeta. rewrite fold_track_timeline. cbn [snd timeline_of PyDict.get].
  split; [split|].
  - intros Hsome.
    destruct (existsb (fun e => event_of e player_id match_id) live_events)
      eqn:Hex.
    + apply existsb_exists in Hex. exact Hex.
    + exfalso. apply Hsome. apply observe_unrelated.
      intros e He. destruct (event_of e player_id match_id) eqn:Hof; auto.
      assert (Ht : existsb (fun e => event_of e player_id match_id)
                           live_events = true)
        by (apply existsb_exists; eauto).
      congruence.
  - intros [event [Hin Hof]].
    destruct (observe_exists player_id match_id live_events None) as [t Ht].
    + apply existsb_exists. eauto.
    + rewrite Ht. discriminate.
  - intros t. apply observe_has_event. discriminate.
Qed.

Lemma apply_timelines_fields match_end_minutes matches stats :
  (forall item, In item matches -> Timeline.has_event (snd item) = true) ->
  let stats' := fold_left (apply_timeline match_end_minutes) matches stats in
  Stats.pj stats' = Stats.pj stats + Z.of_nat (List.length matches)
  /\ Stats.player_id stats' = Stats.player_id stats
  /\ Stats.name stats' = Stats.name stats
  /\ Stats.has_events stats' = Stats.has_events stats.
Proof.
  revert stats. induction matches as [|[match_id t] l IH]; intros stats Hall.
  - cbn. repeat split; lia.
  - cbn [fold_left]. cbn zeta.
    destruct (IH (apply_timeline match_end_minutes stats (match_id, t)))
      as [Hpj [Hid [Hname Hev]]].
    { intros item Hin. apply Hall. now right. }
    rewrite Hpj, Hid, Hname, Hev.
    pose proof (Hall (match_id, t) (or_introl eq_refl)) as Ht. cbn in Ht.
    unfold apply_timeline. destruct (derived_minutes _ t).
    cbn. rewrite Ht. repeat split.
    change (List.length ((match_id, t) :: l)) with (S (List.length l)). lia.
Qed.

Lemma apply_matches_fields match_end_minutes matches stats :
  (forall item, In item matches -> Timeline.has_event (snd item) = true) ->
  let stats' := apply_matches match_end_minutes matches stats in
  Stats.pj stats' = Stats.pj stats + Z.of_nat (List.length matches)
  /\ Stats.player_id stats' = Stats.player_id stats
  /\ Stats.name stats' = Stats.name stats
  /\ Stats.has_events stats' = Stats.has_events stats.
Proof.
  intros Hall. unfold apply_matches. cbn.
  apply (apply_timelines_fields match_end_minutes matches stats Hall).
Qed.

Lemma third_loop_get match_end_minutes player_match_timeline player_stats k :
  NoDup (PyDict.keys player_match_timeline) ->
  PyDict.get Z.eqb
    (fold_left (apply_player_timelines match_end_minutes)
               player_match_timeline player_stats) k =
  match PyDict.get Z.eqb player_match_timeline k with
  | Some matches =>
      option_map (apply_matches match_end_minutes matches)
                 (PyDict.get Z.eqb player_stats k)
  | None => PyDict.get Z.eqb player_stats k
  end.
Proof.
  revert player_stats.
  induction player_match_timeline as [|[p ms] items IH];
    intros player_stats Hnd; [reflexivity|].
  cbn [fold_left PyDict.get]. cbn [PyDict.keys map fst] in Hnd.
  inversion Hnd as [|? ? Hnotin Hnd']; subst.
  rewrite IH by exact Hnd'.
  assert (Hstep : forall k',
    PyDict.get Z.eqb
      (apply_player_timelines match_end_minutes player_stats (p, ms)) k' =
    if (k' =? p) then option_map (apply_matches match_end_minutes ms)
                                 (PyDict.get Z.eqb player_stats k')
    else PyDict.get Z.eqb player_stats k').
  { intros k'. unfold apply_player_timelines.
    destruct (Z.eqb_spec k' p) as [-> | Hne].
    - destruct (PyDict.get Z.eqb player_stats p) eqn:Hp; cbn.
      + apply (get_set_same Z.eqb Z_eqb_spec).
      + exact Hp.
    - destruct (PyDict.get Z.eqb player_stats p); [|reflexivity].
      apply (get_set_other Z.eqb Z_eqb_spec). congruence. }
  rewrite Hstep. destruct (Z.eqb_spec k p) as [-> | Hne].
  - apply (get_None_keys Z.eqb Z_eqb_spec) in Hnotin. rewrite Hnotin.
    reflexivity.
  - reflexivity.
Qed.

Lemma third_loop_keys match_end_minutes player_match_timeline player_stats :
  NoDup (PyDict.keys player_stats) ->
  NoDup (PyDict.keys (fold_left (apply_player_timelines match_end_minutes)
                                player_match_timeline player_stats)).
Proof.
  intros Hnd.
  apply (fold_left_invariant (fun d : list (Z * Stats.t) =>
                                NoDup (PyDict.keys d))); [|exact Hnd].
  intros acc [p ms] Hacc. unfold apply_player_timelines.
  destruct (PyDict.get Z.eqb acc p); [|exact Hacc].
  now apply (NoDup_keys_set Z.eqb Z_eqb_spec).
Qed.

Lemma fourth_loop_get roster_cache roster_players player_stats k stats :
  PyDict.get Z.eqb
    (fold_left (add_roster_player roster_cache) roster_players player_stats) k
    = Some stats ->
  PyDict.get Z.eqb player_stats k = Some stats
  \/ (PyDict.get Z.eqb player_stats k = None
      /\ Stats.player_id stats = k
      /\ Stats.has_events stats = false
      /\ Stats.pj stats = baseline_pj roster_cache stats).
Proof.
  revert player_stats.
  induction roster_players as [|player l IH]; intros player_stats; [auto|].
  cbn [fold_left]. intros H. apply IH in H.
  unfold add_roster_player in H.
  destruct (PyDict.get Z.eqb player_stats (Player.id player)) eqn:Hp;
    [exact H|].
  destruct (Z.eq_dec k (Player.id player)) as [-> | Hne].
  - rewrite (get_set_same Z.eqb Z_eqb_spec) in H.
    destruct H as [[= <-] | [[=] _]]. right.
    split; [exact Hp|]. repeat split.
  - rewrite (get_set_other Z.eqb Z_eqb_spec) in H by congruence. exact H.
Qed.

Lemma fourth_loop_keys roster_cache roster_players player_stats :
  NoDup (PyDict.keys player_stats) ->
  NoDup (PyDict.keys (fold_left (add_roster_player roster_cache)
                                roster_players player_stats)).
Proof.
  intros Hnd.
  apply (fold_left_invariant (fun d : list (Z * Stats.t) =>
                                NoDup (PyDict.keys d))); [|exact Hnd].
  intros acc player Hacc. unfold add_roster_player.
  destruct (PyDict.get Z.eqb acc (Player.id player)); [exact Hacc|].
  now apply (NoDup_keys_set Z.eqb Z_eqb_spec).
Qed.

Lemma In_live_events db primary_team event :
  In event (live_events_of db primary_team) <->
  In event (match_events db)
  /\ player_in_team primary_team event = true /\ is_final event = true.
Proof.
  unfold live_events_of. rewrite filter_In, andb_true_iff. tauto.
Qed.

Lemma live_events_are_events db primary_team event :
  In event (live_events_of db primary_team) ->
  In event (events_of db primary_team).
Proof.
  rewrite In_live_events. intros [Hin [Hteam Hfinal]].
  unfold events_of, confirmed_events_queryset.
  rewrite !filter_In. repeat split; auto.
  unfold is_final in Hfinal. apply eqb_eq in Hfinal. rewrite Hfinal.
  reflexivity.
Qed.

Lemma In_keys_get {V} (d : list (Z * V)) k :
  In k (PyDict.keys d) <-> PyDict.get Z.eqb d k <> None.
Proof.
  pose proof (get_None_keys Z.eqb Z_eqb_spec d k) as H.
  destruct (in_dec Z.eq_dec k (PyDict.keys d)) as [Hin | Hnot].
  - split; [|auto]. intros _ Hnone. apply H in Hnone. contradiction.
  - split; [contradiction|]. intros Hsome. exfalso. apply Hsome, H, Hnot.
Qed.

(** C5, amended.  The appearances of a player of the dashboard are those of
    the roster plus one for each match in which the player has an event of
    system "touch-field-final"; events of any other system add none. *)
Theorem appearances_count_finalized_matches
    (db : database) (primary_team : Team.t) (_ROSTER_CACHE : option roster)
    (players : list Merged.t) (player : Merged.t) :
  fst (compute_player_dashboard db primary_team _ROSTER_CACHE) = Ok players ->
  In player players ->
  let stats := Merged.stats player in
  let roster_cache :=
    fst (get_roster_stats_cache (roster_rows db) _ROSTER_CACHE) in
  exists matches : list Z,
    NoDup matches
    /\ (forall match_id,
          In match_id matches <->
          exists event,
            In event (match_events db)
            /\ player_in_team primary_team event = true
            /\ is_final event = true
            /\ event_of event (Stats.player_id stats) match_id = true)
    /\ Stats.pj stats =
       baseline_pj roster_cache stats + Z.of_nat (List.length matches).
Proof.
  unfold compute_player_dashboard.
  destruct (get_roster_stats_cache (roster_rows db) _ROSTER_CACHE)
    as [roster_cache cache']. cbn [fst].
  set (events := events_of db primary_team).
  set (live_events := live_events_of db primary_team).
  set (roster_players := roster_players_of db primary_team).
  intros H Hin.
  apply bind_Ok in H as [ps [Hps H]].
  apply bind_Ok in H as [ms [Hms [= <-]]].
  apply sorted_In in Hin.
  destruct (collect_In _ _ Hms player Hin) as [stats [Hstats Hmerge]].
  destruct (merge_stats_spec roster_cache
              (last_player events live_events roster_players) stats)
    as [m [Hm [Hs _]]].
  rewrite Hm in Hmerge. injection Hmerge as <-. cbn zeta. rewrite Hs.
  clear Hm Hs Hms Hin m ms.
  (* the four loops *)
  unfold gather_stats in Hps. apply bind_Ok in Hps as [ps1 [H1 Hps]].
  pose proof (second_loop_wf live_events) as [Hndp Hinner].
  pose proof (fun p m => timeline_iff_live_event live_events p m) as Htl.
  cbn zeta in Htl.
  destruct (fold_left track_event live_events ([], [])) as [ends pmt].
  cbn [snd] in Hndp, Hinner, Htl. injection Hps as <-.
  assert (Hinit : NoDup (PyDict.keys (@nil (Z * Stats.t)))
                  /\ stats_wf roster_cache []).
  { split; [constructor | intros ? ? [=]]. }
  destruct (first_loop_wf primary_team events H1 Hinit)
    as [[Hnd1 Hwf1] [_ Hcover]].
  assert (Hlive : forall match_id,
            (exists event,
               In event (match_events db)
               /\ player_in_team primary_team event = true
               /\ is_final event = true
               /\ event_of event (Stats.player_id stats) match_id = true)
            <-> timeline_of pmt (Stats.player_id stats) match_id <> None).
  { intros match_id. rewrite (proj1 (Htl _ _)). split.
    - intros [e [He1 [He2 [He3 He4]]]]. exists e. split; [|exact He4].
      apply In_live_events. auto.
    - intros [e [He He4]]. apply In_live_events in He. exists e. tauto. }
  (* the stats of the player under their key *)
  apply in_map_iff in Hstats as [[k s] [Hk Hitem]]. cbn in Hk. subst s.
  apply (In_get Z.eqb Z_eqb_spec) in Hitem;
    [|apply fourth_loop_keys, third_loop_keys, Hnd1].
  apply fourth_loop_get in Hitem as [Hold | [Hnone [Hid [Hev Hpj]]]].
  - rewrite third_loop_get in Hold by exact Hndp.
    destruct (PyDict.get Z.eqb pmt k) as [mts|] eqn:Hmts.
    + destruct (PyDict.get Z.eqb ps1 k) as [s1|] eqn:Hs1; [|discriminate].
      injection Hold as <-.
      destruct (Hwf1 _ _ Hs1) as [Hid1 [Hev1 Hpj1]].
      assert (Hall : forall item, In item mts ->
                                  Timeline.has_event (snd item) = true).
      { intros [mid t] Hitem. cbn.
        apply (proj2 (Htl k mid)). unfold timeline_of. rewrite Hmts.
        apply (In_get Z.eqb Z_eqb_spec); [eapply Hinner; eauto | exact Hitem]. }
      destruct (apply_matches_fields ends mts s1 Hall)
        as [Hpj [Hid [Hname Hev]]].
      exists (PyDict.keys mts). split; [eapply Hinner; eauto|]. split.
      * intros match_id. rewrite Hlive, Hid, Hid1. unfold timeline_of.
        rewrite Hmts. apply In_keys_get.
      * rewrite Hpj, Hpj1. unfold baseline_pj. rewrite Hev, Hname.
        unfold PyDict.keys. rewrite length_map. reflexivity.
    + destruct (Hwf1 _ _ Hold) as [Hid1 [Hev1 Hpj1]].
      exists []. split; [constructor|]. split.
      * intros match_id. rewrite Hlive, Hid1. unfold timeline_of.
        rewrite Hmts. split; [intros [] | congruence].
      * cbn. lia.
  - exists []. split; [constructor|]. split.
    + intros match_id. split; [intros []|]. rewrite Hlive.
      intros Hsome. apply (proj1 (Htl _ _)) in Hsome as [e [He Hof]].
      exfalso. apply live_events_are_events in He.
      unfold event_of in Hof.
      destruct (MatchEvent.player e) as [pl|] eqn:Hpl; [|discriminate].
      destruct (MatchEvent.match_ e); [|discriminate].
      apply andb_true_iff in Hof as [Hp _]. apply Z.eqb_eq in Hp.
      pose proof (Hcover e pl He Hpl) as Hc. rewrite Hp, Hid in Hc.
      rewrite third_loop_get in Hnone by exact Hndp.
      destruct (PyDict.get Z.eqb pmt k);
        destruct (PyDict.get Z.eqb ps1 k); try discriminate; congruence.
    + cbn. lia.
Qed.

End AppearanceFacts.

(** C5 as stated fails: the only event of the player in the match is an
    imported one, and the dashboard counts no appearance. *)
Lemma imported_event_is_no_appearance :
  exists player,
    fst (@compute_player_dashboard Latin.lib Sample.db_imported
           Sample.benagalbon None) = Ok [player]
    /\ Stats.player_id (Merged.stats player) = 7%Z
    /\ Stats.total_actions (Merged.stats player) = 1%Z
    /\ Stats.pj (Merged.stats player) = 0%Z
    /\ existsb (fun event => event_of event 7 1) (match_events Sample.db_imported)
       = true.
Proof.
  eexists. split; [vm_compute; reflexivity|]. repeat split.
Qed.

Lemma appearances_witness :
  exists (player : Merged.t) (matches : list Z),
    fst (@compute_player_dashboard Latin.lib Sample.db_two_rounds
           Sample.benagalbon None) = Ok [player]
    /\ Stats.pj (Merged.stats player) =
       (@baseline_pj Latin.lib [] (Merged.stats player)
        + Z.of_nat (List.length matches))%Z.
Proof.
  destruct (fst (@compute_player_dashboard Latin.lib Sample.db_two_rounds
                   Sample.benagalbon None)) as [players|e] eqn:E;
    [|vm_compute in E; discriminate].
  destruct players as [|player [|other rest]];
    try (vm_compute in E; discriminate).
  destruct (@appearances_count_finalized_matches Latin.lib
              Sample.db_two_rounds Sample.benagalbon None [player] player E
              (or_introl eq_refl)) as [matches [_ [_ Hpj]]].
  exists player, matches. split; [reflexivity | exact Hpj].
Defined.

Lemma goal_event_witness :
  @is_goal_event Latin.lib (Some (u"¡Golazo!")) None None = true.
Proof.
  apply (proj2 (proj1 (@is_goal_event_iff_keyword Latin.lib
                         (Some (u"¡Golazo!")) None None))).
  exists (Some (u"¡Golazo!")). split; [left; reflexivity|].
  exists (u"gol"). split; [left; reflexivity|].
  exists [], (u"azo"). vm_compute. reflexivity.
Defined.

Lemma rates_witness :
  fst (@compute_player_dashboard Latin.lib Sample.db_two_rounds
         Sample.benagalbon None) <> Raise ZeroDivisionError.
Proof.
  exact (proj1 (@rates_between_0_and_100 Latin.lib Sample.db_two_rounds
                  Sample.benagalbon None)).
Defined.


(** ** When the dashboard returns *)

Lemma mem_In (x : pystr) (l : list pystr) : mem x l = true <-> In x l.
Proof.
  unfold mem. rewrite existsb_exists. split.
  - intros [y [Hin Heq]]. apply eqb_eq in Heq. now subst.
  - intros Hin. exists x. split; [exact Hin | apply eqb_refl].
Qed.

Lemma increment_Ok (d : list (pystr * Z)) (k : pystr) :
  In k (PyDict.keys d) ->
  exists d', increment d k = Ok d' /\ PyDict.keys d' = PyDict.keys d.
Proof.
  intros Hin. unfold increment.
  destruct (PyDict.get PyStr.eqb d k) as [n|] eqn:Hget.
  - eexists. split; [reflexivity|].
    rewrite (keys_set PyStr.eqb), Hget. reflexivity.
  - apply (get_None_keys PyStr.eqb eqb_eq) in Hget. contradiction.
Qed.

Lemma increment_if_Ok (d : list (pystr * Z)) (label : option pystr)
    (keys : list pystr) :
  PyDict.keys d = keys ->
  match label with
  | Some (c :: l) => In (c :: l) keys
  | _ => True
  end ->
  exists d', increment_if d label = Ok d' /\ PyDict.keys d' = keys.
Proof.
  intros <- Hlabel. unfold increment_if.
  destruct label as [[|c l]|]; try (exists d; split; reflexivity).
  apply increment_Ok. exact Hlabel.
Qed.

Lemma first_label_In test items label :
  first_label test items = Some label -> In label (map snd items).
Proof.
  induction items as [|[key l] items IH]; simpl; [discriminate|].
  destruct (test key); [intros [= ->]; now left | auto].
Qed.

Lemma tercio_labels_standard :
  forallb (fun label => mem label STANDARD_TERCIO_LABELS)
          (map snd TERCIO_MAP) = true.
Proof. vm_compute; reflexivity. Qed.

Section TotalityFacts.
Context `{L : PyLib}.

Lemma map_tercio_standard raw :
  match map_tercio raw with
  | Some (c :: l) => In (c :: l) STANDARD_TERCIO_LABELS
  | _ => True
  end.
Proof.
  unfold map_tercio.
  destruct (first_label _ TERCIO_MAP) as [[|c l]|] eqn:H; auto.
  apply first_label_In in H.
  pose proof tercio_labels_standard as Hall. rewrite forallb_forall in Hall.
  apply mem_In, Hall, H.
Qed.

Lemma known_zone_In label :
  known_zone label = true ->
  match label with
  | Some (c :: l) => In (c :: l) FIELD_ZONE_KEYS
  | _ => True
  end.
Proof.
  unfold known_zone. destruct label as [[|c l]|]; try (intros; exact I).
  intros H. apply mem_In. exact H.
Qed.

Lemma new_stats_counter_keys player position age base :
  counter_keys_ok (new_stats player position age base).
Proof. repeat split. Qed.

Lemma count_event_Ok primary_team roster_cache player_stats event :
  (forall stats, In stats (PyDict.values player_stats) ->
                 counter_keys_ok stats) ->
  zones_known event = true ->
  exists out,
    count_event primary_team roster_cache player_stats event = Ok out
    /\ forall stats, In stats (PyDict.values out) -> counter_keys_ok stats.
Proof.
  intros Hall Hknown. unfold count_event. unfold zones_known in Hknown.
  destruct (MatchEvent.player event) as [player|]; [|eauto].
  apply andb_true_iff in Hknown as [Hzone Hposition].
  apply known_zone_In in Hzone, Hposition.
  destruct (PyDict.setdefault _ _ _ _) as [stats ps1] eqn:Hsd.
  apply (setdefault_values Z.eqb Z_eqb_spec) in Hsd as [Hstats [_ Hps1]].
  assert (Hkeys : counter_keys_ok stats).
  { destruct Hstats as [-> | Hin]; [apply new_stats_counter_keys | auto]. }
  destruct Hkeys as [K1 [K2 [K3 K4]]].
  destruct (increment_if_Ok _ _ K1 Hzone) as [zc [-> Kz]]. cbn [bind].
  set (mapped := match strip (or_empty (MatchEvent.tercio event)) with
                 | [] => None
                 | _ => _
                 end).
  assert (Hmapped : match mapped with
                    | Some (c :: l) => In (c :: l) STANDARD_TERCIO_LABELS
                    | _ => True
                    end).
  { subst mapped. destruct (strip (or_empty (MatchEvent.tercio event)));
      [exact I | apply map_tercio_standard]. }
  destruct (increment_if_Ok _ _ K3 Hmapped) as [tc [-> Kc]]. cbn [bind].
  destruct (increment_if_Ok _ _ K4 Hmapped) as [tt [-> Kt]]. cbn [bind].
  destruct (increment_if_Ok _ _ K2 Hposition) as [pc [-> Kp]]. cbn [bind].
  assert (Hmatches : exists matches,
            match MatchEvent.match_ event with
            | Some m =>
                count_match primary_team m
                  (result_is_success (MatchEvent.result event))
                  (Stats.matches stats)
            | None => Ok (Stats.matches stats)
            end = Ok matches).
  { destruct (MatchEvent.match_ event); [apply count_match_Ok | eauto]. }
  destruct Hmatches as [matches ->]. cbn [bind].
  eexists. split; [reflexivity|].
  intros s Hs. apply (In_values_set Z.eqb) in Hs as [-> | Hs].
  - repeat split; assumption.
  - destruct (Hps1 s Hs) as [-> | Hin];
      [apply new_stats_counter_keys | auto].
Qed.

Lemma for_each_Ok {A S} (P : S -> Prop) (step : S -> A -> result S)
    (xs : list A) :
  (forall acc x, In x xs -> P acc ->
                 exists acc', step acc x = Ok acc' /\ P acc') ->
  forall init, P init -> exists out, for_each step xs init = Ok out.
Proof.
  induction xs as [|x xs IH]; intros Hstep init Hinit; simpl; [eauto|].
  destruct (Hstep init x (or_introl eq_refl) Hinit) as [acc [-> Hacc]].
  cbn [bind]. apply IH; [|exact Hacc].
  intros acc0 y Hy. apply Hstep. now right.
Qed.

(** The dashboard returns its list whenever the zone and the position of
    every event are keys of the counters; ["Medio Izquierdo"] and
    ["Medio Derecho"], which [ZONE_MAP] and [POSITION_MAP] produce, are not
    (the keys are ["Medio Izquierda"] and ["Medio Derecha"]). *)
Theorem dashboard_returns
    (db : database) (primary_team : Team.t) (_ROSTER_CACHE : option roster) :
  (forall event, In event (events_of db primary_team) ->
                 zones_known event = true) ->
  exists players,
    fst (compute_player_dashboard db primary_team _ROSTER_CACHE) = Ok players.
Proof.
  intros Hknown. unfold compute_player_dashboard.
  destruct (get_roster_stats_cache (roster_rows db) _ROSTER_CACHE)
    as [roster_cache cache']. cbn [fst].
  unfold gather_stats.
  destruct (for_each_Ok
              (fun ps : list (Z * Stats.t) =>
                 forall stats, In stats (PyDict.values ps) ->
                               counter_keys_ok stats)
              (count_event primary_team roster_cache)
              (events_of db primary_team)) with (init := @nil (Z * Stats.t))
    as [ps1 ->].
  - intros acc x Hx Hacc. apply count_event_Ok; auto.
  - intros stats [].
  - cbn [bind].
    destruct (fold_left track_event _ _) as [ends pmt]. cbn [bind].
    match goal with
    | |- context [collect ?f ?xs] =>
        assert (Hc : exists ms, collect f xs = Ok ms)
    end.
    { match goal with |- context [collect ?f ?xs] => generalize xs end.
      intros xs. induction xs as [|x xs [ms IH]]; simpl; [eauto|].
      destruct (merge_stats_spec roster_cache
                  (last_player (events_of db primary_team)
                               (live_events_of db primary_team)
                               (roster_players_of db primary_team)) x)
        as [m [-> _]].
      cbn [bind]. rewrite IH. cbn [bind]. eauto. }
    destruct Hc as [ms ->]. cbn [bind]. eauto.
Qed.

End TotalityFacts.

Lemma dashboard_returns_witness :
  exists players,
    fst (@compute_player_dashboard Latin.lib Sample.db_two_rounds
           Sample.benagalbon None) = Ok players.
Proof.
  apply (@dashboard_returns Latin.lib).
  intros event Hin. vm_compute in Hin.
  destruct Hin as [<- | [<- | []]]; vm_compute; reflexivity.
Defined.

(** ** The model on concrete inputs *)

Example goal_boundary_inputs :
  @is_goal_event Latin.lib None None None = false
  /\ @is_goal_event Latin.lib (Some []) (Some (u"   ")) None = false
  /\ @is_goal_event Latin.lib (Some (u"GOL")) None None = true
  /\ @is_goal_event Latin.lib (Some (u"Remate")) (Some (u"Gól")) None = true
  /\ @is_goal_event Latin.lib (Some (u"Pase")) (Some (u"OK"))
                    (Some (u"Golpeo con la izquierda")) = true
  /\ @is_goal_event Latin.lib (Some (u"Pase")) (Some (u"OK")) None = false.
Proof. repeat split; vm_compute; reflexivity. Qed.

Example shot_on_target_scenario :
  @contains_keyword Latin.lib (Some (u"Disparo")) SHOT_KEYWORDS = true
  /\ @result_is_success Latin.lib (Some (u"OK")) = true
  /\ @map_zone_label Latin.lib (Some (u"Ataque Centro")) = Some (u"Ataque Centro").
Proof. repeat split; vm_compute; reflexivity. Qed.

Example zone_longest_phrase_first :
  @map_zone_label Latin.lib (Some (u"Central ofensivo")) = Some (u"Medio Centro")
  /\ @map_zone_label Latin.lib (Some (u"Central")) = Some (u"Defensa Centro").
Proof. split; vm_compute; reflexivity. Qed.

Example full_match_without_substitutions :
  let timeline := {| Timeline.entry := None; Timeline.exit := None;
                     Timeline.has_event := true |} in
  let stats := apply_timeline [(1, 90)]%Z Sample.zero_stats (1%Z, timeline) in
  derived_minutes 90 timeline = (0, 90)%Z
  /\ Stats.minutes stats = 90%Z /\ Stats.pj stats = 1%Z /\ Stats.pt stats = 1%Z.
Proof. repeat split. Qed.

Example slugify_names :
  @normalize_player_name Latin.lib (Some (u"José García Acosta"))
    = u"jose-garcia-acosta"
  /\ @canonical_roster_key Latin.lib (u" Nico ") = u"nicolas-villalba-alcaide".
Proof. split; vm_compute; reflexivity. Qed.

Example unknown_zone_key_raises :
  fst (@compute_player_dashboard Latin.lib
         {| match_events :=
              [Sample.event Sample.round2 (Some 3%Z) "Pase" "OK"
                            "Medio izquierdo" "touch-field-final"];
            players := [Sample.manu];
            roster_rows := [] |}
         Sample.benagalbon None)
  = Raise (KeyError (u"Medio Izquierdo")).
Proof. vm_compute. reflexivity. Qed.

(** * Further properties of the code *)

(** ** [sorted] *)

Lemma insert_sorted_Permutation {A K} (le : K -> K -> bool) (key : A -> K)
    (x : A) (l : list A) :
  Permutation (insert_sorted le key x l) (x :: l).
Proof.
  induction l as [|y l IH]; simpl; [reflexivity|].
  destruct (le (key x) (key y)); [reflexivity|].
  rewrite IH. apply perm_swap.
Qed.

Lemma sorted_Permutation {A K} (le : K -> K -> bool) (key : A -> K)
    (l : list A) :
  Permutation (sorted le key l) l.
Proof.
  induction l as [|x l IH]; simpl; [reflexivity|].
  rewrite insert_sorted_Permutation. now apply perm_skip.
Qed.

Lemma sorted_StronglySorted {A K} (le : K -> K -> bool) (key : A -> K)
    (l : list A) :
  (forall a b, le a b = false -> le b a = true) ->
  (forall a b c, le a b = true -> le b c = true -> le a c = true) ->
  StronglySorted (fun a b => le (key a) (key b) = true) (sorted le key l).
Proof.
  intros Htotal Htrans. apply Sorted_StronglySorted.
  - intros a b c. apply Htrans.
  - apply sorted_Sorted. exact Htotal.
Qed.

Lemma StronglySorted_after {A} (R : A -> A -> Prop) (before : list A)
    (x : A) (after : list A) :
  StronglySorted R (before ++ x :: after) ->
  forall y, In y after -> R x y.
Proof.
  induction before as [|z before IH]; simpl; intros Hs y Hy.
  - apply StronglySorted_inv in Hs as [_ Hall].
    rewrite Forall_forall in Hall. auto.
  - apply StronglySorted_inv in Hs as [Hs _]. auto.
Qed.

Lemma first_label_split test items label :
  first_label test items = Some label ->
  exists before key after,
    items = before ++ (key, label) :: after
    /\ test key = true
    /\ forall item, In item before -> test (fst item) = false.
Proof.
  induction items as [|[key l] items IH]; simpl; [discriminate|].
  destruct (test key) eqn:Hkey.
  - intros [= ->]. exists [], key, items. repeat split; auto. intros ? [].
  - intros H. destruct (IH H) as [before [k [after [-> [Hk Hb]]]]].
    exists ((key, l) :: before), k, after. repeat split; auto.
    intros item [<- | Hin]; auto.
Qed.

Lemma first_label_None test items :
  first_label test items = None ->
  forall item, In item items -> test (fst item) = false.
Proof.
  induction items as [|[key l] items IH]; simpl; [intros _ ? []|].
  destruct (test key) eqn:Hkey; [discriminate|].
  intros H item [<- | Hin]; auto.
Qed.

(** The longest phrase of a table that passes a test is the one found
    first after [longest_first]. *)
Lemma first_label_longest (table : list (pystr * pystr)) test :
  match first_label test (longest_first table) with
  | Some label =>
      exists key,
        In (key, label) table /\ test key = true
        /\ forall item, In item table -> test (fst item) = true ->
                        (List.length (fst item) <= List.length key)%nat
  | None => forall item, In item table -> test (fst item) = false
  end.
Proof.
  unfold longest_first.
  match goal with
  | |- context [sorted Z.leb ?k table] => set (key_of := k)
  end.
  pose proof (sorted_Permutation Z.leb key_of table) as Hperm.
  assert (Hss : StronglySorted (fun a b => Z.leb (key_of a) (key_of b) = true)
                               (sorted Z.leb key_of table)).
  { apply sorted_StronglySorted.
    - intros a b. rewrite Z.leb_gt, Z.leb_le. lia.
    - intros a b c. rewrite !Z.leb_le. lia. }
  destruct (first_label test (sorted Z.leb key_of table)) as [label|] eqn:Hf.
  - apply first_label_split in Hf as [before [key [after [Heq [Hkey Hb]]]]].
    exists key. split; [|split; [exact Hkey|]].
    + apply (Permutation_in _ Hperm). rewrite Heq.
      apply in_or_app. right. now left.
    + intros item Hin Htest.
      apply (Permutation_in _ (Permutation_sym Hperm)) in Hin.
      rewrite Heq in Hin, Hss.
      apply in_app_or in Hin as [Hin | [<- | Hin]].
      * rewrite (Hb item Hin) in Htest. discriminate.
      * cbn. lia.
      * pose proof (@StronglySorted_after _ _ _ _ _ Hss item Hin) as Hall.
        unfold key_of in Hall. cbv beta in Hall. cbn [fst] in Hall.
        apply Z.leb_le in Hall. unfold pystr in *. lia.
  - intros item Hin.
    apply (first_label_None _ _ Hf).
    apply (Permutation_in _ (Permutation_sym Hperm)). exact Hin.
Qed.

Section MapperFacts.
Context `{L : PyLib}.

(** X1.  [map_zone_label] returns the zone of a longest phrase of
    [ZONE_MAP] that occurs in the normalized text, and [None] exactly when
    no phrase of the table occurs in it. *)
Theorem map_zone_label_longest_phrase (zone : option pystr) :
  let normalized := normalize_label zone in
  match map_zone_label zone with
  | Some label =>
      exists key,
        In (key, label) ZONE_MAP /\ substring key normalized
        /\ forall key' label',
             In (key', label') ZONE_MAP -> substring key' normalized ->
             (List.length key' <= List.length key)%nat
  | None =>
      forall key label, In (key, label) ZONE_MAP -> ~ substring key normalized
  end.
Proof.
  cbn zeta. unfold map_zone_label.
  pose proof (first_label_longest ZONE_MAP
                (fun key => pyin key (normalize_label zone))) as H.
  destruct (first_label _ (longest_first ZONE_MAP)) as [label|].
  - destruct H as [key [Hin [Hkey Hlong]]].
    exists key. split; [exact Hin|]. split; [now apply pyin_spec|].
    intros key' label' Hin' Hsub. apply (Hlong (key', label') Hin').
    now apply pyin_spec.
  - intros key label Hin Hsub. apply pyin_spec in Hsub.
    pose proof (H (key, label) Hin) as Hf. cbv beta in Hf. cbn [fst] in Hf.
    congruence.
Qed.


End MapperFacts.

(** ** The second loop: earliest substitutions and match end minutes *)

Lemma earliest_fold (selected : MatchEvent.t -> bool)
    (events : list MatchEvent.t) (init : option Z) :
  match fold_left (earliest selected) events init with
  | None => init = None
            /\ forall event, In event events -> selected event = false
  | Some minute =>
      (init = Some minute
       \/ exists event, In event events /\ selected event = true
                        /\ minute_or_0 event = minute)
      /\ (forall other, init = Some other -> (minute <= other)%Z)
      /\ forall event, In event events -> selected event = true ->
                       (minute <= minute_or_0 event)%Z
  end.
Proof.
  revert init. induction events as [|event events IH]; intros init.
  - cbn. destruct init as [x|].
    + split; [now left|]. split; [intros ? [= <-]; lia | intros ? []].
    + split; [reflexivity | intros ? []].
  - cbn [fold_left]. specialize (IH (earliest selected init event)).
    destruct (fold_left (earliest selected) events
                        (earliest selected init event)) as [minute|].
    + destruct IH as [Hfrom [Hle Hall]]. unfold earliest in Hfrom, Hle.
      destruct (selected event) eqn:Hsel.
      * split; [|split].
        -- destruct Hfrom as [Hinit | [e [He [Hs Hm]]]].
           ++ destruct init as [x|]; cbn in Hinit; injection Hinit as Hinit.
              ** destruct (Z.min_spec x (minute_or_0 event)) as [[_ Hx]|[_ Hx]].
                 --- left. congruence.
                 --- right. exists event. split; [now left|]. split; congruence.
              ** right. exists event. split; [now left|]. split; congruence.
           ++ right. exists e. split; [now right | auto].
        -- intros other ->. cbn in Hle.
           specialize (Hle _ eq_refl). lia.
        -- intros e [<- | He] Hs; [|auto].
           destruct init as [x|]; cbn in Hle; specialize (Hle _ eq_refl); lia.
      * split; [|split].
        -- destruct Hfrom as [Hinit | [e [He [Hs Hm]]]]; [now left|].
           right. exists e. split; [now right | auto].
        -- exact Hle.
        -- intros e [<- | He] Hs; [congruence | auto].
    + destruct IH as [Hinit Hall]. unfold earliest in Hinit.
      destruct (selected event) eqn:Hsel.
      * destruct init; discriminate.
      * split; [exact Hinit|]. intros e [<- | He]; auto.
Qed.

Section SecondLoopFacts.
Context `{L : PyLib}.
Local Open Scope Z_scope.

Lemma observe_entry_earliest player_id match_id live_events init :
  entry_of (fold_left (observe player_id match_id) live_events init) =
  fold_left (earliest (fun event => event_of event player_id match_id
                                    && entry_event event))
            live_events (entry_of init).
Proof.
  revert init. induction live_events as [|event l IH]; intros init;
    [reflexivity|].
  cbn [fold_left]. rewrite IH. f_equal.
  unfold observe, earliest, entry_event.
  destruct (event_of event player_id match_id); [|reflexivity].
  cbn. destruct (is_substitution_entry _ _ _); destruct init; reflexivity.
Qed.

Lemma observe_exit_earliest player_id match_id live_events init :
  exit_of (fold_left (observe player_id match_id) live_events init) =
  fold_left (earliest (fun event => event_of event player_id match_id
                                    && exit_event event))
            live_events (exit_of init).
Proof.
  revert init. induction live_events as [|event l IH]; intros init;
    [reflexivity|].
  cbn [fold_left]. rewrite IH. f_equal.
  unfold observe, earliest, exit_event.
  destruct (event_of event player_id match_id); [|reflexivity].
  cbn. destruct (is_substitution_exit _ _ _); destruct init; reflexivity.
Qed.

(** X3.  After the second loop, the entry minute of a (player, match)
    timeline is the least minute (a missing minute counting as 0) of the
    substitution entries of the pair among the live events, whatever their
    order, and is absent exactly when the pair has no substitution entry;
    likewise the exit minute and the substitution exits. *)
Theorem timeline_keeps_earliest_substitutions
    (live_events : list MatchEvent.t) (player_id match_id : Z) :
  let timeline :=
    timeline_of (snd (fold_left track_event live_events ([], [])))
                player_id match_id in
  let entries event :=
    event_of event player_id match_id && entry_event event in
  let exits event :=
    event_of event player_id match_id && exit_event event in
  match entry_of timeline with
  | Some minute => least_minute entries live_events minute
  | None => forall event, In event live_events -> entries event = false
  end
  /\ match exit_of timeline with
     | Some minute => least_minute exits live_events minute
     | None => forall event, In event live_events -> exits event = false
     end.
Proof.
  cbn zeta. rewrite fold_track_timeline.
  cbn [snd timeline_of PyDict.get].
  rewrite observe_entry_earliest, observe_exit_earliest. cbn [entry_of exit_of].
  split.
  - match goal with |- context [fold_left (earliest ?s) _ _] =>
      pose proof (earliest_fold s live_events None) as H;
      destruct (fold_left (earliest s) live_events None) as [minute|]
    end.
    + destruct H as [[Hinit | Hex] [_ Hall]]; [discriminate|].
      split; assumption.
    + apply H.
  - match goal with |- context [fold_left (earliest ?s) _ _] =>
      pose proof (earliest_fold s live_events None) as H;
      destruct (fold_left (earliest s) live_events None) as [minute|]
    end.
    + destruct H as [[Hinit | Hex] [_ Hall]]; [discriminate|].
      split; assumption.
    + apply H.
Qed.

Lemma track_event_end
    (state : list (Z * Z) * list (Z * list (Z * Timeline.t))) event match_id :
  PyDict.get_or Z.eqb (fst (track_event state event)) match_id 0 =
  match minute_in_match event match_id with
  | Some minute =>
      Z.max (PyDict.get_or Z.eqb (fst state) match_id 0) minute
  | None => PyDict.get_or Z.eqb (fst state) match_id 0
  end.
Proof.
  destruct state as [ends pmt]. unfold track_event, minute_in_match.
  destruct (MatchEvent.player event) as [player|]; [|reflexivity].
  destruct (MatchEvent.match_ event) as [m|];
    [|destruct (MatchEvent.minute event); reflexivity].
  destruct (PyDict.setdefault Z.eqb pmt (Player.id player) [])
    as [matches pmt1].
  destruct (PyDict.setdefault Z.eqb matches (Match.id m) empty_timeline)
    as [timeline matches1].
  cbn [fst].
  destruct (MatchEvent.minute event) as [minute|]; [|reflexivity].
  unfold PyDict.get_or at 1.
  destruct (Z.eqb_spec (Match.id m) match_id) as [<- | Hne].
  - now rewrite (get_set_same Z.eqb Z_eqb_spec).
  - now rewrite (get_set_other Z.eqb Z_eqb_spec) by assumption.
Qed.

Lemma fold_track_end live_events
    (state : list (Z * Z) * list (Z * list (Z * Timeline.t))) match_id :
  let before := PyDict.get_or Z.eqb (fst state) match_id 0 in
  let after :=
    PyDict.get_or Z.eqb (fst (fold_left track_event live_events state))
                  match_id 0 in
  before <= after
  /\ (forall event minute,
        In event live_events ->
        minute_in_match event match_id = Some minute -> minute <= after)
  /\ (after = before
      \/ exists event, In event live_events
                       /\ minute_in_match event match_id = Some after).
Proof.
  revert state. induction live_events as [|event l IH]; intros state; cbn zeta.
  - cbn [fold_left]. split; [apply Z.le_refl|].
    split; [intros ? ? [] | now left].
  - cbn [fold_left]. specialize (IH (track_event state event)).
    cbn zeta in IH. rewrite track_event_end in IH.
    destruct IH as [Hle [Hall Hfrom]].
    destruct (minute_in_match event match_id) as [minute|] eqn:Hm.
    + split; [lia|]. split.
      * intros e x [<- | He] Hx; [|eauto].
        rewrite Hm in Hx. injection Hx as <-. lia.
      * destruct Hfrom as [Heq | [e [He Hx]]].
        -- destruct (Z.max_spec (PyDict.get_or Z.eqb (fst state) match_id 0)
                                minute) as [[_ Hmax] | [_ Hmax]].
           ++ right. exists event. split; [now left|]. congruence.
           ++ left. congruence.
        -- right. exists e. split; [now right | exact Hx].
    + split; [exact Hle|]. split.
      * intros e x [<- | He] Hx; [congruence | eauto].
      * destruct Hfrom as [Heq | [e [He Hx]]]; [now left|].
        right. exists e. split; [now right | exact Hx].
Qed.

(** X4.  After the second loop, the end minute of a match (0 for a match
    without entry) is never negative, is at least the minute of every live
    event of the match that has a player and a minute, and is 0 or the
    minute of one of them: it is their maximum. *)
Theorem match_end_is_latest_minute
    (live_events : list MatchEvent.t) (match_id : Z) :
  let match_end :=
    PyDict.get_or Z.eqb (fst (fold_left track_event live_events ([], [])))
                  match_id 0 in
  0 <= match_end
  /\ (forall event minute,
        In event live_events ->
        minute_in_match event match_id = Some minute -> minute <= match_end)
  /\ (match_end = 0
      \/ exists event, In event live_events
                       /\ minute_in_match event match_id = Some match_end).
Proof.
  exact (fold_track_end live_events ([], []) match_id).
Qed.


End SecondLoopFacts.


(** ** When the dashboard raises *)

Lemma increment_inv (d d' : list (pystr * Z)) (k : pystr) :
  increment d k = Ok d' ->
  PyDict.keys d' = PyDict.keys d /\ In k (PyDict.keys d).
Proof.
  unfold increment.
  destruct (PyDict.get PyStr.eqb d k) as [n|] eqn:Hget; [|discriminate].
  intros [= <-]. split.
  - rewrite (keys_set PyStr.eqb), Hget. reflexivity.
  - destruct (in_dec (list_eq_dec N.eq_dec) k (PyDict.keys d)) as [Hin|Hnot];
      [exact Hin|].
    apply (get_None_keys PyStr.eqb eqb_eq) in Hnot. congruence.
Qed.

Lemma increment_if_inv (d d' : list (pystr * Z)) (label : option pystr) :
  increment_if d label = Ok d' ->
  PyDict.keys d' = PyDict.keys d
  /\ match label with
     | Some (c :: l) => In (c :: l) (PyDict.keys d)
     | _ => True
     end.
Proof.
  unfold increment_if. destruct label as [[|c l]|];
    try (intros [= <-]; split; [reflexivity | exact I]).
  apply increment_inv.
Qed.

Lemma increment_if_raises_key (d : list (pystr * Z)) (label : option pystr) e :
  increment_if d label = Raise e ->
  exists key, e = KeyError key /\ ~ In key (PyDict.keys d).
Proof.
  unfold increment_if, increment. destruct label as [[|c l]|]; try discriminate.
  destruct (PyDict.get PyStr.eqb d (c :: l)) eqn:Hget; [discriminate|].
  intros [= <-]. exists (c :: l). split; [reflexivity|].
  now apply (get_None_keys PyStr.eqb eqb_eq).
Qed.

Lemma for_each_inv {A S} (P : S -> Prop) (Q : A -> Prop) (R : exn -> Prop)
    (step : S -> A -> result S) (xs : list A) :
  (forall acc x acc', P acc -> step acc x = Ok acc' -> Q x /\ P acc') ->
  (forall acc x e, P acc -> step acc x = Raise e -> R e) ->
  forall init, P init ->
    match for_each step xs init with
    | Ok out => P out /\ forall x, In x xs -> Q x
    | Raise e => R e
    end.
Proof.
  intros Hok Hraise. induction xs as [|x xs IH]; intros init Hinit; simpl.
  - split; [exact Hinit | intros ? []].
  - destruct (step init x) as [acc|e] eqn:Hstep; cbn [bind].
    + destruct (Hok _ _ _ Hinit Hstep) as [Hq Hacc].
      specialize (IH acc Hacc). destruct (for_each step xs acc); [|exact IH].
      destruct IH as [Hout Hall]. split; [exact Hout|].
      intros y [<- | Hy]; auto.
    + eapply Hraise; eauto.
Qed.

Section RaiseFacts.
Context `{L : PyLib}.

Lemma count_event_keys primary_team roster_cache player_stats event :
  all_counter_keys_ok player_stats ->
  match count_event primary_team roster_cache player_stats event with
  | Ok out => zones_known event = true /\ all_counter_keys_ok out
  | Raise e => exists key, e = KeyError key /\ ~ In key FIELD_ZONE_KEYS
  end.
Proof.
  intros Hall. unfold count_event, zones_known.
  destruct (MatchEvent.player event) as [player|]; [|split; auto].
  destruct (PyDict.setdefault _ _ _ _) as [stats ps1] eqn:Hsd.
  apply (setdefault_values Z.eqb Z_eqb_spec) in Hsd as [Hstats [_ Hps1]].
  assert (Hkeys : counter_keys_ok stats).
  { destruct Hstats as [-> | Hin]; [apply new_stats_counter_keys | auto]. }
  destruct Hkeys as [K1 [K2 [K3 K4]]].
  destruct (increment_if (Stats.zone_counts stats) _) as [zc|e] eqn:Hz;
    cbn [bind].
  2:{ apply increment_if_raises_key in Hz as [key [-> Hnot]].
      exists key. rewrite K1 in Hnot. auto. }
  apply increment_if_inv in Hz as [Kz Hzone]. rewrite K1 in Kz, Hzone.
  set (mapped := match strip (or_empty (MatchEvent.tercio event)) with
                 | [] => None
                 | _ => _
                 end).
  assert (Hmapped : match mapped with
                    | Some (c :: l) => In (c :: l) STANDARD_TERCIO_LABELS
                    | _ => True
                    end).
  { subst mapped. destruct (strip (or_empty (MatchEvent.tercio event)));
      [exact I | apply map_tercio_standard]. }
  destruct (increment_if_Ok _ _ K3 Hmapped) as [tc [-> Kc]]. cbn [bind].
  destruct (increment_if_Ok _ _ K4 Hmapped) as [tt [-> Kt]]. cbn [bind].
  destruct (increment_if (Stats.position_counts stats) _) as [pc|e] eqn:Hp;
    cbn [bind].
  2:{ apply increment_if_raises_key in Hp as [key [-> Hnot]].
      exists key. rewrite K2 in Hnot. auto. }
  apply increment_if_inv in Hp as [Kp Hposition].
  rewrite K2 in Kp, Hposition.
  assert (Hmatches : exists matches,
            match MatchEvent.match_ event with
            | Some m =>
                count_match primary_team m
                  (result_is_success (MatchEvent.result event))
                  (Stats.matches stats)
            | None => Ok (Stats.matches stats)
            end = Ok matches).
  { destruct (MatchEvent.match_ event); [apply count_match_Ok | eauto]. }
  destruct Hmatches as [matches ->]. cbn [bind].
  split.
  - apply andb_true_iff. unfold known_zone. split.
    + destruct (map_zone_label _) as [[|c l]|]; auto. now apply mem_In.
    + destruct (categorize_position _ _) as [[|c l]|]; auto. now apply mem_In.
  - intros s Hs. apply (In_values_set Z.eqb) in Hs as [-> | Hs].
    + repeat split; assumption.
    + destruct (Hps1 s Hs) as [-> | Hin];
        [apply new_stats_counter_keys | auto].
Qed.


End RaiseFacts.

(** ** What the dashboard counts *)

Lemma count_events_app player_id selected seen event :
  count_events player_id selected (seen ++ [event])
  = (count_events player_id selected seen
     + count_if (by_player player_id event && selected event))%Z.
Proof.
  unfold count_events. rewrite filter_app, length_app. cbn [filter].
  destruct (by_player player_id event && selected event); cbn; lia.
Qed.

Lemma count_events_none player_id selected events :
  (forall event, In event events -> by_player player_id event = false) ->
  count_events player_id selected events = 0%Z.
Proof.
  unfold count_events. induction events as [|event events IH]; intros H;
    [reflexivity|].
  cbn [filter]. rewrite (H event (or_introl eq_refl)). cbn [andb].
  apply IH. intros e He. apply H. now right.
Qed.

Lemma with_appearances_frame match_end_minutes matches stats :
  exists pc pj pt minutes,
    fold_left (apply_timeline match_end_minutes) matches stats
    = with_appearances stats pc pj pt minutes.
Proof.
  revert stats. induction matches as [|[match_id timeline] l IH];
    intros stats; cbn [fold_left].
  - exists (Stats.pc stats), (Stats.pj stats), (Stats.pt stats),
      (Stats.minutes stats). destruct stats; reflexivity.
  - destruct (IH (apply_timeline match_end_minutes stats (match_id, timeline)))
      as (a & b & c & d & E).
    rewrite E. unfold apply_timeline. destruct (derived_minutes _ _).
    exists a, b, c, d. reflexivity.
Qed.

Lemma apply_matches_frame match_end_minutes matches stats :
  exists pc pj pt minutes,
    apply_matches match_end_minutes matches stats
    = with_appearances stats pc pj pt minutes.
Proof.
  unfold apply_matches.
  destruct (with_appearances_frame match_end_minutes matches stats)
    as (a & b & c & d & E).
  rewrite E. eexists _, _, _, _. reflexivity.
Qed.

Ltac stats_fields :=
  cbn [Stats.player_id Stats.name Stats.number Stats.position
       Stats.total_actions Stats.successes Stats.pc Stats.pj Stats.pt
       Stats.minutes Stats.goals Stats.yellow_cards Stats.red_cards
       Stats.assists Stats.matches Stats.zone_counts Stats.position_counts
       Stats.tercio_counts Stats.tercio_totals Stats.duels_total
       Stats.duels_won Stats.shot_attempts Stats.shots_on_target
       Stats.pass_attempts Stats.passes_completed Stats.age
       Stats.has_events] in *.

Section CountFacts.
Context `{L : PyLib}.
Local Open Scope Z_scope.

Lemma count_event_effect primary_team roster_cache player_stats event out
    player :
  count_event primary_team roster_cache player_stats event = Ok out ->
  MatchEvent.player event = Some player ->
  exists before after,
    (PyDict.get Z.eqb player_stats (Player.id player) = Some before
     \/ (PyDict.get Z.eqb player_stats (Player.id player) = None
         /\ exists position age,
              before = new_stats player position age
                         (base_of (find_roster_entry (Player.name player)
                                                     roster_cache))))
    /\ PyDict.get Z.eqb out (Player.id player) = Some after
    /\ (forall k, k <> Player.id player ->
                  PyDict.get Z.eqb out k = PyDict.get Z.eqb player_stats k)
    /\ counted primary_team player before after event.
Proof.
  unfold count_event. intros H Hp. rewrite Hp in H.
  destruct (PyDict.setdefault _ _ _ _) as [stats ps1] eqn:Hsd.
  apply (setdefault_get Z.eqb Z_eqb_spec) in Hsd
    as [Hget1 [Hother1 [_ Hfrom]]].
  apply bind_Ok in H as [zc [Hzc H]].
  apply bind_Ok in H as [tc [Htc H]].
  apply bind_Ok in H as [tt [Htt H]].
  apply bind_Ok in H as [pc [Hpc H]].
  apply bind_Ok in H as [ms [Hms H]].
  injection H as <-.
  eexists stats, _. split; [|split; [|split]].
  - destruct Hfrom as [Hold | [Hnone ->]]; [now left | right].
    split; [exact Hnone | eauto].
  - apply (get_set_same Z.eqb Z_eqb_spec).
  - intros k Hk. rewrite (get_set_other Z.eqb Z_eqb_spec) by congruence.
    now apply Hother1.
  - unfold counted, zone_label_of, position_label_of, tercio_label_of.
    stats_fields. split; [exact Hp|].
    split; [repeat split|]. split; [repeat split|].
    split; [repeat split|]. split; [repeat split|].
    split; [repeat split; assumption|].
    destruct (MatchEvent.match_ event); [exact Hms | now injection Hms].
Qed.

Lemma first_loop_origin primary_team roster_cache events init out k :
  for_each (count_event primary_team roster_cache) events init = Ok out ->
  PyDict.get Z.eqb out k <> None ->
  PyDict.get Z.eqb init k <> None
  \/ exists event, In event events /\ by_player k event = true.
Proof.
  revert init. induction events as [|event events IH]; intros init H Hk.
  - injection H as <-. now left.
  - cbn [for_each] in H. apply bind_Ok in H as [ps [Hstep Hrest]].
    destruct (IH _ Hrest Hk) as [Hps | [ev [Hin Hev]]].
    2:{ right. exists ev. split; [now right | exact Hev]. }
    destruct (MatchEvent.player event) as [player|] eqn:Hp.
    + destruct (count_event_effect _ _ _ _ Hstep Hp)
        as (before & after & _ & _ & Hother & _).
      destruct (Z.eq_dec k (Player.id player)) as [-> | Hne].
      * right. exists event. split; [now left|].
        unfold by_player. rewrite Hp. apply Z.eqb_refl.
      * left. rewrite <- (Hother k Hne). exact Hps.
    + unfold count_event in Hstep. rewrite Hp in Hstep.
      injection Hstep as <-. now left.
Qed.

Lemma fourth_loop_origin roster_cache roster_players player_stats k stats :
  PyDict.get Z.eqb
    (fold_left (add_roster_player roster_cache) roster_players player_stats) k
    = Some stats ->
  PyDict.get Z.eqb player_stats k = Some stats
  \/ (PyDict.get Z.eqb player_stats k = None
      /\ exists player position age,
           In player roster_players /\ Player.id player = k
           /\ stats = new_stats player position age
                        (base_of (PyDict.get PyStr.eqb roster_cache
                                    (normalize_player_name
                                       (Some (Player.name player)))))).
Proof.
  revert player_stats.
  induction roster_players as [|player l IH]; intros player_stats; [auto|].
  cbn [fold_left]. intros H. apply IH in H.
  assert (Hmore : forall s,
            (exists player0 position age,
               In player0 l /\ Player.id player0 = k
               /\ s = new_stats player0 position age
                        (base_of (PyDict.get PyStr.eqb roster_cache
                                    (normalize_player_name
                                       (Some (Player.name player0)))))) ->
            exists player0 position age,
              In player0 (player :: l) /\ Player.id player0 = k
              /\ s = new_stats player0 position age
                       (base_of (PyDict.get PyStr.eqb roster_cache
                                   (normalize_player_name
                                      (Some (Player.name player0)))))).
  { intros s (p & pos & age & Hin & Hid & Hs).
    exists p, pos, age. split; [now right | auto]. }
  unfold add_roster_player in H.
  destruct (PyDict.get Z.eqb player_stats (Player.id player)) eqn:Hp.
  - destruct H as [H | [Hnone Hnew]]; [now left | right].
    split; [exact Hnone | now apply Hmore].
  - destruct (Z.eq_dec k (Player.id player)) as [-> | Hne].
    + rewrite (get_set_same Z.eqb Z_eqb_spec) in H.
      destruct H as [[= <-] | [[=] _]]. right.
      split; [exact Hp|]. eexists player, _, _.
      split; [now left|]. split; reflexivity.
    + rewrite (get_set_other Z.eqb Z_eqb_spec) in H by congruence.
      destruct H as [H | [Hnone Hnew]]; [now left | right].
      split; [exact Hnone | now apply Hmore].
Qed.

Lemma fourth_loop_covers roster_cache roster_players player_stats k :
  PyDict.get Z.eqb
    (fold_left (add_roster_player roster_cache) roster_players player_stats) k
    <> None
  <-> PyDict.get Z.eqb player_stats k <> None
      \/ exists player, In player roster_players /\ Player.id player = k.
Proof.
  revert player_stats.
  induction roster_players as [|player l IH]; intros player_stats.
  - cbn [fold_left]. split; [now left|]. intros [H | [p [[] _]]]. exact H.
  - cbn [fold_left]. rewrite IH. unfold add_roster_player.
    destruct (PyDict.get Z.eqb player_stats (Player.id player)) eqn:Hp.
    + split.
      * intros [H | [p [Hin Hid]]]; [now left | right].
        exists p. split; [now right | exact Hid].
      * intros [H | [p [[<- | Hin] Hid]]]; [now left | left | right].
        -- rewrite <- Hid, Hp. discriminate.
        -- exists p. auto.
    + destruct (Z.eq_dec k (Player.id player)) as [-> | Hne].
      * rewrite (get_set_same Z.eqb Z_eqb_spec). split.
        -- intros _. right. exists player. split; [now left | reflexivity].
        -- intros _. left. discriminate.
      * rewrite (get_set_other Z.eqb Z_eqb_spec) by congruence. split.
        -- intros [H | [p [Hin Hid]]]; [now left | right].
           exists p. split; [now right | exact Hid].
        -- intros [H | [p [[<- | Hin] Hid]]]; [now left | | right].
           ++ congruence.
           ++ exists p. auto.
Qed.

(** Where the stats of a player of the dashboard come from: the first
    loop, with the appearances of the third loop on top, or the roster
    players of the fourth loop. *)
Lemma gather_stats_origin events live_events roster_players primary_team
    roster_cache player_stats :
  gather_stats events live_events roster_players primary_team roster_cache
    = Ok player_stats ->
  exists counted_stats,
    for_each (count_event primary_team roster_cache) events []
      = Ok counted_stats
    /\ NoDup (PyDict.keys player_stats)
    /\ (forall k stats,
          PyDict.get Z.eqb player_stats k = Some stats ->
          (exists stats1 pc pj pt minutes,
             PyDict.get Z.eqb counted_stats k = Some stats1
             /\ stats = with_appearances stats1 pc pj pt minutes)
          \/ (PyDict.get Z.eqb counted_stats k = None
              /\ exists player position age,
                   In player roster_players /\ Player.id player = k
                   /\ stats = new_stats player position age
                                (base_of (PyDict.get PyStr.eqb roster_cache
                                            (normalize_player_name
                                               (Some (Player.name player)))))))
    /\ (forall k,
          PyDict.get Z.eqb player_stats k <> None
          <-> PyDict.get Z.eqb counted_stats k <> None
              \/ exists player,
                   In player roster_players /\ Player.id player = k).
Proof.
  unfold gather_stats. intros H. apply bind_Ok in H as [ps1 [H1 H]].
  pose proof (second_loop_wf live_events) as [Hndt _].
  destruct (fold_left track_event live_events ([], [])) as [ends pmt].
  cbn [snd] in Hndt. injection H as <-.
  exists ps1. split; [exact H1|].
  assert (Hinit : NoDup (PyDict.keys (@nil (Z * Stats.t)))
                  /\ stats_wf roster_cache []).
  { split; [constructor | intros ? ? [=]]. }
  destruct (first_loop_wf primary_team events H1 Hinit) as [[Hnd1 _] _].
  split; [|split].
  - now apply fourth_loop_keys, third_loop_keys.
  - intros k stats Hget. apply fourth_loop_origin in Hget.
    rewrite !(third_loop_get ends _ ps1 k Hndt) in Hget.
    destruct (PyDict.get Z.eqb ps1 k) as [stats1|] eqn:Hk1.
    + left. destruct Hget as [Hget | [Hnone _]].
      2:{ destruct (PyDict.get Z.eqb pmt k); discriminate. }
      destruct (PyDict.get Z.eqb pmt k) as [matches|].
      * cbn in Hget. injection Hget as <-.
        destruct (apply_matches_frame ends matches stats1)
          as (a & b & c & d & E).
        exists stats1, a, b, c, d. auto.
      * injection Hget as <-.
        exists stats1, (Stats.pc stats1), (Stats.pj stats1),
          (Stats.pt stats1), (Stats.minutes stats1).
        split; [reflexivity | destruct stats1; reflexivity].
    + right. destruct Hget as [Hget | [_ Hnew]].
      { destruct (PyDict.get Z.eqb pmt k); discriminate. }
      split; [reflexivity | exact Hnew].
  - intros k. rewrite fourth_loop_covers.
    rewrite (third_loop_get ends _ ps1 k Hndt).
    destruct (PyDict.get Z.eqb pmt k), (PyDict.get Z.eqb ps1 k); cbn;
      split; intros [H | H]; auto; left; congruence.
Qed.

End CountFacts.

Lemma baseline_has_events `{L : PyLib} (roster_cache : roster)
    (stats : Stats.t) :
  Stats.has_events stats = true ->
  baseline roster_cache stats
  = base_of (find_roster_entry (Stats.name stats) roster_cache).
Proof. unfold baseline. intros ->. reflexivity. Qed.

Section TallyFacts.
Context `{L : PyLib}.
Variable f : Stats.t -> Z.
Variable selected : MatchEvent.t -> bool.
Variable start : ((RosterEntry.t -> Z) -> Z) -> Z.
Hypothesis f_new :
  forall player position age base,
    f (new_stats player position age base) = start base.
Hypothesis f_counted :
  forall primary_team player before after event,
    counted primary_team player before after event ->
    f after = (f before + count_if (selected event))%Z.
Hypothesis f_appearances :
  forall stats pc pj pt minutes,
    f (with_appearances stats pc pj pt minutes) = f stats.
Local Open Scope Z_scope.

Lemma count_event_tally primary_team roster_cache seen player_stats event
    out :
  tally_ok f selected start roster_cache seen player_stats ->
  count_event primary_team roster_cache player_stats event = Ok out ->
  tally_ok f selected start roster_cache (seen ++ [event]) out.
Proof.
  intros [Hsome Hnone] Hstep.
  destruct (MatchEvent.player event) as [player|] eqn:Hp.
  - destruct (count_event_effect _ _ _ _ Hstep Hp)
      as (before & after & Hbefore & Hafter & Hother & Hcounted).
    pose proof (f_counted Hcounted) as Hf.
    destruct Hcounted as [_ [[_ [Hname Hev]] _]].
    assert (Hself : by_player (Player.id player) event = true).
    { unfold by_player. rewrite Hp. apply Z.eqb_refl. }
    assert (Helse : forall k, k <> Player.id player ->
                              by_player k event = false).
    { intros k Hk. unfold by_player. rewrite Hp. apply Z.eqb_neq. congruence. }
    split.
    + intros k stats Hget. rewrite count_events_app.
      destruct (Z.eq_dec k (Player.id player)) as [-> | Hne].
      * rewrite Hafter in Hget. injection Hget as <-.
        split; [exact Hev|]. rewrite Hself, Hf. cbn [andb].
        rewrite (baseline_has_events _ _ Hev), Hname.
        destruct Hbefore as [Hold | [Hnew (position & age & ->)]].
        -- destruct (Hsome _ _ Hold) as [Hev0 ->].
           rewrite (baseline_has_events _ _ Hev0). lia.
        -- rewrite f_new, (@count_events_none _ selected _ (Hnone _ Hnew)).
           cbn [Stats.name new_stats]. lia.
      * rewrite (Hother k Hne) in Hget.
        destruct (Hsome _ _ Hget) as [Hev0 ->]. split; [exact Hev0|].
        rewrite (Helse k Hne). cbn. lia.
    + intros k Hget ev Hin.
      assert (Hne : k <> Player.id player) by congruence.
      rewrite (Hother k Hne) in Hget.
      apply in_app_or in Hin as [Hin | [<- | []]]; [eauto | auto].
  - unfold count_event in Hstep. rewrite Hp in Hstep. injection Hstep as <-.
    assert (Hnot : forall k, by_player k event = false).
    { intros k. unfold by_player. now rewrite Hp. }
    split.
    + intros k stats Hget. rewrite count_events_app, Hnot.
      destruct (Hsome _ _ Hget) as [Hev0 ->]. split; [exact Hev0|].
      cbn. lia.
    + intros k Hget ev Hin.
      apply in_app_or in Hin as [Hin | [<- | []]]; [eauto | auto].
Qed.

Lemma first_loop_tally primary_team roster_cache events :
  forall seen init out,
    for_each (count_event primary_team roster_cache) events init = Ok out ->
    tally_ok f selected start roster_cache seen init ->
    tally_ok f selected start roster_cache (seen ++ events) out.
Proof.
  induction events as [|event events IH]; intros seen init out H Hinit.
  - injection H as <-. now rewrite app_nil_r.
  - cbn [for_each] in H. apply bind_Ok in H as [ps [Hstep Hrest]].
    change (event :: events) with ([event] ++ events). rewrite app_assoc.
    apply (IH _ _ _ Hrest). eapply count_event_tally; eauto.
Qed.

Lemma gather_stats_tally events live_events roster_players primary_team
    roster_cache player_stats k stats :
  gather_stats events live_events roster_players primary_team roster_cache
    = Ok player_stats ->
  PyDict.get Z.eqb player_stats k = Some stats ->
  f stats = start (baseline roster_cache stats)
            + count_events k selected events.
Proof.
  intros H Hget.
  destruct (gather_stats_origin _ _ _ _ _ H)
    as (ps1 & H1 & _ & Horigin & _).
  assert (Hinit : tally_ok f selected start roster_cache [] []).
  { split; [intros ? ? [=] | intros ? _ ? []]. }
  destruct (@first_loop_tally primary_team roster_cache events [] [] ps1 H1 Hinit)
    as [Hsome Hnone].
  cbn [app] in Hsome, Hnone.
  destruct (Horigin _ _ Hget)
    as [(stats1 & a & b & c & d & Hget1 & ->)
       | (Hget1 & player & position & age & _ & _ & ->)].
  - rewrite f_appearances. destruct (Hsome _ _ Hget1) as [_ ->].
    reflexivity.
  - rewrite f_new, (@count_events_none _ selected _ (Hnone _ Hget1)).
    rewrite Z.add_0_r. reflexivity.
Qed.

End TallyFacts.

Lemma values_by_key {V} (f : V -> Z) (d : list (Z * V)) :
  NoDup (PyDict.keys d) ->
  (forall k v, PyDict.get Z.eqb d k = Some v -> f v = k) ->
  map f (PyDict.values d) = PyDict.keys d.
Proof.
  induction d as [|[k v] d IH]; intros Hnd Hf; [reflexivity|].
  cbn [PyDict.keys PyDict.values map fst snd] in *.
  inversion Hnd as [|? ? Hnotin Hnd']; subst.
  f_equal.
  - apply Hf. cbn. now rewrite Z.eqb_refl.
  - apply IH; [exact Hnd'|]. intros k' v' Hget. apply Hf. cbn.
    destruct (Z.eqb_spec k' k) as [-> | _]; [|exact Hget].
    apply (get_In Z.eqb Z_eqb_spec) in Hget.
    exfalso. apply Hnotin. apply (in_map fst) in Hget. exact Hget.
Qed.

Lemma collect_map {A B} (f : A -> result B) (g : B -> A) (xs : list A)
    (ys : list B) :
  (forall x y, f x = Ok y -> g y = x) ->
  collect f xs = Ok ys -> map g ys = xs.
Proof.
  intros Hg. revert ys. induction xs as [|x xs IH]; intros ys; simpl.
  - now intros [= <-].
  - intros H. apply bind_Ok in H as [y [Hy H]].
    apply bind_Ok in H as [ys0 [Hys0 [= <-]]].
    cbn [map]. f_equal; [eapply Hg; eauto | now apply IH].
Qed.

Lemma StronglySorted_weaken {A} (R R' : A -> A -> Prop) (l : list A) :
  (forall a b, R a b -> R' a b) ->
  StronglySorted R l -> StronglySorted R' l.
Proof.
  intros HR. induction 1 as [|x l Hs IH Hall]; constructor; [exact IH|].
  revert Hall. apply Forall_impl. intros b. apply HR.
Qed.

Section OutputFacts.
Context `{L : PyLib}.
Local Open Scope Z_scope.

Lemma gather_stats_ids events live_events roster_players primary_team
    roster_cache player_stats k stats :
  gather_stats events live_events roster_players primary_team roster_cache
    = Ok player_stats ->
  PyDict.get Z.eqb player_stats k = Some stats ->
  Stats.player_id stats = k.
Proof.
  intros H Hget.
  destruct (gather_stats_origin _ _ _ _ _ H)
    as (ps1 & H1 & _ & Horigin & _).
  assert (Hinit : NoDup (PyDict.keys (@nil (Z * Stats.t)))
                  /\ stats_wf roster_cache []).
  { split; [constructor | intros ? ? [=]]. }
  destruct (first_loop_wf primary_team events H1 Hinit) as [[_ Hwf] _].
  destruct (Horigin _ _ Hget)
    as [(stats1 & a & b & c & d & Hget1 & ->)
       | (_ & player & position & age & _ & Hid & ->)].
  - apply (Hwf _ _ Hget1).
  - exact Hid.
Qed.

(** What [compute_player_dashboard] returns: the stats after the four
    loops, merged one by one, in the order of [sorted]. *)
Lemma dashboard_output db primary_team _ROSTER_CACHE players :
  fst (compute_player_dashboard db primary_team _ROSTER_CACHE) = Ok players ->
  exists player_stats,
    gather_stats (events_of db primary_team) (live_events_of db primary_team)
      (roster_players_of db primary_team) primary_team
      (fst (get_roster_stats_cache (roster_rows db) _ROSTER_CACHE))
    = Ok player_stats
    /\ Permutation (map Merged.stats players) (PyDict.values player_stats)
    /\ forall player, In player players ->
         merge_stats
           (fst (get_roster_stats_cache (roster_rows db) _ROSTER_CACHE))
           (last_player (events_of db primary_team)
                        (live_events_of db primary_team)
                        (roster_players_of db primary_team))
           (Merged.stats player)
         = Ok player.
Proof.
  unfold compute_player_dashboard.
  destruct (get_roster_stats_cache (roster_rows db) _ROSTER_CACHE)
    as [roster_cache cache']. cbn [fst]. intros H.
  apply bind_Ok in H as [ps [Hps H]].
  apply bind_Ok in H as [ms [Hms [= <-]]].
  exists ps. split; [exact Hps|].
  assert (Hstats : forall x y,
            merge_stats roster_cache
              (last_player (events_of db primary_team)
                           (live_events_of db primary_team)
                           (roster_players_of db primary_team)) x = Ok y ->
            Merged.stats y = x).
  { intros x y Hxy.
    destruct (merge_stats_spec roster_cache
                (last_player (events_of db primary_team)
                             (live_events_of db primary_team)
                             (roster_players_of db primary_team)) x)
      as [m [Hm [Hs _]]].
    congruence. }
  split.
  - rewrite <- (@collect_map _ _ _ _ _ _ Hstats Hms).
    apply Permutation_map, sorted_Permutation.
  - intros player Hin. apply sorted_In in Hin.
    destruct (@collect_In _ _ _ _ _ Hms _ Hin) as [x [_ Hx]].
    rewrite (Hstats _ _ Hx). exact Hx.
Qed.

(** X7.  The list of the dashboard has exactly one element for every
    player of the team in the players table and for every player with a
    confirmed event of the team, and no other element. *)
Theorem dashboard_lists_each_player_once
    (db : database) (primary_team : Team.t) (_ROSTER_CACHE : option roster)
    (players : list Merged.t) :
  fst (compute_player_dashboard db primary_team _ROSTER_CACHE) = Ok players ->
  let ids :=
    map (fun player => Stats.player_id (Merged.stats player)) players in
  NoDup ids
  /\ forall k,
       In k ids <->
       (exists player, In player (roster_players_of db primary_team)
                       /\ Player.id player = k)
       \/ (exists event, In event (events_of db primary_team)
                         /\ by_player k event = true).
Proof.
  intros H ids.
  destruct (dashboard_output _ _ _ H) as (ps & Hps & Hperm & _).
  destruct (gather_stats_origin _ _ _ _ _ Hps)
    as (ps1 & H1 & Hnd & _ & Hcover).
  assert (Hids : Permutation ids (PyDict.keys ps)).
  { subst ids. rewrite <- (map_map Merged.stats Stats.player_id).
    rewrite (Permutation_map Stats.player_id Hperm).
    rewrite (values_by_key Stats.player_id ps Hnd); [reflexivity|].
    intros k v Hget. eapply gather_stats_ids; eauto. }
  split.
  - apply (Permutation_NoDup (Permutation_sym Hids) Hnd).
  - intros k.
    assert (Hin : In k ids <-> In k (PyDict.keys ps)).
    { split; apply Permutation_in; [|apply Permutation_sym]; exact Hids. }
    rewrite Hin, In_keys_get, Hcover.
    assert (Hinit : NoDup (PyDict.keys (@nil (Z * Stats.t)))
                    /\ stats_wf (fst (get_roster_stats_cache (roster_rows db)
                                        _ROSTER_CACHE)) []).
    { split; [constructor | intros ? ? [=]]. }
    destruct (first_loop_wf primary_team (events_of db primary_team) H1 Hinit)
      as [_ [_ Hevents]].
    split.
    + intros [Hk | Hroster]; [right | now left].
      destruct (first_loop_origin _ _ _ _ k H1 Hk) as [Hnil | Hev];
        [now contradiction Hnil | exact Hev].
    + intros [Hroster | [event [Hev Hby]]]; [now right | left].
      unfold by_player in Hby.
      destruct (MatchEvent.player event) as [player|] eqn:Hp; [|discriminate].
      apply Z.eqb_eq in Hby. subst k. eapply Hevents; eauto.
Qed.

(** X9.  The list of the dashboard is in descending order of total
    actions. *)
Theorem dashboard_sorted_by_total_actions
    (db : database) (primary_team : Team.t) (_ROSTER_CACHE : option roster)
    (players : list Merged.t) :
  fst (compute_player_dashboard db primary_team _ROSTER_CACHE) = Ok players ->
  StronglySorted
    (fun a b => Stats.total_actions (Merged.stats b)
                <= Stats.total_actions (Merged.stats a))
    players.
Proof.
  unfold compute_player_dashboard.
  destruct (get_roster_stats_cache (roster_rows db) _ROSTER_CACHE)
    as [roster_cache cache']. cbn [fst]. intros H.
  apply bind_Ok in H as [ps [Hps H]].
  apply bind_Ok in H as [ms [Hms [= <-]]].
  eapply StronglySorted_weaken;
    [|apply (sorted_StronglySorted Z_geb
               (fun player => Stats.total_actions (Merged.stats player)) ms)].
  - intros a b Hab. unfold Z_geb in Hab. now apply Z.leb_le.
  - intros a b Hab. unfold Z_geb in *. apply Z.leb_gt in Hab.
    apply Z.leb_le. lia.
  - intros a b c Hab Hbc. unfold Z_geb in *.
    apply Z.leb_le in Hab, Hbc. apply Z.leb_le. lia.
Qed.

End OutputFacts.

Lemma each_player_once_witness :
  exists players,
    fst (@compute_player_dashboard Latin.lib Sample.db_squad
           Sample.benagalbon None) = Ok players
    /\ NoDup (map (fun player => Stats.player_id (Merged.stats player))
                  players).
Proof.
  destruct (fst (@compute_player_dashboard Latin.lib Sample.db_squad
                   Sample.benagalbon None)) as [players|e] eqn:E;
    [|vm_compute in E; discriminate].
  exists players. split; [reflexivity|].
  exact (proj1 (@dashboard_lists_each_player_once Latin.lib
                  Sample.db_squad Sample.benagalbon None players E)).
Defined.

Lemma sorted_by_total_actions_witness :
  exists players,
    fst (@compute_player_dashboard Latin.lib Sample.db_squad
           Sample.benagalbon None) = Ok players
    /\ StronglySorted
         (fun a b => (Stats.total_actions (Merged.stats b)
                      <= Stats.total_actions (Merged.stats a))%Z)
         players.
Proof.
  destruct (fst (@compute_player_dashboard Latin.lib Sample.db_squad
                   Sample.benagalbon None)) as [players|e] eqn:E;
    [|vm_compute in E; discriminate].
  exists players. split; [reflexivity|].
  exact (@dashboard_sorted_by_total_actions Latin.lib Sample.db_squad
           Sample.benagalbon None players E).
Defined.

(** ** The counters by zone, position and tercio *)

Lemma get_or_zero_counts (keys : list pystr) (key : pystr) :
  PyDict.get_or PyStr.eqb (zero_counts keys) key 0%Z = 0%Z.
Proof.
  unfold PyDict.get_or. induction keys as [|k keys IH]; [reflexivity|].
  cbn. destruct (PyStr.eqb key k); [reflexivity | exact IH].
Qed.

Lemma increment_if_get_or (d d' : list (pystr * Z)) (label : option pystr)
    (key : pystr) :
  increment_if d label = Ok d' ->
  PyDict.get_or PyStr.eqb d' key 0%Z
  = (PyDict.get_or PyStr.eqb d key 0 + count_if (label_is key label))%Z.
Proof.
  unfold increment_if, increment, label_is.
  destruct label as [[|c l]|]; try (intros [= <-]; cbn; lia).
  destruct (PyDict.get PyStr.eqb d (c :: l)) as [n|] eqn:Hget;
    [|discriminate].
  intros [= <-]. unfold PyDict.get_or.
  destruct (PyStr.eqb (c :: l) key) eqn:E.
  - apply eqb_eq in E. subst key.
    rewrite (get_set_same PyStr.eqb eqb_eq), Hget. reflexivity.
  - rewrite (get_set_other PyStr.eqb eqb_eq).
    + cbn. lia.
    + intros Heq. rewrite Heq, eqb_refl in E. discriminate.
Qed.

Lemma dict_items (d : list (pystr * Z)) :
  NoDup (PyDict.keys d) ->
  d = map (fun key => (key, PyDict.get_or PyStr.eqb d key 0%Z))
          (PyDict.keys d).
Proof.
  induction d as [|[k v] d IH]; intros Hnd; [reflexivity|].
  cbn [PyDict.keys map fst] in *.
  inversion Hnd as [|? ? Hnotin Hnd']; subst.
  f_equal.
  - unfold PyDict.get_or. cbn. now rewrite eqb_refl.
  - rewrite (IH Hnd') at 1. apply map_ext_in. intros key Hin.
    unfold PyDict.get_or. cbn.
    destruct (PyStr.eqb key k) eqn:E; [|reflexivity].
    apply eqb_eq in E. subst key. contradiction.
Qed.

Lemma StronglySorted_prefix {A} (R : A -> A -> Prop) (before after : list A) :
  StronglySorted R (before ++ after) ->
  StronglySorted R before
  /\ forall x y, In x before -> In y after -> R x y.
Proof.
  induction before as [|a before IH]; cbn [app]; intros H.
  - split; [constructor | intros ? ? []].
  - inversion H as [|? ? Hs Hall]; subst.
    destruct (IH Hs) as [Hbefore Hbetween]. split.
    + constructor; [exact Hbefore|].
      apply Forall_forall. intros x Hx. rewrite Forall_forall in Hall.
      apply Hall, in_or_app. now left.
    + intros x y [<- | Hx] Hy; [|auto].
      rewrite Forall_forall in Hall. apply Hall, in_or_app. now right.
Qed.

Lemma sorted_descending {A} (key : A -> Z) (l : list A) :
  StronglySorted (fun a b => (key b <= key a)%Z) (sorted Z_geb key l).
Proof.
  eapply StronglySorted_weaken;
    [|apply (sorted_StronglySorted Z_geb key l)].
  - intros a b Hab. unfold Z_geb in Hab. now apply Z.leb_le.
  - intros a b Hab. unfold Z_geb in *. apply Z.leb_gt in Hab.
    apply Z.leb_le. lia.
  - intros a b c Hab Hbc. unfold Z_geb in *.
    apply Z.leb_le in Hab, Hbc. apply Z.leb_le. lia.
Qed.

(** The first [n] of a list in descending order of [key]. *)
Lemma top_sorted {A} (key : A -> Z) (n : nat) (l : list A) :
  let top := firstn n (sorted Z_geb key l) in
  (List.length top <= n)%nat
  /\ (forall x, In x top -> In x l)
  /\ StronglySorted (fun a b => (key b <= key a)%Z) top
  /\ forall x, In x l ->
       In x top
       \/ (List.length top = n /\ forall y, In y top -> (key x <= key y)%Z).
Proof.
  intros top. subst top.
  pose proof (sorted_descending key l) as Hs.
  rewrite <- (firstn_skipn n (sorted Z_geb key l)) in Hs.
  apply StronglySorted_prefix in Hs as [Htop Hbetween].
  split; [apply firstn_le_length|]. split; [|split; [exact Htop|]].
  - intros x Hx. apply (sorted_In Z_geb key).
    rewrite <- (firstn_skipn n (sorted Z_geb key l)).
    apply in_or_app. now left.
  - intros x Hx. apply (sorted_In Z_geb key) in Hx.
    rewrite <- (firstn_skipn n (sorted Z_geb key l)) in Hx.
    apply in_app_or in Hx as [Hx | Hx]; [now left | right].
    split; [|intros y Hy; now apply Hbetween].
    apply firstn_length_le.
    destruct (Nat.le_gt_cases n (List.length (sorted Z_geb key l)))
      as [Hle | Hgt]; [exact Hle|].
    rewrite skipn_all2 in Hx by lia. destruct Hx.
Qed.

Section LabelFacts.
Context `{L : PyLib}.
Local Open Scope Z_scope.
Local Open Scope py_scope.

Lemma first_loop_counter_keys primary_team roster_cache events out :
  for_each (count_event primary_team roster_cache) events [] = Ok out ->
  all_counter_keys_ok out.
Proof.
  intros H.
  pose proof (for_each_inv all_counter_keys_ok (fun _ => True)
                (fun _ => True) (count_event primary_team roster_cache)
                events) as Hinv.
  specialize (Hinv
    (fun acc x acc' Hacc Hstep =>
       match eq_sym Hstep in _ = r
             return match r with
                    | Ok out => zones_known x = true /\ all_counter_keys_ok out
                    | Raise e => exists key, e = KeyError key
                                             /\ ~ In key FIELD_ZONE_KEYS
                    end -> True /\ all_counter_keys_ok acc'
       with
       | eq_refl => fun K => conj I (proj2 K)
       end (@count_event_keys _ primary_team roster_cache acc x Hacc))
    (fun _ _ _ _ _ => I) []).
  rewrite H in Hinv. apply Hinv. intros s [].
Qed.

(** The stats of an element of the dashboard: where they are stored, and
    what they are merged into. *)
Lemma dashboard_stats db primary_team _ROSTER_CACHE players player :
  fst (compute_player_dashboard db primary_team _ROSTER_CACHE) = Ok players ->
  In player players ->
  exists player_stats,
    gather_stats (events_of db primary_team) (live_events_of db primary_team)
      (roster_players_of db primary_team) primary_team
      (fst (get_roster_stats_cache (roster_rows db) _ROSTER_CACHE))
    = Ok player_stats
    /\ PyDict.get Z.eqb player_stats (Stats.player_id (Merged.stats player))
       = Some (Merged.stats player)
    /\ merge_stats
         (fst (get_roster_stats_cache (roster_rows db) _ROSTER_CACHE))
         (last_player (events_of db primary_team)
                      (live_events_of db primary_team)
                      (roster_players_of db primary_team))
         (Merged.stats player)
       = Ok player.
Proof.
  intros H Hin.
  destruct (dashboard_output _ _ _ H) as (ps & Hps & Hperm & Hmerge).
  destruct (gather_stats_origin _ _ _ _ _ Hps) as (_ & _ & Hnd & _ & _).
  assert (Hstats : In (Merged.stats player) (PyDict.values ps)).
  { apply (Permutation_in _ Hperm). now apply in_map. }
  apply in_map_iff in Hstats as [[k s] [Hs Hitem]]. cbn [snd] in Hs.
  apply (In_get Z.eqb Z_eqb_spec) in Hitem; [|exact Hnd].
  rewrite Hs in Hitem.
  exists ps. split; [exact Hps|]. split; [|now apply Hmerge].
  rewrite (gather_stats_ids _ _ _ _ _ _ Hps Hitem). exact Hitem.
Qed.

Lemma dashboard_counter_keys db primary_team _ROSTER_CACHE players player :
  fst (compute_player_dashboard db primary_team _ROSTER_CACHE) = Ok players ->
  In player players ->
  counter_keys_ok (Merged.stats player).
Proof.
  intros H Hin.
  destruct (@dashboard_stats _ _ _ _ _ H Hin) as (ps & Hps & Hget & _).
  destruct (gather_stats_origin _ _ _ _ _ Hps)
    as (ps1 & H1 & _ & Horigin & _).
  destruct (Horigin _ _ Hget)
    as [(stats1 & a & b & c & d & Hget1 & ->)
       | (_ & p & position & age & _ & _ & ->)].
  - apply (get_In_values Z.eqb Z_eqb_spec) in Hget1.
    apply (first_loop_counter_keys _ _ _ H1) in Hget1. exact Hget1.
  - apply new_stats_counter_keys.
Qed.

Lemma merge_stats_fields roster_cache player stats merged :
  merge_stats roster_cache player stats = Ok merged ->
  Merged.stats merged = stats
  /\ Merged.zone_heatmap merged
     = firstn 5
         (sorted Z_geb snd
            (filter (fun item => 0 <? snd item) (Stats.zone_counts stats)))
  /\ Merged.field_zones merged
     = map (fun zone =>
              (zone, PyDict.get_or PyStr.eqb (Stats.zone_counts stats)
                                   (fz_key zone) 0))
           FIELD_ZONES
  /\ collect
       (fun tercio_label =>
          let count :=
            PyDict.get_or PyStr.eqb (Stats.tercio_totals stats)
                          tercio_label 0 in
          pct <- rate count
                      (fold_left Z.add
                                 (PyDict.values (Stats.tercio_totals stats))
                                 0) ;;
          Ok (tercio_label, count, pct))
       [u"Ataque"; u"Construcción"; u"Defensa"]
     = Ok (Merged.tercio_summary merged)
  /\ Merged.matches merged
     = sorted match_key_leb match_sort_key
              (PyDict.values (Stats.matches stats))
  /\ Merged.match_count merged
     = Z.of_nat (List.length (Merged.matches merged)).
Proof.
  unfold merge_stats. intros H.
  apply bind_Ok in H as [r1 [_ H]].
  apply bind_Ok in H as [r2 [_ H]].
  apply bind_Ok in H as [ts [Hts H]].
  apply bind_Ok in H as [r3 [_ H]].
  apply bind_Ok in H as [r4 [_ H]].
  injection H as <-.
  cbn [Merged.stats Merged.zone_heatmap Merged.field_zones
       Merged.tercio_summary Merged.matches Merged.match_count].
  repeat split. exact Hts.
Qed.

End LabelFacts.

Section TallyOutput.
Context `{L : PyLib}.
Variable f : Stats.t -> Z.
Variable selected : MatchEvent.t -> bool.
Variable start : ((RosterEntry.t -> Z) -> Z) -> Z.
Hypothesis f_new :
  forall player position age base,
    f (new_stats player position age base) = start base.
Hypothesis f_counted :
  forall primary_team player before after event,
    counted primary_team player before after event ->
    f after = (f before + count_if (selected event))%Z.
Hypothesis f_appearances :
  forall stats pc pj pt minutes,
    f (with_appearances stats pc pj pt minutes) = f stats.

Lemma dashboard_tally db primary_team _ROSTER_CACHE players player :
  fst (compute_player_dashboard db primary_team _ROSTER_CACHE) = Ok players ->
  In player players ->
  f (Merged.stats player)
  = (start (baseline
              (fst (get_roster_stats_cache (roster_rows db) _ROSTER_CACHE))
              (Merged.stats player))
     + count_events (Stats.player_id (Merged.stats player)) selected
                    (events_of db primary_team))%Z.
Proof.
  intros H Hin.
  destruct (@dashboard_stats _ _ _ _ _ _ H Hin) as (ps & Hps & Hget & _).
  eapply gather_stats_tally; eauto.
Qed.

End TallyOutput.

Section CounterFacts.
Context `{L : PyLib}.
Local Open Scope Z_scope.

(** X8.  The counters of a player of the dashboard count the confirmed
    events of the player: the total actions are their number, and the
    successes, duels, duels won, shots, shots on target, passes and
    completed passes the number of those the matching test holds of; goals,
    assists and cards are the roster's plus the number of such events. *)
Theorem dashboard_counters_count_events
    (db : database) (primary_team : Team.t) (_ROSTER_CACHE : option roster)
    (players : list Merged.t) (player : Merged.t) :
  fst (compute_player_dashboard db primary_team _ROSTER_CACHE) = Ok players ->
  In player players ->
  let stats := Merged.stats player in
  let roster_cache :=
    fst (get_roster_stats_cache (roster_rows db) _ROSTER_CACHE) in
  let count selected :=
    count_events (Stats.player_id stats) selected
                 (events_of db primary_team) in
  (Stats.total_actions stats = count (fun _ => true)
   /\ Stats.successes stats = count success_event
   /\ Stats.duels_total stats = count duel_event
   /\ Stats.duels_won stats = count duel_won_event)
  /\ (Stats.shot_attempts stats = count shot_event
      /\ Stats.shots_on_target stats
         = count (fun event => shot_event event && success_event event)
      /\ Stats.pass_attempts stats = count pass_event
      /\ Stats.passes_completed stats
         = count (fun event => pass_event event && success_event event))
  /\ (Stats.goals stats
      = baseline roster_cache stats RosterEntry.goals + count goal_event
      /\ Stats.assists stats
         = baseline roster_cache stats RosterEntry.assists
           + count assist_event
      /\ Stats.yellow_cards stats
         = baseline roster_cache stats RosterEntry.yellow_cards
           + count yellow_card_event
      /\ Stats.red_cards stats
         = baseline roster_cache stats RosterEntry.red_cards
           + count red_card_event).
Proof.
  intros H Hin stats roster_cache count.
  destruct (dashboard_output _ _ _ H) as (ps & Hps & Hperm & _).
  destruct (gather_stats_origin _ _ _ _ _ Hps) as (_ & _ & Hnd & _ & _).
  assert (Hstats : In stats (PyDict.values ps)).
  { apply (Permutation_in _ Hperm). subst stats. now apply in_map. }
  apply in_map_iff in Hstats as [[k s] [Hs Hitem]]. cbn [snd] in Hs.
  apply (In_get Z.eqb Z_eqb_spec) in Hitem; [|exact Hnd].
  rewrite Hs in Hitem.
  pose proof (gather_stats_ids _ _ _ _ _ _ Hps Hitem) as Hid.
  subst count. rewrite Hid.
  assert (Hfield : forall f selected start,
    (forall player position age base,
       f (new_stats player position age base) = start base) ->
    (forall primary_team player before after event,
       counted primary_team player before after event ->
       f after = f before + count_if (selected event)) ->
    (forall stats pc pj pt minutes,
       f (with_appearances stats pc pj pt minutes) = f stats) ->
    f stats = start (baseline roster_cache stats)
              + count_events k selected (events_of db primary_team)).
  { intros f selected start Hnew Hcounted Happ.
    eapply gather_stats_tally; eauto. }
  split; [|split]; repeat split.
  all: match goal with
       | |- _ = baseline _ _ ?field + _ =>
           apply (Hfield _ _ (fun base => base field))
       | |- _ = _ => apply (Hfield _ _ (fun _ => 0))
       end;
    try reflexivity;
    try (intros t p before after event Hc; unfold counted in Hc;
         decompose [and] Hc; assumption).
Qed.

Lemma dashboard_label_counts db primary_team _ROSTER_CACHE players player
    (key : pystr) :
  fst (compute_player_dashboard db primary_team _ROSTER_CACHE) = Ok players ->
  In player players ->
  let stats := Merged.stats player in
  let count label_of :=
    count_events (Stats.player_id stats)
                 (fun event => label_is key (label_of event))
                 (events_of db primary_team) in
  PyDict.get_or PyStr.eqb (Stats.zone_counts stats) key 0
  = count zone_label_of
  /\ PyDict.get_or PyStr.eqb (Stats.position_counts stats) key 0
     = count position_label
  /\ PyDict.get_or PyStr.eqb (Stats.tercio_counts stats) key 0
     = count tercio_label_of
  /\ PyDict.get_or PyStr.eqb (Stats.tercio_totals stats) key 0
     = count tercio_label_of.
Proof.
  intros H Hin stats count. subst stats count. cbv beta.
  repeat split.
  all: match goal with
       | |- PyDict.get_or _ (?g _) _ _ = count_events _ ?selected _ =>
           refine (@dashboard_tally _
                     (fun stats => PyDict.get_or PyStr.eqb (g stats) key 0)
                     selected (fun _ => 0)
                     (fun _ _ _ _ => get_or_zero_counts _ key) _ _
                     db primary_team _ROSTER_CACHE players player H Hin)
       end;
    try (intros; reflexivity).
  all: intros t p before after event Hc; unfold counted in Hc;
    decompose [and] Hc; apply increment_if_get_or;
    try assumption.
  unfold position_label.
  match goal with Hp : MatchEvent.player event = Some p |- _ => rewrite Hp end.
  assumption.
Qed.

Lemma NoDup_FIELD_ZONE_KEYS : NoDup FIELD_ZONE_KEYS.
Proof.
  vm_compute. repeat (constructor; [cbn; intuition discriminate|]).
  constructor.
Qed.

Lemma dashboard_zone_counts db primary_team _ROSTER_CACHE players player :
  fst (compute_player_dashboard db primary_team _ROSTER_CACHE) = Ok players ->
  In player players ->
  Stats.zone_counts (Merged.stats player)
  = map (fun key =>
           (key,
            count_events (Stats.player_id (Merged.stats player))
              (fun event => label_is key (zone_label_of event))
              (events_of db primary_team)))
        FIELD_ZONE_KEYS.
Proof.
  intros H Hin.
  destruct (@dashboard_counter_keys _ _ _ _ _ _ H Hin) as [Kz _].
  rewrite (dict_items (Stats.zone_counts (Merged.stats player))) at 1.
  - rewrite Kz. apply map_ext. intros key. f_equal.
    apply (@dashboard_label_counts db primary_team _ROSTER_CACHE players
             player key H Hin).
  - rewrite Kz. apply NoDup_FIELD_ZONE_KEYS.
Qed.

(** X10.  Each counter of ['zone_counts'], ['position_counts'],
    ['tercio_counts'] and ['tercio_totals'] of a player of the dashboard is
    the number of confirmed events of the player that are mapped to its
    key, and the nine field zones of the player carry the zone counters. *)
Theorem dashboard_label_counters_count_events
    (db : database) (primary_team : Team.t) (_ROSTER_CACHE : option roster)
    (players : list Merged.t) (player : Merged.t) :
  fst (compute_player_dashboard db primary_team _ROSTER_CACHE) = Ok players ->
  In player players ->
  let stats := Merged.stats player in
  let count label_of key :=
    count_events (Stats.player_id stats)
                 (fun event => label_is key (label_of event))
                 (events_of db primary_team) in
  (forall key,
     PyDict.get_or PyStr.eqb (Stats.zone_counts stats) key 0
     = count zone_label_of key
     /\ PyDict.get_or PyStr.eqb (Stats.position_counts stats) key 0
        = count position_label key
     /\ PyDict.get_or PyStr.eqb (Stats.tercio_counts stats) key 0
        = count tercio_label_of key
     /\ PyDict.get_or PyStr.eqb (Stats.tercio_totals stats) key 0
        = count tercio_label_of key)
  /\ Stats.zone_counts stats
     = map (fun key => (key, count zone_label_of key)) FIELD_ZONE_KEYS
  /\ Merged.field_zones player
     = map (fun zone => (zone, count zone_label_of (fz_key zone))) FIELD_ZONES.
Proof.
  intros H Hin stats count.
  assert (Hlabels := fun key =>
            @dashboard_label_counts db primary_team _ROSTER_CACHE players
              player key H Hin).
  cbv zeta in Hlabels. fold stats in Hlabels.
  split; [exact Hlabels|].
  destruct (@dashboard_stats _ _ _ _ _ _ H Hin) as (_ & _ & _ & Hmerge).
  apply merge_stats_fields in Hmerge as (_ & _ & Hzones & _).
  fold stats in Hzones. split.
  - apply (@dashboard_zone_counts db primary_team _ROSTER_CACHE players player H Hin).
  - rewrite Hzones. apply map_ext. intros zone.
    now rewrite (proj1 (Hlabels (fz_key zone))).
Qed.

(** X11.  The zone heatmap of a player of the dashboard holds at most five
    zones, each with the number of events of the player mapped to it, which
    is positive; it is in descending order of that number, and a zone with
    events that is left out has no more events than any zone of the
    heatmap, which is then full. *)
Theorem zone_heatmap_is_top_five
    (db : database) (primary_team : Team.t) (_ROSTER_CACHE : option roster)
    (players : list Merged.t) (player : Merged.t) :
  fst (compute_player_dashboard db primary_team _ROSTER_CACHE) = Ok players ->
  In player players ->
  let count key :=
    count_events (Stats.player_id (Merged.stats player))
                 (fun event => label_is key (zone_label_of event))
                 (events_of db primary_team) in
  let heatmap := Merged.zone_heatmap player in
  (List.length heatmap <= 5)%nat
  /\ (forall key n, In (key, n) heatmap ->
        In key FIELD_ZONE_KEYS /\ n = count key /\ 0 < n)
  /\ StronglySorted (fun a b => snd b <= snd a) heatmap
  /\ forall key,
       In key FIELD_ZONE_KEYS -> 0 < count key ->
       In (key, count key) heatmap
       \/ (List.length heatmap = 5%nat
           /\ forall top, In top heatmap -> count key <= snd top).
Proof.
  intros H Hin count heatmap.
  destruct (@dashboard_stats _ _ _ _ _ _ H Hin) as (_ & _ & _ & Hmerge).
  apply merge_stats_fields in Hmerge as (_ & Hheat & _).
  rewrite (@dashboard_zone_counts db primary_team _ROSTER_CACHE players
             player H Hin) in Hheat.
  subst heatmap. rewrite Hheat.
  match goal with
  | |- context [firstn 5 (sorted Z_geb snd ?l)] =>
      pose proof (top_sorted (@snd pystr Z) 5 l) as Htop
  end.
  cbv zeta in Htop. destruct Htop as (Hlen & Hfrom & Hsorted & Htop).
  split; [exact Hlen|]. split; [|split; [exact Hsorted|]].
  - intros key n Hitem. apply Hfrom in Hitem.
    apply filter_In in Hitem as [Hitem Hpos]. cbn [snd] in Hpos.
    apply in_map_iff in Hitem as [k [[= <- <-] Hk]].
    split; [exact Hk|]. split; [reflexivity | now apply Z.ltb_lt].
  - intros key Hkey Hpos.
    destruct (Htop (key, count key)) as [Hitem | [Hfull Hle]].
    + apply filter_In. split.
      * apply in_map_iff. exists key. auto.
      * cbn [snd]. now apply Z.ltb_lt.
    + now left.
    + right. split; [exact Hfull | exact Hle].
Qed.




End CounterFacts.

Lemma counters_witness :
  exists player rest,
    fst (@compute_player_dashboard Latin.lib Sample.db_squad
           Sample.benagalbon None) = Ok (player :: rest)
    /\ Stats.total_actions (Merged.stats player)
       = count_events (Stats.player_id (Merged.stats player)) (fun _ => true)
           (events_of Sample.db_squad Sample.benagalbon).
Proof.
  destruct (fst (@compute_player_dashboard Latin.lib Sample.db_squad
                   Sample.benagalbon None)) as [players|e] eqn:E;
    [|vm_compute in E; discriminate].
  destruct players as [|player rest]; [vm_compute in E; discriminate|].
  exists player, rest. split; [reflexivity|].
  exact (proj1 (proj1 (@dashboard_counters_count_events Latin.lib
                         Sample.db_squad Sample.benagalbon None
                         (player :: rest) player E (or_introl eq_refl)))).
Defined.

Lemma label_counters_witness :
  exists player rest,
    fst (@compute_player_dashboard Latin.lib Sample.db_squad
           Sample.benagalbon None) = Ok (player :: rest)
    /\ Stats.zone_counts (Merged.stats player)
       = map (fun key =>
                (key,
                 count_events (Stats.player_id (Merged.stats player))
                   (fun event => label_is key
                                   (@zone_label_of Latin.lib event))
                   (events_of Sample.db_squad Sample.benagalbon)))
             FIELD_ZONE_KEYS.
Proof.
  destruct (fst (@compute_player_dashboard Latin.lib Sample.db_squad
                   Sample.benagalbon None)) as [players|e] eqn:E;
    [|vm_compute in E; discriminate].
  destruct players as [|player rest]; [vm_compute in E; discriminate|].
  exists player, rest. split; [reflexivity|].
  exact (proj1 (proj2 (@dashboard_label_counters_count_events Latin.lib
                         Sample.db_squad Sample.benagalbon None
                         (player :: rest) player E (or_introl eq_refl)))).
Defined.

Lemma zone_heatmap_witness :
  exists player rest,
    fst (@compute_player_dashboard Latin.lib Sample.db_squad
           Sample.benagalbon None) = Ok (player :: rest)
    /\ (List.length (Merged.zone_heatmap player) <= 5)%nat.
Proof.
  destruct (fst (@compute_player_dashboard Latin.lib Sample.db_squad
                   Sample.benagalbon None)) as [players|e] eqn:E;
    [|vm_compute in E; discriminate].
  destruct players as [|player rest]; [vm_compute in E; discriminate|].
  exists player, rest. split; [reflexivity|].
  exact (proj1 (@zone_heatmap_is_top_five Latin.lib Sample.db_squad
                  Sample.benagalbon None (player :: rest) player E
                  (or_introl eq_refl))).
Defined.


(** ** The matches of a player *)

Section MatchFacts.
Context `{L : PyLib}.
Local Open Scope Z_scope.

Lemma count_match_effect primary_team m success matches matches' match_id :
  count_match primary_team m success matches = Ok matches' ->
  match_counter matches' match_id MatchEntry.actions
  = match_counter matches match_id MatchEntry.actions
    + count_if (Match.id m =? match_id)
  /\ match_counter matches' match_id MatchEntry.successes
     = match_counter matches match_id MatchEntry.successes
       + count_if ((Match.id m =? match_id) && success).
Proof.
  unfold count_match.
  destruct (PyDict.setdefault _ _ _ _) as [e ms] eqn:Hsd.
  apply (setdefault_get Z.eqb Z_eqb_spec) in Hsd
    as [Hget1 [Hother1 [_ Hfrom]]].
  intros H. apply bind_Ok in H as [rate_value [_ [= <-]]].
  unfold match_counter.
  destruct (Z.eqb_spec (Match.id m) match_id) as [<- | Hne].
  - rewrite (get_set_same Z.eqb Z_eqb_spec).
    cbn [MatchEntry.actions MatchEntry.successes andb count_if].
    destruct Hfrom as [-> | [-> ->]];
      cbn [MatchEntry.actions MatchEntry.successes]; split; lia.
  - rewrite (get_set_other Z.eqb Z_eqb_spec) by exact Hne.
    rewrite Hother1 by congruence. cbn. split; lia.
Qed.

Lemma count_match_wf primary_team m success matches matches' :
  matches_wf matches ->
  count_match primary_team m success matches = Ok matches' ->
  matches_wf matches'.
Proof.
  intros [Hnd Hwf]. unfold count_match.
  destruct (PyDict.setdefault _ _ _ _) as [e ms] eqn:Hsd.
  apply (setdefault_get Z.eqb Z_eqb_spec) in Hsd
    as [Hget1 [Hother1 [Hnd1 Hfrom]]].
  intros H. apply bind_Ok in H as [rate_value [Hrate [= <-]]].
  assert (He : MatchEntry.match_id e = Match.id m
               /\ 0 <= MatchEntry.actions e).
  { destruct Hfrom as [Hold | [_ ->]].
    - destruct (Hwf _ _ Hold) as [Hid [Hact _]]. split; [exact Hid | lia].
    - cbn. split; [reflexivity | lia]. }
  destruct He as [Hid Hact].
  split; [apply (NoDup_keys_set Z.eqb Z_eqb_spec); auto|].
  intros match_id entry Hentry.
  destruct (Z.eq_dec match_id (Match.id m)) as [-> | Hne].
  - rewrite (get_set_same Z.eqb Z_eqb_spec) in Hentry.
    injection Hentry as <-.
    cbn [MatchEntry.match_id MatchEntry.actions MatchEntry.successes
         MatchEntry.success_rate].
    split; [exact Hid|]. split; [lia|].
    destruct (Z.eqb_spec (MatchEntry.actions e + 1) 0) as [Hz | Hnz]; [lia|].
    unfold truediv in Hrate.
    destruct (Z.eqb_spec (MatchEntry.actions e + 1) 0); [lia|].
    cbn [bind] in Hrate. now injection Hrate as <-.
  - rewrite (get_set_other Z.eqb Z_eqb_spec) in Hentry by congruence.
    rewrite Hother1 in Hentry by assumption. now apply Hwf.
Qed.

Lemma first_loop_matches_wf primary_team roster_cache events out :
  for_each (count_event primary_team roster_cache) events [] = Ok out ->
  forall k stats, PyDict.get Z.eqb out k = Some stats ->
                  matches_wf (Stats.matches stats).
Proof.
  apply (for_each_invariant
           (fun ps : list (Z * Stats.t) =>
              forall k stats, PyDict.get Z.eqb ps k = Some stats ->
                              matches_wf (Stats.matches stats))).
  - intros acc event acc' Hacc Hstep k stats Hget.
    destruct (MatchEvent.player event) as [player|] eqn:Hp.
    + destruct (count_event_effect _ _ _ _ Hstep Hp)
        as (before & after & Hbefore & Hafter & Hother & Hcounted).
      destruct (Z.eq_dec k (Player.id player)) as [-> | Hne].
      * rewrite Hafter in Hget. injection Hget as <-.
        assert (Hwf : matches_wf (Stats.matches before)).
        { destruct Hbefore as [Hold | [_ (position & age & ->)]].
          - eapply Hacc; eauto.
          - split; [constructor | intros ? ? [=]]. }
        unfold counted in Hcounted. decompose [and] Hcounted.
        destruct (MatchEvent.match_ event) as [m|].
        -- eapply count_match_wf; eauto.
        -- congruence.
      * rewrite (Hother k Hne) in Hget. eapply Hacc; eauto.
    + unfold count_event in Hstep. rewrite Hp in Hstep.
      injection Hstep as <-. eapply Hacc; eauto.
  - intros ? ? [=].
Qed.

Lemma dashboard_matches_wf db primary_team _ROSTER_CACHE players player :
  fst (compute_player_dashboard db primary_team _ROSTER_CACHE) = Ok players ->
  In player players ->
  matches_wf (Stats.matches (Merged.stats player)).
Proof.
  intros H Hin.
  destruct (@dashboard_stats _ _ _ _ _ _ H Hin) as (ps & Hps & Hget & _).
  destruct (gather_stats_origin _ _ _ _ _ Hps)
    as (ps1 & H1 & _ & Horigin & _).
  destruct (Horigin _ _ Hget)
    as [(stats1 & a & b & c & d & Hget1 & ->)
       | (_ & p & position & age & _ & _ & ->)].
  - apply (first_loop_matches_wf _ _ _ H1 _ Hget1).
  - split; [constructor | intros ? ? [=]].
Qed.

Lemma dashboard_match_counters db primary_team _ROSTER_CACHE players player
    (match_id : Z) :
  fst (compute_player_dashboard db primary_team _ROSTER_CACHE) = Ok players ->
  In player players ->
  match_counter (Stats.matches (Merged.stats player)) match_id
                MatchEntry.actions
  = count_events (Stats.player_id (Merged.stats player))
                 (fun event => in_match match_id event)
                 (events_of db primary_team)
  /\ match_counter (Stats.matches (Merged.stats player)) match_id
                   MatchEntry.successes
     = count_events (Stats.player_id (Merged.stats player))
                    (fun event => in_match match_id event
                                  && success_event event)
                    (events_of db primary_team).
Proof.
  intros H Hin. split.
  all: match goal with
       | |- match_counter _ _ ?counter = count_events _ ?selected _ =>
           refine (@dashboard_tally _
                     (fun stats =>
                        match_counter (Stats.matches stats) match_id counter)
                     selected (fun _ => 0) (fun _ _ _ _ => eq_refl) _
                     (fun _ _ _ _ _ => eq_refl)
                     db primary_team _ROSTER_CACHE players player H Hin)
       end.
  all: intros t p before after event Hc; unfold counted in Hc;
    decompose [and] Hc; unfold in_match;
    destruct (MatchEvent.match_ event) as [m|];
    [ match goal with
      | Hm : count_match _ _ _ _ = Ok _ |- _ =>
          destruct (count_match_effect _ _ _ _ match_id Hm) as [Ha Hs]
      end; assumption
    | match goal with
      | Hm : Stats.matches after = _ |- _ => rewrite Hm
      end; cbn; lia ].
Qed.


End MatchFacts.


(** ** The player cards *)

Lemma StronglySorted_snoc {A} (R : A -> A -> Prop) (l : list A) (x : A) :
  StronglySorted R l -> (forall y, In y l -> R y x) ->
  StronglySorted R (l ++ [x]).
Proof.
  induction 1 as [|a l Hs IH Hall]; intros Hx; cbn [app].
  - repeat constructor.
  - constructor.
    + apply IH. intros y Hy. apply Hx. now right.
    + apply Forall_forall. intros y Hy.
      apply in_app_or in Hy as [Hy | [<- | []]].
      * rewrite Forall_forall in Hall. now apply Hall.
      * apply Hx. now left.
Qed.

Lemma NoDup_snoc {A} (l : list A) (x : A) :
  NoDup l -> ~ In x l -> NoDup (l ++ [x]).
Proof.
  intros Hnd Hx. rewrite <- (rev_involutive (l ++ [x])).
  apply NoDup_rev. rewrite rev_app_distr. cbn [rev app].
  constructor; [now rewrite <- in_rev | now apply NoDup_rev].
Qed.

Section CardFacts.
Context `{L : PyLib}.
Local Open Scope Z_scope.

Lemma dashboard_descending db primary_team _ROSTER_CACHE players :
  fst (compute_player_dashboard db primary_team _ROSTER_CACHE) = Ok players ->
  StronglySorted
    (fun a b => Stats.total_actions (Merged.stats b)
                <= Stats.total_actions (Merged.stats a))
    players.
Proof.
  unfold compute_player_dashboard.
  destruct (get_roster_stats_cache (roster_rows db) _ROSTER_CACHE)
    as [roster_cache cache']. cbn [fst]. intros H.
  apply bind_Ok in H as [ps [_ H]].
  apply bind_Ok in H as [ms [_ [= <-]]].
  apply (sorted_descending
           (fun player => Stats.total_actions (Merged.stats player))).
Qed.

Lemma card_of_Ok (player : Merged.t) :
  exists card,
    card_of player = Ok card
    /\ Card.name card = Stats.name (Merged.stats player)
    /\ Card.actions card = Stats.total_actions (Merged.stats player)
    /\ (0 <= Stats.successes (Merged.stats player)
             <= Stats.total_actions (Merged.stats player) ->
        0 <= Card.success_rate card <= 100).
Proof.
  unfold card_of, truediv.
  destruct (Z.eqb_spec (Stats.total_actions (Merged.stats player)) 0)
    as [Hz | Hnz]; cbn [bind].
  - eexists. split; [reflexivity|]. cbn. repeat split; lia.
  - eexists. split; [reflexivity|]. cbn. repeat split;
      apply round_int_percent; lia.
Qed.

Lemma add_card_inv done state player :
  cards_inv done state ->
  exists state',
    add_card state player = Ok state'
    /\ cards_inv (done ++ [player]) state'.
Proof.
  destruct state as [cards seen]. intros (Hseen & Hnd & Hcards & Hdone).
  assert (Hfirst : forall card, first_with_key done card ->
                                first_with_key (done ++ [player]) card).
  { intros card (before & p & after & -> & Hp & Hbefore).
    exists before, p, (after ++ [player]).
    split; [now rewrite <- app_assoc|]. auto. }
  unfold add_card.
  destruct (mem (canonical_roster_key (Stats.name (Merged.stats player)))
                seen) eqn:Hmem.
  - eexists. split; [reflexivity|]. apply mem_In in Hmem.
    split; [|split; [exact Hnd|split]].
    + intros key. rewrite Hseen. split.
      * intros (p & Hp & Hkey). exists p. split; [|exact Hkey].
        apply in_or_app. now left.
      * intros (p & Hp & Hkey).
        apply in_app_or in Hp as [Hp | [<- | []]]; [eauto|].
        apply Hseen. now rewrite <- Hkey.
    + intros card Hcard. destruct (Hcards _ Hcard). auto.
    + intros p Hp. apply in_app_or in Hp as [Hp | [<- | []]]; [auto|].
      apply Hseen in Hmem as (q & Hq & Hkey).
      destruct (Hdone _ Hq) as (card & Hcard & Hck).
      exists card. split; [exact Hcard | now rewrite Hck, Hkey].
  - destruct (card_of_Ok player) as (card & Hcard & Hname & _).
    rewrite Hcard. cbn [bind]. eexists. split; [reflexivity|].
    assert (Hnot : ~ In (player_key player) seen).
    { intros Hin. apply mem_In in Hin. unfold player_key in Hin. congruence. }
    assert (Hkey : card_key card = player_key player).
    { unfold card_key, player_key. now rewrite Hname. }
    split; [|split; [|split]].
    + intros key. cbn [In]. rewrite Hseen. split.
      * intros [<- | (p & Hp & Hk)].
        -- exists player. split; [apply in_or_app; right; now left|].
           reflexivity.
        -- exists p. split; [apply in_or_app; now left | exact Hk].
      * intros (p & Hp & Hk).
        apply in_app_or in Hp as [Hp | [<- | []]]; [right; eauto | now left].
    + rewrite map_app. cbn [map]. apply NoDup_snoc; [exact Hnd|].
      rewrite Hkey. intros Hin.
      apply in_map_iff in Hin as (c & Hc & Hin).
      destruct (Hcards _ Hin) as [Hs _]. rewrite Hc in Hs. contradiction.
    + intros c Hc. apply in_app_or in Hc as [Hc | [<- | []]].
      * destruct (Hcards _ Hc). split; [now right | auto].
      * split; [left; now rewrite Hkey|].
        exists done, player, []. split; [reflexivity|]. split; [exact Hcard|].
        intros other Hother Heq. apply Hnot, Hseen. eauto.
    + intros p Hp. apply in_app_or in Hp as [Hp | [<- | []]].
      * destruct (Hdone _ Hp) as (c & Hc & Hck).
        exists c. split; [apply in_or_app; now left | exact Hck].
      * exists card. split; [apply in_or_app; right; now left | exact Hkey].
Qed.

Lemma add_cards_inv players :
  forall done state,
    cards_inv done state ->
    exists state',
      for_each add_card players state = Ok state'
      /\ cards_inv (done ++ players) state'.
Proof.
  induction players as [|player players IH]; intros done state Hinv.
  - exists state. split; [reflexivity | now rewrite app_nil_r].
  - destruct (@add_card_inv done state player Hinv)
      as (state1 & Hstep & Hinv1).
    destruct (IH _ _ Hinv1) as (state' & Hrest & Hinv').
    exists state'. cbn [for_each]. rewrite Hstep. cbn [bind].
    split; [exact Hrest|].
    now rewrite <- app_assoc in Hinv'.
Qed.

Lemma add_cards_sorted players :
  forall cards seen state',
    StronglySorted
      (fun a b => Stats.total_actions (Merged.stats b)
                  <= Stats.total_actions (Merged.stats a)) players ->
    StronglySorted (fun a b => Card.actions b <= Card.actions a) cards ->
    (forall card player, In card cards -> In player players ->
       Stats.total_actions (Merged.stats player) <= Card.actions card) ->
    for_each add_card players (cards, seen) = Ok state' ->
    StronglySorted (fun a b => Card.actions b <= Card.actions a)
                   (fst state').
Proof.
  induction players as [|player players IH];
    intros cards seen state' Hplayers Hcards Hbound H.
  - injection H as <-. exact Hcards.
  - cbn [for_each] in H. apply bind_Ok in H as [[cards1 seen1] [Hstep H]].
    inversion Hplayers as [|? ? Hrest Hhead]; subst.
    rewrite Forall_forall in Hhead.
    unfold add_card in Hstep.
    destruct (mem _ seen).
    + injection Hstep as <- <-. eapply IH; eauto.
      intros card p Hc Hp. apply Hbound; [exact Hc | now right].
    + destruct (card_of_Ok player) as (card & Hcard & _ & Hactions & _).
      rewrite Hcard in Hstep. cbn [bind] in Hstep.
      injection Hstep as <- <-.
      eapply IH; [exact Hrest | | | exact H].
      * apply StronglySorted_snoc; [exact Hcards|].
        intros c Hc. rewrite Hactions. apply Hbound; [exact Hc | now left].
      * intros c p Hc Hp. apply in_app_or in Hc as [Hc | [<- | []]].
        -- apply Hbound; [exact Hc | now right].
        -- rewrite Hactions. now apply Hhead.
Qed.

(** X14.  [compute_player_cards] raises what the dashboard raises and
    returns otherwise.  Its cards have pairwise distinct roster keys; each
    is the card of the first player of the dashboard with its key, every
    player of the dashboard has the key of some card, the success rate of
    a card lies between 0 and 100, and the cards are in descending order of
    actions. *)
Theorem player_cards_one_per_roster_key
    (db : database) (primary_team : Team.t) (_ROSTER_CACHE : option roster) :
  match fst (compute_player_dashboard db primary_team _ROSTER_CACHE) with
  | Raise e =>
      fst (compute_player_cards db primary_team _ROSTER_CACHE) = Raise e
  | Ok players =>
      exists cards,
        fst (compute_player_cards db primary_team _ROSTER_CACHE) = Ok cards
        /\ NoDup (map card_key cards)
        /\ (forall card, In card cards ->
              first_with_key players card
              /\ 0 <= Card.success_rate card <= 100)
        /\ (forall player, In player players ->
              exists card, In card cards
                           /\ card_key card = player_key player)
        /\ StronglySorted (fun a b => Card.actions b <= Card.actions a) cards
  end.
Proof.
  destruct (fst (compute_player_dashboard db primary_team _ROSTER_CACHE))
    as [players|e] eqn:Hdash.
  2:{ unfold compute_player_cards.
      destruct (compute_player_dashboard db primary_team _ROSTER_CACHE)
        as [r cache']. cbn [fst] in *. now subst r. }
  assert (Hinit : cards_inv [] ([], [])).
  { split; [|split; [constructor | split]].
    - intros key. split; [intros [] | intros (p & [] & _)].
    - intros card [].
    - intros p []. }
  destruct (@add_cards_inv players [] ([], []) Hinit)
    as ([cards seen] & Hloop & Hseen & Hnd & Hcards & Hdone).
  cbn [app] in Hcards, Hdone.
  exists cards. split; [|split; [exact Hnd | split; [|split; [exact Hdone|]]]].
  - unfold compute_player_cards.
    destruct (compute_player_dashboard db primary_team _ROSTER_CACHE)
      as [r cache']. cbn [fst] in *. subst r. cbn [bind].
    rewrite Hloop. reflexivity.
  - intros card Hcard. destruct (Hcards _ Hcard) as [_ Hfirst].
    split; [exact Hfirst|].
    destruct Hfirst as (before & p & after & Hplayers & Hp & _).
    assert (Hin : In p players).
    { rewrite Hplayers. apply in_or_app. right. now left. }
    destruct (@dashboard_stats _ _ _ _ _ _ Hdash Hin)
      as (ps & Hps & Hget & _).
    apply gather_stats_counters in Hps.
    apply (get_In_values Z.eqb Z_eqb_spec) in Hget.
    destruct (Hps _ Hget) as [[Hrate _] _].
    destruct (card_of_Ok p) as (c & Hc & _ & _ & Hbound).
    rewrite Hp in Hc. injection Hc as <-. now apply Hbound.
  - apply (@add_cards_sorted players [] [] (cards, seen)
             (dashboard_descending _ _ _ Hdash) (SSorted_nil _));
      [|exact Hloop].
    intros card p [].
Qed.

End CardFacts.

(** ** The roster *)

Lemma find_app {A} (f : A -> bool) (l l' : list A) :
  find f (l ++ l') =
  match find f l with
  | Some x => Some x
  | None => find f l'
  end.
Proof.
  induction l as [|x l IH]; cbn; [reflexivity|].
  destruct (f x); [reflexivity | exact IH].
Qed.

Lemma find_none_iff {A} (f : A -> bool) (l : list A) :
  find f l = None <-> forall x, In x l -> f x = false.
Proof.
  split; [apply find_none|].
  induction l as [|x l IH]; intros H; cbn; [reflexivity|].
  rewrite (H x (or_introl eq_refl)). apply IH. intros y Hy. apply H.
  now right.
Qed.

Section RosterLookupFacts.
Context `{L : PyLib}.

(** X15.  The roster [load_player_roster_stats] builds has one entry for
    each normalized name of a row with a name: the entry of the last such
    row, with its assists at 0; rows without a name are skipped. *)
Theorem roster_keeps_last_row (rows : list RosterRow.t) (key : pystr) :
  PyDict.get PyStr.eqb (load_player_roster_stats rows) key
  = option_map roster_entry_of (find (row_has_key key) (rev rows))
  /\ NoDup (PyDict.keys (load_player_roster_stats rows)).
Proof.
  unfold load_player_roster_stats.
  set (step := fun (roster : roster) (row : RosterRow.t) => _).
  assert (Hstep : forall (acc : roster) row,
            PyDict.get PyStr.eqb (step acc row) key
            = if row_has_key key row then Some (roster_entry_of row)
              else PyDict.get PyStr.eqb acc key).
  { intros acc row. subst step. cbv beta. unfold row_has_key.
    destruct (RosterRow.full_name row) as [|c name] eqn:Hname;
      [reflexivity|].
    destruct (PyStr.eqb (normalize_player_name (Some (c :: name))) key)
      eqn:Hk.
    - apply eqb_eq in Hk. subst key.
      rewrite (get_set_same PyStr.eqb eqb_eq).
      unfold roster_entry_of. now rewrite Hname.
    - apply (get_set_other PyStr.eqb eqb_eq).
      intros Heq. rewrite Heq, eqb_refl in Hk. discriminate. }
  split.
  - assert (Hfold : forall rows0 (acc : roster),
              PyDict.get PyStr.eqb (fold_left step rows0 acc) key
              = match find (row_has_key key) (rev rows0) with
                | Some row => Some (roster_entry_of row)
                | None => PyDict.get PyStr.eqb acc key
                end).
    { induction rows0 as [|row rows0 IH]; intros acc; [reflexivity|].
      cbn [fold_left rev]. rewrite IH, find_app. cbn [find].
      destruct (find (row_has_key key) (rev rows0)); [reflexivity|].
      rewrite Hstep. destruct (row_has_key key row); reflexivity. }
    rewrite Hfold. destruct (find _ _); reflexivity.
  - apply (fold_left_invariant
             (fun r : roster => NoDup (PyDict.keys r))); [|constructor].
    intros acc row Hacc. subst step. cbv beta.
    destruct (RosterRow.full_name row); [exact Hacc|].
    now apply (NoDup_keys_set PyStr.eqb eqb_eq).
Qed.

(** X16.  [find_roster_entry] returns the entry stored under the canonical
    key of the name when that key is not empty and has an entry.
    Otherwise it returns the first entry of the roster, in the order of the
    dict, whose lowercased name contains the lowercased, stripped player
    name or is contained in it; and [None] when that name is empty or no
    entry passes the test.  What it returns is an entry of the roster. *)
Theorem find_roster_entry_exact_then_first_match
    (player_name : pystr) (roster : roster) :
  match exact_entry player_name roster with
  | Some entry => find_roster_entry player_name roster = Some entry
  | None =>
      match find_roster_entry player_name roster with
      | Some entry =>
          strip (lower player_name) <> []
          /\ exists before after,
               PyDict.values roster = before ++ entry :: after
               /\ fallback_match player_name entry = true
               /\ forall other, In other before ->
                                fallback_match player_name other = false
      | None =>
          strip (lower player_name) = []
          \/ forall entry, In entry (PyDict.values roster) ->
                           fallback_match player_name entry = false
      end
  end
  /\ forall entry, find_roster_entry player_name roster = Some entry ->
                   In entry (PyDict.values roster).
Proof.
  assert (Hcases :
    find_roster_entry player_name roster
    = match exact_entry player_name roster with
      | Some entry => Some entry
      | None =>
          match strip (lower player_name) with
          | [] => None
          | _ => find (fallback_match player_name) (PyDict.values roster)
          end
      end).
  { unfold find_roster_entry, exact_entry.
    destruct (canonical_roster_key player_name) as [|c key];
      [|destruct (PyDict.get PyStr.eqb roster (c :: key))]; reflexivity. }
  split.
  - rewrite Hcases.
    destruct (exact_entry player_name roster) as [entry|]; [reflexivity|].
    destruct (strip (lower player_name)) as [|c target] eqn:Htarget;
      [now left|].
    destruct (find (fallback_match player_name) (PyDict.values roster))
      as [entry|] eqn:Hfind.
    + split; [discriminate|].
      apply find_first in Hfind as (before & after & Hvalues & Hentry & Hb).
      exists before, after. auto.
    + right. now apply find_none_iff.
  - intros entry. rewrite Hcases.
    destruct (exact_entry player_name roster) as [e|] eqn:Hexact.
    + intros [= <-]. unfold exact_entry in Hexact.
      destruct (canonical_roster_key player_name); [discriminate|].
      eapply (get_In_values PyStr.eqb eqb_eq); eauto.
    + destruct (strip (lower player_name)); [discriminate|].
      intros Hfind. apply find_some in Hfind. apply Hfind.
Qed.

End RosterLookupFacts.

(** ** The rival's roster *)

Lemma pair_geb_total (a b : Z * Z) :
  pair_geb a b = false -> pair_geb b a = true.
Proof.
  destruct a as [a1 a2], b as [b1 b2]. unfold pair_geb.
  destruct (Z.eqb_spec a1 b1), (Z.eqb_spec b1 a1); try lia;
    rewrite ?Z.leb_le, ?Z.leb_gt, ?Z.ltb_lt, ?Z.ltb_ge; lia.
Qed.

Lemma pair_geb_trans (a b c : Z * Z) :
  pair_geb a b = true -> pair_geb b c = true -> pair_geb a c = true.
Proof.
  destruct a as [a1 a2], b as [b1 b2], c as [c1 c2]. unfold pair_geb.
  destruct (Z.eqb_spec a1 b1), (Z.eqb_spec b1 c1), (Z.eqb_spec a1 c1);
    try lia; rewrite ?Z.leb_le, ?Z.ltb_lt; lia.
Qed.

Lemma triple_geb_total (a b : Z * Z * Z) :
  triple_geb a b = false -> triple_geb b a = true.
Proof.
  destruct a as [[a1 a2] a3], b as [[b1 b2] b3]. unfold triple_geb.
  destruct (Z.eqb_spec a1 b1), (Z.eqb_spec b1 a1); try lia;
    try apply pair_geb_total.
Qed.

Lemma triple_geb_trans (a b c : Z * Z * Z) :
  triple_geb a b = true -> triple_geb b c = true -> triple_geb a c = true.
Proof.
  destruct a as [[a1 a2] a3], b as [[b1 b2] b3], c as [[c1 c2] c3].
  unfold triple_geb.
  destruct (Z.eqb_spec a1 b1), (Z.eqb_spec b1 c1), (Z.eqb_spec a1 c1);
    try lia; try apply pair_geb_trans; try (intros _ H; exact H);
    try (intros H _; exact H).
Qed.

Lemma Z_geb_total (a b : Z) : Z_geb a b = false -> Z_geb b a = true.
Proof. unfold Z_geb. rewrite Z.leb_gt, Z.leb_le. lia. Qed.

Lemma Z_geb_trans (a b c : Z) :
  Z_geb a b = true -> Z_geb b c = true -> Z_geb a c = true.
Proof. unfold Z_geb. rewrite !Z.leb_le. lia. Qed.

Lemma firstn_sorted_top {A K} (ge : K -> K -> bool) (key : A -> K)
    (n : nat) (l : list A) :
  (forall a b, ge a b = false -> ge b a = true) ->
  (forall a b c, ge a b = true -> ge b c = true -> ge a c = true) ->
  top_of ge key n l (firstn n (sorted ge key l)).
Proof.
  intros Htotal Htrans. exists (skipn n (sorted ge key l)).
  pose proof (sorted_StronglySorted ge key l Htotal Htrans) as Hs.
  rewrite <- (firstn_skipn n (sorted ge key l)) in Hs.
  apply StronglySorted_prefix in Hs as [Htop Hbetween].
  split; [|split; [|split; [exact Htop | exact Hbetween]]].
  - rewrite firstn_skipn. apply sorted_Permutation.
  - rewrite length_firstn.
    now rewrite (Permutation_length (sorted_Permutation ge key l)).
Qed.

Lemma StronglySorted_filter {A} (R : A -> A -> Prop) (f : A -> bool)
    (l : list A) :
  StronglySorted R l -> StronglySorted R (filter f l).
Proof.
  induction 1 as [|x l Hs IH Hall]; cbn [filter]; [constructor|].
  destruct (f x); [|exact IH]. constructor; [exact IH|].
  apply Forall_forall. intros y Hy. apply filter_In in Hy as [Hy _].
  rewrite Forall_forall in Hall. now apply Hall.
Qed.

Lemma rival_eqb_eq (a b : RivalPlayer.t) :
  RivalPlayer.eqb a b = true <-> a = b.
Proof.
  unfold RivalPlayer.eqb. rewrite !andb_true_iff, !eqb_eq, !Z.eqb_eq.
  split.
  - destruct a, b. cbn. intros H. decompose [and] H. congruence.
  - intros ->. repeat split.
Qed.

Lemma in_lineup (player : RivalPlayer.t) (lineup : list RivalPlayer.t) :
  existsb (RivalPlayer.eqb player) lineup = true <-> In player lineup.
Proof.
  rewrite existsb_exists. split.
  - intros (x & Hx & Heq). apply rival_eqb_eq in Heq. now subst.
  - intros H. exists player. split; [exact H | now apply rival_eqb_eq].
Qed.

Lemma fill_lineup_spec (R : RivalPlayer.t -> RivalPlayer.t -> Prop)
    (eligible : list RivalPlayer.t) :
  forall lineup,
    (List.length lineup < 11)%nat -> NoDup lineup ->
    exists added,
      fill_lineup eligible lineup = lineup ++ added
      /\ (List.length (lineup ++ added) <= 11)%nat
      /\ NoDup (lineup ++ added)
      /\ (forall p, In p added -> In p eligible)
      /\ (forall p, In p eligible ->
            In p (lineup ++ added)
            \/ List.length (lineup ++ added) = 11%nat)
      /\ (StronglySorted R eligible -> StronglySorted R added).
Proof.
  induction eligible as [|player rest IH]; intros lineup Hlen Hnd.
  - exists []. rewrite app_nil_r. cbn [fill_lineup].
    split; [reflexivity|]. split; [lia|]. split; [exact Hnd|].
    split; [intros ? []|]. split; [intros ? [] | constructor].
  - cbn [fill_lineup].
    destruct (existsb (RivalPlayer.eqb player) lineup) eqn:Hin.
    + apply in_lineup in Hin.
      destruct (IH lineup Hlen Hnd)
        as (added & -> & Hle & Hnd' & Hfrom & Hcover & Hsorted).
      exists added. split; [reflexivity|]. split; [exact Hle|].
      split; [exact Hnd'|]. split; [intros p Hp; right; auto|].
      split.
      * intros p [<- | Hp]; [left; apply in_or_app; now left | auto].
      * intros Hs. inversion Hs; subst. auto.
    + assert (Hnot : ~ In player lineup).
      { intros H. apply in_lineup in H. congruence. }
      assert (Hnd1 : NoDup (lineup ++ [player])) by now apply NoDup_snoc.
      assert (Hlen1 : List.length (lineup ++ [player])
                      = S (List.length lineup)).
      { rewrite length_app. cbn. lia. }
      destruct (Nat.leb_spec 11 (List.length (lineup ++ [player])))
        as [Hfull | Hroom].
      * exists [player]. split; [reflexivity|]. split; [lia|].
        split; [exact Hnd1|]. split; [intros p [<- | []]; now left|].
        split; [intros p _; right; lia|].
        intros _. repeat constructor.
      * destruct (IH (lineup ++ [player]) Hroom Hnd1)
          as (added & -> & Hle & Hnd' & Hfrom & Hcover & Hsorted).
        exists (player :: added).
        rewrite <- app_assoc in *. cbn [app] in *.
        split; [reflexivity|]. split; [exact Hle|]. split; [exact Hnd'|].
        split; [intros p [<- | Hp]; [now left | right; auto]|].
        split.
        -- intros p [<- | Hp]; [|auto].
           left. apply in_or_app. right. now left.
        -- intros Hs. inversion Hs as [|? ? Hrest Hall]; subst.
           constructor; [auto|].
           apply Forall_forall. intros p Hp.
           rewrite Forall_forall in Hall. auto.
Qed.

Section RivalFacts.
Context `{L : PyLib}.
Local Open Scope Z_scope.

(** X17.  The probable eleven holds at most eleven players of the roster,
    each with minutes and none twice.  A player with minutes is left out
    only of a full eleven.  When a goalkeeper has minutes, the first of
    the eleven is a goalkeeper that no goalkeeper with minutes is above in
    (minutes, starts, appearances); the players after the first are in
    descending order of that key. *)
Theorem probable_eleven_lineup (players : list RivalPlayer.t) :
  let lineup := compute_probable_eleven players in
  let above a b := triple_geb (eleven_key a) (eleven_key b) = true in
  (List.length lineup <= 11)%nat
  /\ NoDup lineup
  /\ (forall p, In p lineup -> In p players /\ 0 < RivalPlayer.minutes p)
  /\ (forall p, In p players -> 0 < RivalPlayer.minutes p ->
        In p lineup \/ List.length lineup = 11%nat)
  /\ (forall gk, In gk players -> 0 < RivalPlayer.minutes gk ->
        is_goalkeeper gk = true ->
        exists first rest,
          lineup = first :: rest
          /\ is_goalkeeper first = true /\ above first gk)
  /\ StronglySorted above (tl lineup).
Proof.
  intros lineup above. subst lineup. unfold compute_probable_eleven.
  destruct players as [|p0 players0].
  { cbn. split; [lia|]. split; [constructor|]. split; [intros ? []|].
    split; [intros ? []|]. split; [intros ? [] | constructor]. }
  set (players := p0 :: players0).
  set (eligible :=
         sorted triple_geb eleven_key
                (filter (fun p => 0 <? RivalPlayer.minutes p) players)).
  assert (Heligible : forall p, In p eligible <->
                                In p players /\ 0 < RivalPlayer.minutes p).
  { intros p. subst eligible. rewrite sorted_In, filter_In, Z.ltb_lt.
    reflexivity. }
  assert (Hsorted : StronglySorted above eligible).
  { apply sorted_StronglySorted;
      [apply triple_geb_total | apply triple_geb_trans]. }
  assert (Hgks : StronglySorted above (filter is_goalkeeper eligible))
    by now apply StronglySorted_filter.
  set (lineup0 := match filter is_goalkeeper eligible with
                  | gk :: _ => [gk]
                  | [] => []
                  end).
  assert (H0 : (List.length lineup0 < 11)%nat /\ NoDup lineup0
               /\ forall p, In p lineup0 ->
                            In p eligible /\ is_goalkeeper p = true).
  { subst lineup0. destruct (filter is_goalkeeper eligible) as [|gk gks] eqn:E.
    - cbn. split; [lia|]. split; [constructor | intros ? []].
    - cbn [List.length]. split; [lia|]. split.
      + constructor; [intros [] | constructor].
      + intros p [<- | []]. apply filter_In. rewrite E. now left. }
  destruct H0 as (Hlen0 & Hnd0 & Hfrom0).
  destruct (fill_lineup_spec above eligible Hlen0 Hnd0)
    as (added & -> & Hle & Hnd & Hfrom & Hcover & Hadded).
  rewrite firstn_all2 by exact Hle.
  split; [exact Hle|]. split; [exact Hnd|]. split; [|split; [|split]].
  - intros p Hp. apply Heligible.
    apply in_app_or in Hp as [Hp | Hp]; [apply (Hfrom0 _ Hp) | auto].
  - intros p Hp Hmin. apply Hcover, Heligible. auto.
  - intros gk Hgk Hmin Hkeeper.
    assert (Hin : In gk (filter is_goalkeeper eligible)).
    { apply filter_In. split; [apply Heligible; auto | exact Hkeeper]. }
    subst lineup0.
    destruct (filter is_goalkeeper eligible) as [|first gks] eqn:E;
      [destruct Hin|].
    exists first, added. split; [reflexivity|]. split.
    + assert (Hf : In first (filter is_goalkeeper eligible))
        by (rewrite E; now left).
      now apply filter_In in Hf.
    + inversion Hgks as [|? ? _ Hall]; subst. destruct Hin as [<- | Hin].
      * unfold above.
        destruct (triple_geb (eleven_key first) (eleven_key first)) eqn:Hr;
          [reflexivity|].
        pose proof (triple_geb_total _ _ Hr). congruence.
      * rewrite Forall_forall in Hall. now apply Hall.
  - subst lineup0. destruct (filter is_goalkeeper eligible) as [|gk gks].
    + cbn [app]. specialize (Hadded Hsorted).
      destruct Hadded; [constructor | assumption].
    + cbn [app tl]. auto.
Qed.

(** X18.  Each list of [build_rival_insights] holds the first three
    players of the roster (all of them when there are fewer) in descending
    order of its key: goals and then minutes for the top scorers, minutes
    for the most used, twice the red cards plus the yellow cards for the
    most booked; no player left out of a list is above one of the list. *)
Theorem rival_insights_are_top_three (players : list RivalPlayer.t) :
  let insights := build_rival_insights players in
  top_of pair_geb scorer_key 3 players (top_scorers insights)
  /\ top_of Z_geb RivalPlayer.minutes 3 players (most_minutes insights)
  /\ top_of Z_geb cards_key 3 players (most_cards insights).
Proof.
  intros insights. subst insights. unfold build_rival_insights.
  destruct players as [|p players]; cbn [top_scorers most_minutes most_cards].
  - repeat split; exists []; (split; [reflexivity|]);
      (split; [reflexivity|]); (split; [constructor | intros ? ? []]).
  - split; [|split].
    + apply firstn_sorted_top; [apply pair_geb_total | apply pair_geb_trans].
    + apply firstn_sorted_top; [apply Z_geb_total | apply Z_geb_trans].
    + apply firstn_sorted_top; [apply Z_geb_total | apply Z_geb_trans].
Qed.

End RivalFacts.

(** ** The team metrics *)

Lemma text_eqb_eq (a b : option pystr) : text_eqb a b = true <-> a = b.
Proof.
  destruct a as [x|], b as [y|]; cbn; try (split; congruence).
  rewrite eqb_eq. split; congruence.
Qed.

Lemma NoDup_firstn {A} (n : nat) (l : list A) :
  NoDup l -> NoDup (firstn n l).
Proof.
  intros Hnd. rewrite <- (firstn_skipn n l) in Hnd.
  now apply NoDup_app_remove_r in Hnd.
Qed.

Section MostCommonFacts.
Context {K : Type} (keq : K -> K -> bool).
Hypothesis keq_spec : forall a b, keq a b = true <-> a = b.

Lemma Counter_fold (xs : list K) :
  forall acc : list (K * Z),
    NoDup (PyDict.keys acc) ->
    let counter :=
      fold_left
        (fun counter x =>
           PyDict.set keq counter x (PyDict.get_or keq counter x 0 + 1)%Z)
        xs acc in
    NoDup (PyDict.keys counter)
    /\ (forall k, PyDict.get_or keq counter k 0%Z
                  = (PyDict.get_or keq acc k 0 + occurrences keq k xs)%Z)
    /\ forall k, In k (PyDict.keys counter) <->
                 In k (PyDict.keys acc) \/ In k xs.
Proof.
  induction xs as [|x xs IH]; intros acc Hnd; cbn [fold_left].
  - split; [exact Hnd|]. split.
    + intros k. unfold occurrences. cbn. lia.
    + intros k. cbn. tauto.
  - cbv zeta.
    destruct (IH (PyDict.set keq acc x (PyDict.get_or keq acc x 0 + 1)%Z))
      as (Hnd' & Hget & Hkeys).
    { now apply (NoDup_keys_set keq keq_spec). }
    split; [exact Hnd'|]. split.
    + intros k. rewrite Hget. unfold occurrences, PyDict.get_or.
      cbn [filter].
      destruct (keq k x) eqn:E.
      * apply keq_spec in E. subst x.
        rewrite (get_set_same keq keq_spec). cbn [List.length]. lia.
      * rewrite (get_set_other keq keq_spec).
        -- lia.
        -- intros Heq. subst x.
           assert (keq k k = true) by now apply keq_spec. congruence.
    + intros k. rewrite Hkeys, (keys_set keq). cbn [In].
      destruct (PyDict.get keq acc x) eqn:Hx.
      * assert (In x (PyDict.keys acc)).
        { apply (get_In keq keq_spec) in Hx.
          apply (in_map fst) in Hx. exact Hx. }
        split; [tauto|]. intros [Hk | [<- | Hk]]; auto.
      * rewrite in_app_iff. cbn [In]. tauto.
Qed.

(** [most_common] on a [Counter]. *)
Lemma most_common_spec (n : nat) (xs : list K) :
  most_frequent keq n xs (most_common n (Counter keq xs)).
Proof.
  destruct (@Counter_fold xs [] (NoDup_nil K)) as (Hnd & Hget & Hkeys).
  fold (Counter keq xs) in Hnd, Hget, Hkeys.
  set (counter := Counter keq xs) in *.
  assert (Hitem : forall k c, In (k, c) counter <->
                              In k xs /\ c = occurrences keq k xs).
  { intros k c. split.
    - intros Hin. pose proof (in_map fst _ _ Hin) as Hk. cbn [fst] in Hk.
      apply (In_get keq keq_spec) in Hin; [|exact Hnd].
      split; [apply Hkeys in Hk; destruct Hk as [[] | Hk]; exact Hk|].
      pose proof (Hget k) as Hc. unfold PyDict.get_or in Hc.
      rewrite Hin in Hc. cbn [PyDict.get] in Hc. lia.
    - intros [Hk ->].
      assert (Hin : In k (PyDict.keys counter)) by (apply Hkeys; now right).
      destruct (PyDict.get keq counter k) as [v|] eqn:Hv.
      + pose proof (Hget k) as Hk'. unfold PyDict.get_or in Hk'.
        rewrite Hv in Hk'. cbn [PyDict.get] in Hk'.
        apply (get_In keq keq_spec) in Hv.
        replace (occurrences keq k xs) with v by lia. exact Hv.
      + apply (get_None_keys keq keq_spec) in Hv. contradiction. }
  unfold most_common.
  destruct (top_sorted (@snd K Z) n counter)
    as (Hlen & Hfrom & Hsorted & Htop).
  split; [|split; [exact Hlen | split; [|split; [exact Hsorted|]]]].
  - rewrite <- firstn_map. apply NoDup_firstn.
    apply (Permutation_NoDup
             (Permutation_sym
                (Permutation_map fst (sorted_Permutation Z_geb snd counter)))).
    exact Hnd.
  - intros k c Hin. apply Hitem, Hfrom, Hin.
  - intros k Hk.
    destruct (Htop (k, occurrences keq k xs)) as [Hin | [Hfull Hle]].
    + apply Hitem. auto.
    + now left.
    + right. split; [exact Hfull | exact Hle].
Qed.

End MostCommonFacts.

(** X19.  [compute_team_metrics] counts the confirmed events of the
    matches the team plays in, and [compute_team_metrics_for_match] those
    of one match.  The top event types (results) are the five (six) most
    frequent event types (results) of those events, each listed once with
    its number of events, in descending order of that number; a type left
    out is no more frequent than any type listed. *)
Theorem team_metrics_most_frequent
    (db : database) (primary_team : Team.t) (m : Match.t) :
  (let events := team_events_queryset db primary_team in
   let metrics := compute_team_metrics db primary_team in
   total_events metrics = Z.of_nat (List.length events)
   /\ most_frequent text_eqb 5 (map MatchEvent.event_type events)
                    (top_event_types metrics)
   /\ most_frequent text_eqb 5 (map MatchEvent.result events)
                    (top_results metrics))
  /\ (let events := match_events_queryset db m in
      let metrics := compute_team_metrics_for_match db m in
      total_events metrics = Z.of_nat (List.length events)
      /\ most_frequent text_eqb 6 (map MatchEvent.event_type events)
                       (top_event_types metrics)
      /\ most_frequent text_eqb 6 (map MatchEvent.result events)
                       (top_results metrics)).
Proof.
  split; cbv zeta;
    unfold compute_team_metrics, compute_team_metrics_for_match;
    cbn [total_events top_event_types top_results];
    (split; [reflexivity|]); split;
    apply (most_common_spec text_eqb text_eqb_eq).
Qed.

(** ** Appearances, starts and minutes *)

Lemma set_not_nil {K V} (keq : K -> K -> bool) (d : list (K * V)) k v :
  PyDict.set keq d k v <> [].
Proof.
  destruct d as [|[k' v'] d]; cbn; [discriminate|].
  destruct (keq k k'); discriminate.
Qed.

Lemma count_events_false player_id events :
  count_events player_id (fun _ => false) events = 0%Z.
Proof.
  unfold count_events. induction events as [|event events IH];
    [reflexivity|].
  cbn [filter]. rewrite andb_false_r. exact IH.
Qed.

Section BoundFacts.
Context `{L : PyLib}.
Local Open Scope Z_scope.

Lemma track_event_bounded M state event :
  0 <= M ->
  (forall minute, MatchEvent.minute event = Some minute ->
                  0 <= minute <= M) ->
  timelines_bounded M state ->
  timelines_bounded M (track_event state event).
Proof.
  intros HM Hminute. destruct state as [ends pmt].
  intros [Hends Hpmt]. cbn [fst snd] in Hends, Hpmt.
  unfold track_event.
  destruct (MatchEvent.player event) as [player|]; [|split; assumption].
  assert (Hends' : forall match_id match_end,
            PyDict.get Z.eqb
              match MatchEvent.match_ event, MatchEvent.minute event with
              | Some m, Some minute =>
                  PyDict.set Z.eqb ends (Match.id m)
                    (Z.max (PyDict.get_or Z.eqb ends (Match.id m) 0) minute)
              | _, _ => ends
              end match_id = Some match_end ->
            0 <= match_end <= M).
  { destruct (MatchEvent.match_ event) as [m|]; [|exact Hends].
    destruct (MatchEvent.minute event) as [minute|]; [|exact Hends].
    specialize (Hminute minute eq_refl).
    intros match_id match_end.
    destruct (Z.eq_dec match_id (Match.id m)) as [-> | Hne].
    - rewrite (get_set_same Z.eqb Z_eqb_spec). intros [= <-].
      unfold PyDict.get_or.
      destruct (PyDict.get Z.eqb ends (Match.id m)) as [v|] eqn:Hv.
      + specialize (Hends _ _ Hv). lia.
      + lia.
    - rewrite (get_set_other Z.eqb Z_eqb_spec) by congruence. apply Hends. }
  destruct (MatchEvent.match_ event) as [m|] eqn:Hm;
    [|split; [exact Hends' | exact Hpmt]].
  destruct (PyDict.setdefault Z.eqb pmt (Player.id player) [])
    as [matches pmt1] eqn:Hsd1.
  apply (setdefault_get Z.eqb Z_eqb_spec) in Hsd1
    as [Hget1 [Hother1 [_ Hfrom1]]].
  destruct (PyDict.setdefault Z.eqb matches (Match.id m) empty_timeline)
    as [timeline matches1] eqn:Hsd2.
  apply (setdefault_get Z.eqb Z_eqb_spec) in Hsd2
    as [Hget2 [Hother2 [_ Hfrom2]]].
  split; [exact Hends'|]. cbn [snd].
  assert (Hmatches : forall match_id t,
            PyDict.get Z.eqb matches match_id = Some t ->
            Timeline.has_event t = true
            /\ (forall e, Timeline.entry t = Some e -> 0 <= e <= M)
            /\ (forall x, Timeline.exit t = Some x -> 0 <= x <= M)).
  { destruct Hfrom1 as [Hold | [_ ->]]; [|intros ? ? [=]].
    apply (Hpmt _ _ Hold). }
  assert (Htimeline : (forall e, Timeline.entry timeline = Some e ->
                                 0 <= e <= M)
                      /\ (forall x, Timeline.exit timeline = Some x ->
                                    0 <= x <= M)).
  { destruct Hfrom2 as [Hold | [_ ->]].
    - destruct (Hmatches _ _ Hold) as [_ H]. exact H.
    - split; intros ? [=]. }
  assert (Hm0 : 0 <= match MatchEvent.minute event with
                     | Some minute => minute
                     | None => 0
                     end <= M).
  { destruct (MatchEvent.minute event) as [minute|]; [auto | lia]. }
  assert (Hmin : forall current c v,
            (forall e, current = Some e -> 0 <= e <= M) ->
            0 <= c <= M ->
            min_or_none current (Some c) = Some v -> 0 <= v <= M).
  { intros current c v Hcur Hc. unfold min_or_none.
    destruct current as [cur|]; intros [= <-]; [|exact Hc].
    specialize (Hcur cur eq_refl). lia. }
  intros player_id ms Hms.
  destruct (Z.eq_dec player_id (Player.id player)) as [-> | Hne].
  - rewrite (get_set_same Z.eqb Z_eqb_spec) in Hms. injection Hms as <-.
    split; [apply set_not_nil|].
    intros match_id t Ht.
    destruct (Z.eq_dec match_id (Match.id m)) as [-> | Hne].
    + rewrite (get_set_same Z.eqb Z_eqb_spec) in Ht. injection Ht as <-.
      unfold mark_timeline.
      cbn [Timeline.has_event Timeline.entry Timeline.exit].
      split; [reflexivity|]. destruct Htimeline as [He Hx]. split.
      * intros e. destruct (is_substitution_entry _ _ _); [|apply He].
        now apply Hmin.
      * intros x. destruct (is_substitution_exit _ _ _); [|apply Hx].
        now apply Hmin.
    + rewrite (get_set_other Z.eqb Z_eqb_spec) in Ht by congruence.
      rewrite Hother2 in Ht by assumption. apply (Hmatches _ _ Ht).
  - rewrite (get_set_other Z.eqb Z_eqb_spec) in Hms by congruence.
    rewrite Hother1 in Hms by assumption. apply (Hpmt _ _ Hms).
Qed.

Lemma second_loop_bounded M live_events :
  0 <= M ->
  (forall event minute, In event live_events ->
     MatchEvent.minute event = Some minute -> 0 <= minute <= M) ->
  timelines_bounded M (fold_left track_event live_events ([], [])).
Proof.
  intros HM Hall.
  assert (Hgen : forall events state,
            (forall event minute, In event events ->
               MatchEvent.minute event = Some minute -> 0 <= minute <= M) ->
            timelines_bounded M state ->
            timelines_bounded M (fold_left track_event events state)).
  { induction events as [|event events IH]; intros state Hev Hstate;
      [exact Hstate|].
    cbn [fold_left]. apply IH.
    - intros e minute He. apply Hev. now right.
    - apply track_event_bounded; [exact HM | | exact Hstate].
      intros minute. apply Hev. now left. }
  apply Hgen; [exact Hall|].
  split; [intros ? ? [=] | intros ? ? [=]].
Qed.

Lemma apply_timelines_bounds M match_end_minutes matches stats :
  0 <= M ->
  (forall match_id match_end,
     PyDict.get Z.eqb match_end_minutes match_id = Some match_end ->
     0 <= match_end <= M) ->
  (forall item, In item matches ->
     Timeline.has_event (snd item) = true
     /\ (forall e, Timeline.entry (snd item) = Some e -> 0 <= e <= M)
     /\ (forall x, Timeline.exit (snd item) = Some x -> 0 <= x <= M)) ->
  let stats' := fold_left (apply_timeline match_end_minutes) matches stats in
  let n := Z.of_nat (List.length matches) in
  Stats.pc stats' = Stats.pc stats
  /\ Stats.pj stats' = Stats.pj stats + n
  /\ Stats.pt stats <= Stats.pt stats' <= Stats.pt stats + n
  /\ Stats.minutes stats <= Stats.minutes stats'
     <= Stats.minutes stats + n * M.
Proof.
  intros HM Hends. revert stats.
  induction matches as [|[match_id t] l IH]; intros stats Hall.
  - cbn. repeat split; lia.
  - cbn [fold_left]. cbv zeta.
    destruct (IH (apply_timeline match_end_minutes stats (match_id, t)))
      as (Hpc & Hpj & Hpt & Hmin).
    { intros item Hin. apply Hall. now right. }
    rewrite Hpc, Hpj.
    destruct (Hall (match_id, t) (or_introl eq_refl)) as (Hev & He & Hx).
    cbn [snd] in Hev, He, Hx.
    assert (Hend : 0 <= PyDict.get_or Z.eqb match_end_minutes match_id 0
                   <= M).
    { unfold PyDict.get_or.
      destruct (PyDict.get Z.eqb match_end_minutes match_id) eqn:E;
        [eauto | lia]. }
    revert Hpt Hmin. unfold apply_timeline, derived_minutes.
    set (match_end := PyDict.get_or Z.eqb match_end_minutes match_id 0) in *.
    destruct (Timeline.entry t) as [e|];
      [specialize (He e eq_refl)|];
      (destruct (Timeline.exit t) as [x|];
       [specialize (Hx x eq_refl)|]);
      cbn [with_appearances Stats.pc Stats.pj Stats.pt Stats.minutes];
      rewrite Hev;
      change (List.length ((match_id, t) :: l)) with (S (List.length l));
      repeat match goal with
             | |- context [if ?a <? ?b then _ else _] =>
                 destruct (Z.ltb_spec a b)
             | |- context [if ?a =? ?b then _ else _] =>
                 destruct (Z.eqb_spec a b)
             end;
      intros Hpt Hmin; repeat split; nia.
Qed.

Lemma first_loop_baseline primary_team roster_cache events out k stats :
  for_each (count_event primary_team roster_cache) events [] = Ok out ->
  PyDict.get Z.eqb out k = Some stats ->
  Stats.has_events stats = true
  /\ Stats.pc stats = baseline roster_cache stats RosterEntry.pc
  /\ Stats.pj stats = baseline roster_cache stats RosterEntry.pj
  /\ Stats.pt stats = baseline roster_cache stats RosterEntry.pt
  /\ Stats.minutes stats = baseline roster_cache stats RosterEntry.minutes.
Proof.
  intros H Hget.
  assert (Hfield : forall f field,
    (forall player position age base,
       f (new_stats player position age base) = base field) ->
    (forall primary_team player before after event,
       counted primary_team player before after event ->
       f after = f before + count_if false) ->
    Stats.has_events stats = true
    /\ f stats = baseline roster_cache stats field).
  { intros f field Hnew Hcounted.
    assert (Hinit : tally_ok f (fun _ => false) (fun base => base field)
                             roster_cache [] []).
    { split; [intros ? ? [=] | intros ? _ ? []]. }
    destruct (@first_loop_tally _ f (fun _ => false)
                (fun base => base field) Hnew Hcounted primary_team
                roster_cache events [] [] out H Hinit) as [Hsome _].
    destruct (Hsome _ _ Hget) as [Hev Hf]. split; [exact Hev|].
    rewrite Hf, count_events_false. lia. }
  split; [apply (Hfield Stats.pj RosterEntry.pj); [reflexivity|]|];
    [|repeat split; apply Hfield; try reflexivity].
  all: intros t p before after event Hc; unfold counted in Hc;
    decompose [and] Hc; cbn [count_if]; lia.
Qed.

(** How the third loop reaches the stats of a player of the dashboard. *)
Lemma gather_stats_appearances events live_events roster_players
    primary_team roster_cache player_stats k stats :
  gather_stats events live_events roster_players primary_team roster_cache
    = Ok player_stats ->
  PyDict.get Z.eqb player_stats k = Some stats ->
  let state := fold_left track_event live_events ([], []) in
  (exists stats1,
     Stats.has_events stats1 = true
     /\ (forall field, baseline roster_cache stats1 field
                       = baseline roster_cache stats field)
     /\ Stats.pc stats1 = baseline roster_cache stats1 RosterEntry.pc
     /\ Stats.pj stats1 = baseline roster_cache stats1 RosterEntry.pj
     /\ Stats.pt stats1 = baseline roster_cache stats1 RosterEntry.pt
     /\ Stats.minutes stats1
        = baseline roster_cache stats1 RosterEntry.minutes
     /\ match PyDict.get Z.eqb (snd state) k with
        | Some matches =>
            NoDup (PyDict.keys matches)
            /\ stats = apply_matches (fst state) matches stats1
        | None => stats = stats1
        end)
  \/ (Stats.pc stats = baseline roster_cache stats RosterEntry.pc
      /\ Stats.pj stats = baseline roster_cache stats RosterEntry.pj
      /\ Stats.pt stats = baseline roster_cache stats RosterEntry.pt
      /\ Stats.minutes stats = baseline roster_cache stats RosterEntry.minutes).
Proof.
  intros H Hget state. subst state. unfold gather_stats in H.
  apply bind_Ok in H as [ps1 [H1 H]].
  pose proof (second_loop_wf live_events) as [Hndt Hinner].
  destruct (fold_left track_event live_events ([], [])) as [ends pmt].
  cbn [snd fst] in *. injection H as <-.
  apply fourth_loop_origin in Hget.
  rewrite !(third_loop_get ends _ ps1 k Hndt) in Hget.
  destruct Hget as [Hget | [_ (p & position & age & _ & _ & ->)]].
  2:{ right. repeat split. }
  left. destruct (PyDict.get Z.eqb ps1 k) as [stats1|] eqn:Hk1.
  2:{ destruct (PyDict.get Z.eqb pmt k); discriminate. }
  destruct (@first_loop_baseline primary_team roster_cache events ps1 k
              stats1 H1 Hk1)
    as (Hev & Hpc & Hpj & Hpt & Hmin).
  exists stats1. split; [exact Hev|].
  destruct (PyDict.get Z.eqb pmt k) as [matches|] eqn:Hm.
  - cbn [option_map] in Hget. injection Hget as <-.
    split.
    { intros field.
      destruct (apply_matches_frame ends matches stats1)
        as (a & b & c & d & ->). reflexivity. }
    repeat (split; [assumption|]).
    split; [eapply Hinner; eauto | reflexivity].
  - injection Hget as <-. split; [reflexivity|].
    repeat (split; [assumption|]). reflexivity.
Qed.

(** X20.  When every minute of a live event lies between 0 and [M] (the
    column holds a small non-negative integer), an element of the dashboard
    has at least the appearances, starts and minutes of the roster; it has
    at most one more start and at most [M] more minutes for each appearance
    it has more; and its ['pc'] is the roster's, raised to the appearances
    when the player has any more. *)
Theorem appearances_starts_minutes_bounded
    (db : database) (primary_team : Team.t) (_ROSTER_CACHE : option roster)
    (M : Z) (players : list Merged.t) (player : Merged.t) :
  0 <= M ->
  (forall event minute,
     In event (live_events_of db primary_team) ->
     MatchEvent.minute event = Some minute -> 0 <= minute <= M) ->
  fst (compute_player_dashboard db primary_team _ROSTER_CACHE) = Ok players ->
  In player players ->
  let stats := Merged.stats player in
  let base :=
    baseline (fst (get_roster_stats_cache (roster_rows db) _ROSTER_CACHE))
             stats in
  let played := Stats.pj stats - base RosterEntry.pj in
  0 <= played
  /\ base RosterEntry.pt <= Stats.pt stats <= base RosterEntry.pt + played
  /\ base RosterEntry.minutes <= Stats.minutes stats
     <= base RosterEntry.minutes + played * M
  /\ Stats.pc stats
     = if 0 <? played then Z.max (base RosterEntry.pc) (Stats.pj stats)
       else base RosterEntry.pc.
Proof.
  intros HM Hminutes H Hin stats base played.
  destruct (@dashboard_stats _ _ _ _ _ _ H Hin) as (ps & Hps & Hget & _).
  destruct (@gather_stats_appearances _ _ _ _ _ _ _ _ Hps Hget)
    as [(stats1 & Hev & Hbase & Hpc & Hpj & Hpt & Hmin & Hstats)
       | (Hpc & Hpj & Hpt & Hmin)].
  2:{ subst played base stats. rewrite Hpj, Hpt, Hmin, Hpc.
      rewrite Z.sub_diag. cbn. lia. }
  rewrite Hbase in Hpc, Hpj, Hpt, Hmin.
  fold stats in Hpc, Hpj, Hpt, Hmin, Hstats. fold base in Hpc, Hpj, Hpt, Hmin.
  pose proof (second_loop_bounded (live_events_of db primary_team) HM
                Hminutes) as [Hends Hpmt].
  destruct (PyDict.get Z.eqb
              (snd (fold_left track_event (live_events_of db primary_team)
                              ([], [])))
              (Stats.player_id stats)) as [matches|] eqn:Hm.
  2:{ subst played. rewrite <- Hstats in *. rewrite Hpj, Hpt, Hmin, Hpc.
      rewrite Z.sub_diag. cbn. lia. }
  destruct Hstats as [Hnd Hstats].
  destruct (Hpmt _ _ Hm) as [Hnonempty Hall].
  destruct (apply_timelines_bounds
              (fst (fold_left track_event (live_events_of db primary_team)
                              ([], [])))
              matches stats1 HM Hends) as (Hpc' & Hpj' & Hpt' & Hmin').
  { intros [match_id t] Hitem. cbn [snd].
    apply (In_get Z.eqb Z_eqb_spec) in Hitem; [|exact Hnd].
    apply (Hall _ _ Hitem). }
  assert (Hn : 1 <= Z.of_nat (List.length matches)).
  { destruct matches; [congruence | cbn [List.length]; lia]. }
  unfold apply_matches in Hstats.
  set (after := fold_left _ matches stats1) in *.
  assert (Hfields : Stats.pc stats = Z.max (Stats.pc after) (Stats.pj after)
                    /\ Stats.pj stats = Stats.pj after
                    /\ Stats.pt stats = Stats.pt after
                    /\ Stats.minutes stats = Stats.minutes after).
  { rewrite Hstats. repeat split. }
  destruct Hfields as (Fpc & Fpj & Fpt & Fmin).
  subst played. rewrite Fpc, Fpj, Fpt, Fmin.
  destruct (Z.ltb_spec 0 (Stats.pj after - base RosterEntry.pj));
    repeat split; nia.
Qed.

End BoundFacts.

Lemma appearances_bounded_witness :
  exists player rest,
    fst (@compute_player_dashboard Latin.lib Sample.db_squad
           Sample.benagalbon None) = Ok (player :: rest)
    /\ (0 <= Stats.pj (Merged.stats player)
             - @baseline Latin.lib [] (Merged.stats player) RosterEntry.pj)%Z.
Proof.
  destruct (fst (@compute_player_dashboard Latin.lib Sample.db_squad
                   Sample.benagalbon None)) as [players|e] eqn:E;
    [|vm_compute in E; discriminate].
  destruct players as [|player rest]; [vm_compute in E; discriminate|].
  exists player, rest. split; [reflexivity|].
  refine (proj1 (@appearances_starts_minutes_bounded Latin.lib
                   Sample.db_squad Sample.benagalbon None 90%Z
                   (player :: rest) player _ _ E (or_introl eq_refl))).
  - lia.
  - intros event minute Hin Hminute. vm_compute in Hin.
    destruct Hin as [<- | [<- | [<- | []]]]; injection Hminute as <-; lia.
Defined.

(** ** The page of a player in a match *)

Lemma count_of_cons selected event events :
  count_of selected (event :: events)
  = (count_if (selected event) + count_of selected events)%Z.
Proof.
  unfold count_of. cbn [filter].
  destruct (selected event); cbn [List.length count_if]; lia.
Qed.

Lemma increment_if_raises_label (d : list (pystr * Z))
    (label : option pystr) e :
  increment_if d label = Raise e ->
  exists key, e = KeyError key /\ label = Some key
              /\ ~ In key (PyDict.keys d).
Proof.
  unfold increment_if, increment. destruct label as [[|c l]|]; try discriminate.
  destruct (PyDict.get PyStr.eqb d (c :: l)) eqn:Hget; [discriminate|].
  intros [= <-]. exists (c :: l). split; [reflexivity|].
  split; [reflexivity|]. now apply (get_None_keys PyStr.eqb eqb_eq).
Qed.

Lemma filter_filter_length {A} (f g : A -> bool) (l : list A) :
  (forall x, In x l -> f x = true -> g x = true) ->
  List.length (filter f (filter g l)) = List.length (filter f l).
Proof.
  induction l as [|x l IH]; intros H; [reflexivity|].
  cbn [filter].
  assert (IH' := IH (fun y Hy => H y (or_intror Hy))).
  destruct (g x) eqn:Hg; cbn [filter].
  - destruct (f x); cbn [List.length]; now rewrite IH'.
  - destruct (f x) eqn:Hf; [|exact IH'].
    rewrite (H x (or_introl eq_refl) Hf) in Hg. discriminate.
Qed.

Lemma filter_filter_and {A} (f g : A -> bool) (l : list A) :
  filter f (filter g l) = filter (fun x => g x && f x) l.
Proof.
  induction l as [|x l IH]; [reflexivity|]. cbn [filter].
  destruct (g x); cbn [filter andb]; [destruct (f x)|]; now rewrite IH.
Qed.

Lemma Permutation_filter_length {A} (f : A -> bool) (l l' : list A) :
  Permutation l l' ->
  List.length (filter f l) = List.length (filter f l').
Proof.
  induction 1 as [|x l l' _ IH|x y l|l l' l'' _ IH1 _ IH2]; cbn [filter].
  - reflexivity.
  - destruct (f x); cbn [List.length]; now rewrite IH.
  - destruct (f x), (f y); reflexivity.
  - now rewrite IH1.
Qed.

Ltac page_fields :=
  cbn [PageStats.player_id PageStats.name PageStats.number
       PageStats.position PageStats.total_actions PageStats.successes
       PageStats.goals PageStats.assists PageStats.yellow_cards
       PageStats.red_cards PageStats.zone_counts PageStats.tercio_counts
       PageStats.tercio_totals PageStats.duels_total PageStats.duels_won
       PageStats.shot_attempts PageStats.shots_on_target
       PageStats.pass_attempts PageStats.passes_completed] in *.

Section PageFacts.
Context `{L : PyLib}.
Local Open Scope Z_scope.

Lemma page_loop (events : list MatchEvent.t) :
  forall stats,
    page_keys_ok stats ->
    match for_each count_page_event events stats with
    | Ok out =>
        page_keys_ok out
        /\ (forall event, In event events ->
                          known_zone (zone_label_of event) = true)
        /\ page_counted stats out events
    | Raise e =>
        exists key event,
          e = KeyError key /\ ~ In key FIELD_ZONE_KEYS
          /\ In event events /\ zone_label_of event = Some key
    end.
Proof.
  induction events as [|event events IH]; intros stats Hkeys.
  - cbn [for_each]. split; [exact Hkeys|]. split; [intros ? []|].
    unfold page_counted, count_of. cbn. repeat split; lia.
  - cbn [for_each]. destruct Hkeys as (Kz & Kc & Kt).
    unfold count_page_event at 1.
    destruct (increment_if (PageStats.zone_counts stats) _) as [zc|e] eqn:Hz;
      cbn [bind].
    2:{ apply increment_if_raises_label in Hz as (key & -> & Hlabel & Hnot).
        exists key, event. rewrite Kz in Hnot.
        split; [reflexivity|]. split; [exact Hnot|].
        split; [now left | exact Hlabel]. }
    pose proof (fun key => @increment_if_get_or _ _ _ key Hz) as Hzone.
    apply increment_if_inv in Hz as [Kz' Hlabel]. rewrite Kz in Kz', Hlabel.
    set (mapped := match strip (or_empty (MatchEvent.tercio event)) with
                   | [] => None
                   | _ => _
                   end).
    assert (Hmapped : match mapped with
                      | Some (c :: l) => In (c :: l) STANDARD_TERCIO_LABELS
                      | _ => True
                      end).
    { subst mapped. destruct (strip (or_empty (MatchEvent.tercio event)));
        [exact I | apply map_tercio_standard]. }
    destruct (increment_if_Ok _ _ Kc Hmapped) as [tc [-> Kc']]. cbn [bind].
    destruct (increment_if_Ok _ _ Kt Hmapped) as [tt [-> Kt']]. cbn [bind].
    match goal with
    | |- context [for_each count_page_event events ?s] =>
        specialize (IH s); set (stats1 := s) in *
    end.
    assert (Hkeys1 : page_keys_ok stats1) by (repeat split; assumption).
    specialize (IH Hkeys1).
    destruct (for_each count_page_event events stats1) as [out|e].
    + destruct IH as (Hout & Hknown & Hcounted).
      split; [exact Hout|]. split.
      * intros ev [<- | Hev]; [|auto].
        unfold known_zone, zone_label_of.
        destruct (map_zone_label _) as [[|c l]|]; auto. now apply mem_In.
      * unfold page_counted in *. subst stats1. page_fields.
        destruct Hcounted as (Ha & Hb & Hc).
        split; [|split].
        -- rewrite !count_of_cons. unfold success_event, goal_event,
             assist_event, yellow_card_event, red_card_event in *.
           cbn [count_if]. decompose [and] Ha. repeat split; lia.
        -- rewrite !count_of_cons. unfold duel_won_event, duel_event,
             shot_event, pass_event, success_event in *.
           decompose [and] Hb. repeat split; lia.
        -- intros key. rewrite count_of_cons, Hc, Hzone.
           unfold zone_label_of. lia.
    + destruct IH as (key & ev & He & Hnot & Hin & Hev).
      exists key, ev. split; [exact He|]. split; [exact Hnot|].
      split; [now right | exact Hev].
Qed.

(** X21.  The page of a player in a match returns its stats exactly when
    every event of its queryset is mapped to a zone that is a key of the
    zone counters (or to none), and raises [KeyError] with the zone label
    of one of the events otherwise.  The counters it returns are the
    numbers of events the tests of the dashboard hold of, the zone counters
    the numbers of events mapped to each zone, and the success rate lies
    between 0 and 100. *)
Theorem player_match_page_counts_events
    (player : Player.t) (events : list MatchEvent.t) :
  match player_match_stats_page player events with
  | Ok page =>
      let stats := PlayerMatchStats.counts page in
      (forall event, In event events ->
                     known_zone (zone_label_of event) = true)
      /\ (PageStats.total_actions stats = Z.of_nat (List.length events)
          /\ PageStats.successes stats = count_of success_event events
          /\ PageStats.goals stats = count_of goal_event events
          /\ PageStats.assists stats = count_of assist_event events
          /\ PageStats.yellow_cards stats
             = count_of yellow_card_event events
          /\ PageStats.red_cards stats = count_of red_card_event events)
      /\ (PageStats.duels_total stats = count_of duel_event events
          /\ PageStats.duels_won stats = count_of duel_won_event events
          /\ PageStats.shot_attempts stats = count_of shot_event events
          /\ PageStats.shots_on_target stats
             = count_of (fun event => shot_event event
                                      && success_event event) events
          /\ PageStats.pass_attempts stats = count_of pass_event events
          /\ PageStats.passes_completed stats
             = count_of (fun event => pass_event event
                                      && success_event event) events)
      /\ (forall key,
            PyDict.get_or PyStr.eqb (PageStats.zone_counts stats) key 0
            = count_of (fun event => label_is key (zone_label_of event))
                       events)
      /\ (0 <= PlayerMatchStats.success_rate page)%Q
      /\ (PlayerMatchStats.success_rate page <= 100)%Q
  | Raise e =>
      exists key event,
        e = KeyError key /\ ~ In key FIELD_ZONE_KEYS
        /\ In event events /\ zone_label_of event = Some key
  end.
Proof.
  unfold player_match_stats_page.
  match goal with
  | |- context [for_each count_page_event events ?s] =>
      pose proof (@page_loop events s) as Hloop; set (stats0 := s) in *
  end.
  assert (Hkeys0 : page_keys_ok stats0) by (repeat split).
  specialize (Hloop Hkeys0).
  destruct (for_each count_page_event events stats0) as [stats|e];
    cbn [bind]; [|exact Hloop].
  destruct Hloop as (_ & Hknown & Ha & Hb & Hc).
  subst stats0. page_fields.
  assert (Hsuccess : 0 <= PageStats.successes stats
                     <= PageStats.total_actions stats).
  { destruct Ha as (-> & -> & _). unfold count_of.
    pose proof (filter_length_le success_event events).
    rewrite filter_true. lia. }
  destruct (rate_spec (PageStats.successes stats)
                      (PageStats.total_actions stats))
    as (r1 & -> & _ & Hr1).
  destruct (rate_Ok (PageStats.duels_won stats)
                    (PageStats.duels_total stats)) as [r2 ->].
  cbn [bind collect].
  repeat match goal with
         | |- context [rate ?a ?b] =>
             let r := fresh "r" in
             let E := fresh "E" in
             destruct (rate_Ok a b) as [r E]; rewrite E; cbn [bind]
         end.
  cbn [PlayerMatchStats.counts PlayerMatchStats.success_rate].
  split; [exact Hknown|].
  split.
  { decompose [and] Ha. repeat split; try lia.
    match goal with
    | H : PageStats.total_actions stats = _ |- _ => rewrite H
    end.
    unfold count_of. now rewrite filter_true. }
  split; [decompose [and] Hb; repeat split; lia|].
  split.
  { intros key. rewrite Hc. rewrite get_or_zero_counts. lia. }
  now apply Hr1.
Qed.

Lemma page_totals (player : Player.t) (events : list MatchEvent.t) page :
  player_match_stats_page player events = Ok page ->
  PageStats.total_actions (PlayerMatchStats.counts page)
  = count_of (fun _ => true) events
  /\ PageStats.successes (PlayerMatchStats.counts page)
     = count_of success_event events.
Proof.
  unfold player_match_stats_page.
  match goal with
  | |- context [for_each count_page_event events ?s] =>
      pose proof (@page_loop events s) as Hloop; set (stats0 := s) in *
  end.
  assert (Hkeys0 : page_keys_ok stats0) by (repeat split).
  specialize (Hloop Hkeys0). intros H.
  apply bind_Ok in H as [stats [Hstats H]]. rewrite Hstats in Hloop.
  destruct Hloop as (_ & _ & (Ha & Hs & _) & _).
  subst stats0. page_fields.
  repeat (apply bind_Ok in H as [? [_ H]]). injection H as <-.
  cbn [PlayerMatchStats.counts]. split; lia.
Qed.

Lemma dashboard_match_entries db primary_team _ROSTER_CACHE players player
    entry :
  fst (compute_player_dashboard db primary_team _ROSTER_CACHE) = Ok players ->
  In player players ->
  In entry (Merged.matches player)
  <-> PyDict.get Z.eqb (Stats.matches (Merged.stats player))
                 (MatchEntry.match_id entry) = Some entry.
Proof.
  intros H Hin.
  destruct (@dashboard_matches_wf _ db primary_team _ROSTER_CACHE players
              player H Hin) as [Hnd Hwf].
  destruct (@dashboard_stats _ _ _ _ _ _ H Hin) as (_ & _ & _ & Hmerge).
  apply merge_stats_fields in Hmerge as (_ & _ & _ & _ & -> & _).
  rewrite sorted_In. split.
  - intros Hentry. apply in_map_iff in Hentry as [[k e] [He Hitem]].
    cbn [snd] in He. subst e.
    apply (In_get Z.eqb Z_eqb_spec) in Hitem; [|exact Hnd].
    destruct (Hwf _ _ Hitem) as [-> _]. exact Hitem.
  - apply (get_In_values Z.eqb Z_eqb_spec).
Qed.

(** X22.  The page of a player in a match and the dashboard agree.  For a
    player of the team, when both return, the entry of the match among the
    matches of the player in the dashboard, if there is one, carries the
    total actions and the successes of the page; there is one exactly when
    the page has an action. *)
Theorem player_match_page_agrees_with_dashboard
    (db : database) (primary_team : Team.t) (_ROSTER_CACHE : option roster)
    (player : Player.t) (m : Match.t) (events : list MatchEvent.t)
    (players : list Merged.t) (dashboard_player : Merged.t)
    (page : PlayerMatchStats.t) :
  (forall event p, In event (match_events db) ->
     MatchEvent.player event = Some p -> Player.id p = Player.id player ->
     Player.team_id p = Team.id primary_team) ->
  Permutation events (page_events db player m) ->
  player_match_stats_page player events = Ok page ->
  fst (compute_player_dashboard db primary_team _ROSTER_CACHE) = Ok players ->
  In dashboard_player players ->
  Stats.player_id (Merged.stats dashboard_player) = Player.id player ->
  let stats := PlayerMatchStats.counts page in
  (forall entry, In entry (Merged.matches dashboard_player) ->
     MatchEntry.match_id entry = Match.id m ->
     MatchEntry.actions entry = PageStats.total_actions stats
     /\ MatchEntry.successes entry = PageStats.successes stats)
  /\ ((exists entry, In entry (Merged.matches dashboard_player)
                     /\ MatchEntry.match_id entry = Match.id m)
      <-> 0 < PageStats.total_actions stats).
Proof.
  intros Hteam Hperm Hpage Hdash Hin Hid stats.
  destruct (page_totals _ _ Hpage) as [Htotal Hsucc].
  fold stats in Htotal, Hsucc.
  assert (Hsame : forall selected,
            count_events (Player.id player)
              (fun event => in_match (Match.id m) event && selected event)
              (events_of db primary_team)
            = count_of selected events).
  { intros selected. unfold count_events, count_of, events_of.
    rewrite (Permutation_filter_length selected Hperm).
    unfold page_events. f_equal.
    rewrite filter_filter_length.
    - rewrite filter_filter_and. f_equal. apply filter_ext.
      intros event. now rewrite andb_assoc.
    - intros event Hev Hsel. apply andb_true_iff in Hsel as [Hby _].
      unfold by_player in Hby. unfold player_in_team.
      destruct (MatchEvent.player event) as [p|] eqn:Hp; [|discriminate].
      apply Z.eqb_eq in Hby. apply Z.eqb_eq.
      unfold confirmed_events_queryset in Hev. apply filter_In in Hev.
      eapply Hteam; eauto. apply Hev. }
  destruct (@dashboard_match_counters _ db primary_team _ROSTER_CACHE
              players dashboard_player (Match.id m) Hdash Hin)
    as [Hactions Hsuccesses].
  rewrite Hid in Hactions, Hsuccesses.
  rewrite Hsame in Hsuccesses.
  assert (Hall : match_counter (Stats.matches (Merged.stats dashboard_player))
                               (Match.id m) MatchEntry.actions
                 = count_of (fun _ => true) events).
  { rewrite Hactions, <- Hsame. unfold count_events. do 2 f_equal.
    apply filter_ext. intros event. now rewrite andb_true_r. }
  destruct (@dashboard_matches_wf _ db primary_team _ROSTER_CACHE players
              dashboard_player Hdash Hin) as [_ Hwf].
  unfold match_counter in Hall, Hsuccesses.
  split.
  - intros entry Hentry Hmatch.
    apply (@dashboard_match_entries db primary_team _ROSTER_CACHE players
             dashboard_player entry Hdash Hin) in Hentry.
    rewrite Hmatch in Hentry. rewrite Hentry in Hall, Hsuccesses.
    split; congruence.
  - rewrite Htotal. split.
    + intros (entry & Hentry & Hmatch).
      apply (@dashboard_match_entries db primary_team _ROSTER_CACHE players
             dashboard_player entry Hdash Hin) in Hentry.
      rewrite Hmatch in Hentry. rewrite Hentry in Hall.
      destruct (Hwf _ _ Hentry) as [_ [Hone _]]. lia.
    + intros Hpos.
      destruct (PyDict.get Z.eqb
                  (Stats.matches (Merged.stats dashboard_player))
                  (Match.id m)) as [entry|] eqn:Hget; [|lia].
      destruct (Hwf _ _ Hget) as [Hmid _].
      exists entry. split; [|exact Hmid].
      apply (@dashboard_match_entries db primary_team _ROSTER_CACHE players
             dashboard_player entry Hdash Hin).
      now rewrite Hmid.
Qed.

End PageFacts.

Lemma page_agrees_witness :
  exists page dashboard_player rest,
    @player_match_stats_page Latin.lib Sample.manu
      (page_events Sample.db_squad Sample.manu Sample.round2) = Ok page
    /\ fst (@compute_player_dashboard Latin.lib Sample.db_squad
              Sample.benagalbon None) = Ok (dashboard_player :: rest)
    /\ forall entry,
         In entry (Merged.matches dashboard_player) ->
         MatchEntry.match_id entry = Match.id Sample.round2 ->
         MatchEntry.actions entry
         = PageStats.total_actions (PlayerMatchStats.counts page).
Proof.
  destruct (@player_match_stats_page Latin.lib Sample.manu
              (page_events Sample.db_squad Sample.manu Sample.round2))
    as [page|e] eqn:Ep; [|vm_compute in Ep; discriminate].
  destruct (fst (@compute_player_dashboard Latin.lib Sample.db_squad
                   Sample.benagalbon None)) as [players|e] eqn:E;
    [|vm_compute in E; discriminate].
  destruct players as [|dashboard_player rest];
    [vm_compute in E; discriminate|].
  assert (Hid : Stats.player_id (Merged.stats dashboard_player)
                = Player.id Sample.manu).
  { pose proof E as E'. vm_compute in E'. injection E' as Hd _.
    rewrite <- Hd. reflexivity. }
  exists page, dashboard_player, rest.
  split; [reflexivity|]. split; [reflexivity|].
  intros entry Hentry Hmatch.
  refine (proj1 (proj1 (@player_match_page_agrees_with_dashboard Latin.lib
                          Sample.db_squad Sample.benagalbon None Sample.manu
                          Sample.round2 _ (dashboard_player :: rest)
                          dashboard_player page _ (Permutation_refl _) Ep E
                          (or_introl eq_refl) Hid)
                  entry Hentry Hmatch)).
  intros event p Hin Hp Hsame. vm_compute in Hin.
  destruct Hin as [<- | [<- | [<- | []]]]; injection Hp as <-;
    first [reflexivity | discriminate].
Defined.

(** ** ISO dates in the order of the matches *)

Lemma digits_of4 (y : N) :
  (y < 10000)%N ->
  exists a b c d,
    (a < 10 /\ b < 10 /\ c < 10 /\ d < 10
     /\ y = 1000 * a + 100 * b + 10 * c + d)%N
    /\ Date.digit (y / 1000) = (48 + a)%N
    /\ Date.digit (y / 100) = (48 + b)%N
    /\ Date.digit (y / 10) = (48 + c)%N
    /\ Date.digit y = (48 + d)%N.
Proof.
  intros Hy. unfold Date.digit.
  exists ((y / 1000) mod 10)%N, ((y / 100) mod 10)%N, ((y / 10) mod 10)%N,
    (y mod 10)%N.
  assert (H10 : forall n, (n mod 10 < 10)%N) by (intros; now apply N.mod_lt).
  split; [|repeat split].
  repeat (split; [apply H10|]).
  assert (E100 : (y / 100 = y / 10 / 10)%N)
    by (rewrite N.Div0.div_div; reflexivity).
  assert (E1000 : (y / 1000 = y / 10 / 10 / 10)%N)
    by (rewrite !N.Div0.div_div; reflexivity).
  rewrite E1000, E100.
  pose proof (N.div_mod y 10 ltac:(discriminate)) as E0.
  pose proof (N.div_mod (y / 10) 10 ltac:(discriminate)) as E1.
  pose proof (N.div_mod (y / 10 / 10) 10 ltac:(discriminate)) as E2.
  pose proof (N.div_mod (y / 10 / 10 / 10) 10 ltac:(discriminate)) as E3.
  pose proof (H10 y). pose proof (H10 (y / 10)%N).
  pose proof (H10 (y / 10 / 10)%N). pose proof (H10 (y / 10 / 10 / 10)%N).
  set (r0 := (y mod 10)%N) in *. set (q1 := (y / 10)%N) in *.
  set (r1 := (q1 mod 10)%N) in *. set (q2 := (q1 / 10)%N) in *.
  set (r2 := (q2 mod 10)%N) in *. set (q3 := (q2 / 10)%N) in *.
  set (r3 := (q3 mod 10)%N) in *. set (q4 := (q3 / 10)%N) in *.
  clearbody r0 q1 r1 q2 r2 q3 r3 q4. lia.
Qed.

Lemma digits_of2 (n : N) :
  (n < 100)%N ->
  exists a b,
    (a < 10 /\ b < 10 /\ n = 10 * a + b)%N
    /\ Date.digit (n / 10) = (48 + a)%N /\ Date.digit n = (48 + b)%N.
Proof.
  intros Hn. unfold Date.digit.
  exists ((n / 10) mod 10)%N, (n mod 10)%N.
  assert (H10 : forall k, (k mod 10 < 10)%N) by (intros; now apply N.mod_lt).
  split; [|split; reflexivity].
  repeat (split; [apply H10|]).
  pose proof (N.div_mod n 10 ltac:(discriminate)) as E0.
  pose proof (N.div_mod (n / 10) 10 ltac:(discriminate)) as E1.
  pose proof (H10 n). pose proof (H10 (n / 10)%N).
  set (r0 := (n mod 10)%N) in *. set (q1 := (n / 10)%N) in *.
  set (r1 := (q1 mod 10)%N) in *. set (q2 := (q1 / 10)%N) in *.
  clearbody r0 q1 r1 q2. lia.
Qed.

Lemma isoformat_leb (a b : Date.t) :
  (Date.year a < 10000 /\ Date.month a < 100 /\ Date.day a < 100)%N ->
  (Date.year b < 10000 /\ Date.month b < 100 /\ Date.day b < 100)%N ->
  PyStr.leb (Date.isoformat a) (Date.isoformat b) = Date.leb a b.
Proof.
  destruct a as [ya ma da], b as [yb mb db]. cbn [Date.year Date.month Date.day].
  intros (Hya & Hma & Hda) (Hyb & Hmb & Hdb).
  unfold Date.isoformat, Date.leb. cbn [Date.year Date.month Date.day].
  destruct (digits_of4 Hya)
    as (a3 & a2 & a1 & a0 & (? & ? & ? & ? & Eya) & -> & -> & -> & ->).
  destruct (digits_of4 Hyb)
    as (b3 & b2 & b1 & b0 & (? & ? & ? & ? & Eyb) & -> & -> & -> & ->).
  destruct (digits_of2 Hma) as (m1 & m0 & (? & ? & Ema) & -> & ->).
  destruct (digits_of2 Hmb) as (n1 & n0 & (? & ? & Emb) & -> & ->).
  destruct (digits_of2 Hda) as (d1 & d0 & (? & ? & Eda) & -> & ->).
  destruct (digits_of2 Hdb) as (e1 & e0 & (? & ? & Edb) & -> & ->).
  cbn [PyStr.leb].
  repeat match goal with
         | |- (if (?x <? ?y)%N then _ else _) = _ =>
             destruct (N.ltb_spec x y)
         end;
    repeat match goal with
           | |- _ = (if (?x <? ?y)%N then _ else _) =>
               destruct (N.ltb_spec x y)
           end;
    try reflexivity; try lia;
    symmetry; first [apply N.leb_le; lia | apply N.leb_gt; lia].
Qed.

Section DateOrderFacts.
Context `{L : PyLib}.

(** X23.  Two matches of a player with the same round are ordered by
    date: their ISO dates compare as the dates do (for the years, months
    and days a date can hold). *)
Theorem same_round_matches_in_date_order
    (a b : MatchEntry.t) (date_a date_b : Date.t) :
  MatchEntry.round a = MatchEntry.round b ->
  MatchEntry.date a = Some (Date.isoformat date_a) ->
  MatchEntry.date b = Some (Date.isoformat date_b) ->
  (Date.year date_a < 10000 /\ Date.month date_a < 100
   /\ Date.day date_a < 100)%N ->
  (Date.year date_b < 10000 /\ Date.month date_b < 100
   /\ Date.day date_b < 100)%N ->
  match_key_leb (match_sort_key a) (match_sort_key b)
  = Date.leb date_a date_b.
Proof.
  intros Hround Ha Hb Hda Hdb. unfold match_sort_key.
  rewrite Hround, Ha, Hb. cbn [or_empty match_key_leb].
  rewrite Bool.eqb_reflx, Z.eqb_refl. now apply isoformat_leb.
Qed.

End DateOrderFacts.

Lemma date_order_witness :
  let jan := {| Date.year := 2024; Date.month := 1; Date.day := 10 |} in
  let feb := {| Date.year := 2024; Date.month := 2; Date.day := 9 |} in
  let entry date :=
    {| MatchEntry.match_id := 1; MatchEntry.round := u"Jornada 3";
       MatchEntry.date := Some (Date.isoformat date);
       MatchEntry.home := true; MatchEntry.opponent := u"Rival";
       MatchEntry.actions := 1; MatchEntry.successes := 0;
       MatchEntry.success_rate := 0 |} in
  match_key_leb (@match_sort_key Latin.lib (entry feb))
                (@match_sort_key Latin.lib (entry jan))
  = Date.leb feb jan.
Proof.
  intros jan feb entry.
  apply (@same_round_matches_in_date_order Latin.lib (entry feb) (entry jan)
           feb jan);
    first [reflexivity | cbn; repeat split; lia].
Defined.

(** ** Round numbers *)

Section RoundFacts.
Context `{L : PyLib}.
Local Open Scope Z_scope.





End RoundFacts.


(** ** The quick actions *)

Lemma lstrip_fixed (sp : N -> bool) (s : pystr) :
  (forall c, hd_error s = Some c -> sp c = false) -> lstrip sp s = s.
Proof.
  destruct s as [|c s]; [reflexivity|]. intros H. cbn [lstrip].
  now rewrite (H c eq_refl).
Qed.

Lemma lstrip_head (sp : N -> bool) (s : pystr) c :
  hd_error (lstrip sp s) = Some c -> sp c = false.
Proof.
  induction s as [|x s IH]; cbn [lstrip]; [discriminate|].
  destruct (sp x) eqn:Hx; [exact IH|]. now intros [= <-].
Qed.

Lemma lstrip_idempotent (sp : N -> bool) (s : pystr) :
  lstrip sp (lstrip sp s) = lstrip sp s.
Proof. apply lstrip_fixed. intros c. apply lstrip_head. Qed.

Lemma lstrip_keeps_last (sp : N -> bool) (s : pystr) c :
  sp c = false -> exists w, lstrip sp (s ++ [c]) = w ++ [c].
Proof.
  intros Hc. induction s as [|x s IH]; cbn [app lstrip].
  - rewrite Hc. now exists [].
  - destruct (sp x); [exact IH|]. now exists (x :: s).
Qed.

Lemma strip_with_idempotent (sp : N -> bool) (s : pystr) :
  strip_with sp (strip_with sp s) = strip_with sp s.
Proof.
  unfold strip_with, rstrip.
  set (t := lstrip sp s).
  assert (Hhead : forall c, hd_error t = Some c -> sp c = false)
    by (intros c; apply lstrip_head).
  assert (Hfixed : lstrip sp (rev (lstrip sp (rev t)))
                   = rev (lstrip sp (rev t))).
  { apply lstrip_fixed. destruct t as [|c t']; [intros ? [=]|].
    specialize (Hhead c eq_refl). cbn [rev].
    destruct (lstrip_keeps_last sp (rev t') c Hhead) as [w ->].
    rewrite rev_app_distr. cbn. now intros ? [= <-]. }
  rewrite Hfixed, rev_involutive, lstrip_idempotent. reflexivity.
Qed.

Section ActionFacts.
Context `{L : PyLib}.

Lemma action_key_strip (action : pystr) :
  action_key (strip action) = action_key action.
Proof. unfold action_key, strip. now rewrite strip_with_idempotent. Qed.

Lemma actions_inv_add state item :
  actions_inv state -> ~ In (action_key item) (snd state) ->
  actions_inv (fst state ++ [item], action_key item :: snd state).
Proof.
  destruct state as [ordered seen]. cbn [fst snd]. intros [Hnd Hseen] Hnot.
  split; cbn [fst snd].
  - rewrite map_app. cbn [map]. apply NoDup_snoc; [exact Hnd|].
    intros Hin. apply in_map_iff in Hin as (x & Hx & Hin).
    apply Hnot, Hseen. eauto.
  - intros key. cbn [In]. rewrite Hseen. split.
    + intros [<- | (x & Hx & Hk)].
      * exists item. split; [apply in_or_app; right; now left | reflexivity].
      * exists x. split; [apply in_or_app; now left | exact Hk].
    + intros (x & Hx & Hk).
      apply in_app_or in Hx as [Hx | [<- | []]]; [right; eauto | now left].
Qed.

Lemma add_action_inv state action :
  actions_inv state ->
  actions_inv (add_action state action)
  /\ (forall key, In key (snd state) ->
                  In key (snd (add_action state action)))
  /\ (action_key action <> [] ->
      In (action_key action) (snd (add_action state action))).
Proof.
  intros Hinv. destruct state as [ordered seen]. unfold add_action.
  fold (action_key action).
  destruct (action_key action) as [|c key] eqn:Hkey;
    [split; [exact Hinv | split; [auto | congruence]]|].
  destruct (mem (c :: key) seen) eqn:Hmem.
  - split; [exact Hinv|]. split; [auto|]. intros _. now apply mem_In.
  - assert (Hnot : ~ In (c :: key) seen).
    { intros Hin. apply mem_In in Hin. congruence. }
    split; [|split; [intros k Hk; now right | intros _; now left]].
    rewrite <- Hkey, <- action_key_strip.
    apply (actions_inv_add (strip action) Hinv).
    cbn [snd]. now rewrite action_key_strip, Hkey.
Qed.

Lemma add_default_inv state extra :
  actions_inv state ->
  actions_inv (add_default state extra)
  /\ (forall key, In key (snd state) ->
                  In key (snd (add_default state extra)))
  /\ In (action_key extra) (snd (add_default state extra)).
Proof.
  intros Hinv. destruct state as [ordered seen]. unfold add_default.
  fold (action_key extra).
  destruct (mem (action_key extra) seen) eqn:Hmem.
  - split; [exact Hinv|]. split; [auto | now apply mem_In].
  - assert (Hnot : ~ In (action_key extra) seen).
    { intros Hin. apply mem_In in Hin. congruence. }
    split; [|split; [intros k Hk; now right | now left]].
    apply (actions_inv_add extra Hinv). exact Hnot.
Qed.

Lemma fold_actions_inv (step : list pystr * list pystr -> pystr ->
                               list pystr * list pystr)
    (covered : pystr -> Prop) (items : list pystr) :
  (forall state item,
     actions_inv state ->
     actions_inv (step state item)
     /\ (forall key, In key (snd state) -> In key (snd (step state item)))
     /\ (covered item -> In (action_key item) (snd (step state item)))) ->
  forall state,
    actions_inv state ->
    actions_inv (fold_left step items state)
    /\ (forall key, In key (snd state) ->
                    In key (snd (fold_left step items state)))
    /\ forall item, In item items -> covered item ->
                    In (action_key item) (snd (fold_left step items state)).
Proof.
  intros Hstep. induction items as [|x items IH]; intros state Hinv.
  - cbn [fold_left]. split; [exact Hinv|]. split; [auto | intros ? []].
  - cbn [fold_left]. destruct (Hstep state x Hinv) as (H1 & Hkeep & Hx).
    destruct (IH _ H1) as (Hout & Hkeep' & Hitems).
    split; [exact Hout|]. split; [auto|].
    intros item [<- | Hin] Hc; [auto | now apply Hitems].
Qed.

(** X25.  With a sheet of actions, [load_match_actions] returns a list in
    which no two actions are equal after stripping and lowercasing; every
    action of the sheet that is not blank and every default quick action is
    equal, after stripping and lowercasing, to an action of the list.
    Without a sheet it returns the default quick actions. *)
Theorem match_actions_are_distinct_and_complete (actions : list pystr) :
  load_match_actions [] = DEFAULT_QUICK_ACTIONS
  /\ (actions <> [] ->
      let ordered := load_match_actions actions in
      NoDup (map action_key ordered)
      /\ (forall action, In action actions -> action_key action <> [] ->
            exists item, In item ordered
                         /\ action_key item = action_key action)
      /\ forall extra, In extra DEFAULT_QUICK_ACTIONS ->
           exists item, In item ordered
                        /\ action_key item = action_key extra).
Proof.
  split; [reflexivity|]. intros Hactions ordered. subst ordered.
  unfold load_match_actions.
  destruct actions as [|a actions0]; [congruence|].
  set (actions := a :: actions0).
  assert (Hinit : actions_inv ([], [])).
  { split; [constructor|]. intros key. split; [intros [] |].
    intros (x & [] & _). }
  destruct (fold_actions_inv add_action (fun item => action_key item <> [])
              actions add_action_inv Hinit) as (H1 & _ & Hsheet).
  destruct (fold_actions_inv add_default (fun _ => True)
              DEFAULT_QUICK_ACTIONS
              (fun state item Hs =>
                 match add_default_inv item Hs with
                 | conj A (conj B C) => conj A (conj B (fun _ => C))
                 end)
              H1) as ((Hnd & Hseen) & Hkeep & Hdefaults).
  split; [exact Hnd|]. split.
  - intros action Hin Hkey. apply Hseen, Hkeep, Hsheet; assumption.
  - intros extra Hin. apply Hseen, Hdefaults; [exact Hin | exact I].
Qed.

End ActionFacts.

Lemma match_actions_witness :
  NoDup (map (@action_key Latin.lib)
             (@load_match_actions Latin.lib [u" Córner "; u"disparo"])).
Proof.
  apply (proj2 (@match_actions_are_distinct_and_complete Latin.lib
                  [u" Córner "; u"disparo"])).
  discriminate.
Defined.

(** ** Duel events and accented keywords *)

Lemma has_code_In (code : N) (text : pystr) :
  has_code code text = true <-> In code text.
Proof.
  unfold has_code. rewrite existsb_exists. split.
  - intros (c & Hc & Heq). apply N.eqb_eq in Heq. now subst.
  - intros H. exists code. split; [exact H | apply N.eqb_refl].
Qed.

Lemma In_lstrip (sp : N -> bool) (s : pystr) c :
  In c (lstrip sp s) -> In c s.
Proof.
  induction s as [|x s IH]; cbn [lstrip]; [auto|].
  destruct (sp x); [intros H; right; auto | auto].
Qed.

Lemma In_strip_with (sp : N -> bool) (s : pystr) c :
  In c (strip_with sp s) -> In c s.
Proof.
  unfold strip_with, rstrip. intros H. apply in_rev in H.
  apply In_lstrip in H. apply in_rev in H. now apply In_lstrip in H.
Qed.

Section DuelFacts.
Context `{L : PyLib}.

(** X26.  When no normalized label holds a precomposed "ó" (NFKD splits
    it into "o" and a combining accent, which is not alphanumeric),
    [is_duel_event] holds exactly when the normalized event type is not
    empty and the normalized event type or observation contains a duel
    keyword without "ó": the keywords "intercepción", "intervención",
    "recuperación" and "presión" never match. *)
Theorem duel_event_iff_plain_keyword
    (event_type observation : option pystr) :
  (forall value c, In c (normalize_label value) -> c <> 243%N) ->
  (is_duel_event event_type observation = true <->
   normalize_label event_type <> []
   /\ exists text keyword,
        In text [event_type; observation]
        /\ In keyword plain_duel_keywords
        /\ substring keyword (normalize_label text))
  /\ plain_duel_keywords
     = [u"duelo"; u"regate"; u"regates"; u"robo"; u"robado"; u"entrada";
        u"entradas"; u"recuperado"; u"falta cometida"; u"falta recibida";
        u"presionado"; u"error forzado"; u"error"; u"disputa"].
Proof.
  intros Hplain. split; [|reflexivity].
  assert (Hlive : forall text keyword,
            In keyword DUEL_EVENT_KEYWORDS ->
            pyin keyword (normalize_label text) = true ->
            In keyword plain_duel_keywords
            /\ substring keyword (normalize_label text)).
  { intros text keyword Hin Hk. apply pyin_spec in Hk.
    split; [|exact Hk]. apply filter_In. split; [exact Hin|].
    destruct (has_code 243 keyword) eqn:Hcode; [|reflexivity].
    apply has_code_In in Hcode. destruct Hk as (pre & post & Hk).
    exfalso. apply (Hplain text 243%N); [|reflexivity].
    rewrite Hk. apply in_or_app. right. apply in_or_app. now left. }
  assert (Hnonempty : forall keyword, In keyword DUEL_EVENT_KEYWORDS ->
                                      keyword <> []).
  { intros keyword Hin. cbn in Hin.
    repeat (destruct Hin as [<- | Hin]; [discriminate|]). destruct Hin. }
  unfold is_duel_event.
  destruct (normalize_label event_type) as [|c normalized] eqn:Hnorm.
  { split; [discriminate | intros [H _]; congruence]. }
  destruct (existsb (fun keyword => pyin keyword (c :: normalized))
                    DUEL_EVENT_KEYWORDS) eqn:Hfirst.
  - split; [|reflexivity]. intros _. split; [discriminate|].
    apply existsb_exists in Hfirst as (keyword & Hin & Hk).
    rewrite <- Hnorm in Hk. destruct (Hlive _ _ Hin Hk) as [Hp Hs].
    exists event_type, keyword. split; [now left | auto].
  - destruct (falsy observation) eqn:Hfalsy; cbn [negb].
    + split; [discriminate|].
      intros [_ (text & keyword & [<- | [<- | []]] & Hin & Hs)].
      * apply filter_In in Hin as [Hin _]. apply pyin_spec in Hs.
        rewrite Hnorm in Hs.
        assert (Hex : existsb (fun k => pyin k (c :: normalized))
                              DUEL_EVENT_KEYWORDS = true)
          by (apply existsb_exists; eauto).
        congruence.
      * apply filter_In in Hin as [Hin _].
        assert (Hempty : normalize_label observation = []).
        { destruct observation as [[|x o]|]; [reflexivity | | reflexivity].
          discriminate. }
        rewrite Hempty in Hs. destruct Hs as (pre & post & Hs).
        exfalso. apply (Hnonempty _ Hin).
        destruct pre; [destruct keyword; [reflexivity | discriminate]
                      | discriminate].
    + split.
      * intros Hex. split; [discriminate|].
        apply existsb_exists in Hex as (keyword & Hin & Hk).
        destruct (Hlive _ _ Hin Hk) as [Hp Hs].
        exists observation, keyword. split; [right; now left | auto].
      * intros [_ (text & keyword & [<- | [<- | []]] & Hin & Hs)];
          apply filter_In in Hin as [Hin _]; apply pyin_spec in Hs.
        -- rewrite Hnorm in Hs.
           assert (Hex : existsb (fun k => pyin k (c :: normalized))
                                 DUEL_EVENT_KEYWORDS = true)
             by (apply existsb_exists; eauto).
           congruence.
        -- apply existsb_exists. eauto.
Qed.

End DuelFacts.

Lemma latin_lower_char_le (x : N) : (Latin.lower_char x <= x + 32)%N.
Proof. unfold Latin.lower_char. destruct (_ || _); lia. Qed.

Lemma latin_labels_plain (value : option pystr) (c : N) :
  In c (@normalize_label Latin.lib value) -> c <> 243%N.
Proof.
  unfold normalize_label.
  destruct value as [[|x v]|]; [intros [] | | intros []].
  intros Hin. apply In_strip_with in Hin.
  cbn [lower Latin.lib nfkd isalnum isspace] in Hin.
  apply in_map_iff in Hin as (d & <- & Hd).
  apply filter_In in Hd as [Hd Hkeep].
  apply in_flat_map in Hd as (c0 & _ & Hd).
  unfold Latin.decompose in Hd.
  set (lc := Latin.lower_char c0) in *.
  assert (Hbase : forall b, (b <= 117)%N ->
            Latin.lower_char (b - (lc - c0)) <> 243%N).
  { intros b Hb. pose proof (latin_lower_char_le (b - (lc - c0))). lia. }
  repeat match type of Hd with
         | In _ (if ?b then _ else _) =>
             let E := fresh "E" in
             destruct b eqn:E;
             [destruct Hd as [<- | [<- | []]];
              [apply Hbase; lia | vm_compute in Hkeep; discriminate]|]
         end.
  destruct Hd as [<- | []]. fold lc.
  match goal with
  | H : (lc =? 243)%N = false |- _ => now apply N.eqb_neq in H
  end.
Qed.

Lemma duel_keyword_witness :
  @is_duel_event Latin.lib (Some (u"Intercepción")) None = true <->
  @normalize_label Latin.lib (Some (u"Intercepción")) <> []
  /\ exists text keyword,
       In text [Some (u"Intercepción"); None]
       /\ In keyword plain_duel_keywords
       /\ substring keyword (@normalize_label Latin.lib text).
Proof.
  exact (proj1 (@duel_event_iff_plain_keyword Latin.lib
                  (Some (u"Intercepción")) None latin_labels_plain)).
Defined.

Example accented_event_type_is_no_duel :
  @is_duel_event Latin.lib (Some (u"Intercepción")) None = false
  /\ @is_duel_event Latin.lib (Some (u"Recuperación")) (Some (u"Presión"))
     = false
  /\ @is_duel_event Latin.lib (Some (u"Robo")) None = true.
Proof. vm_compute. repeat split. Qed.


(** ** The live match sheet *)

Lemma confirmed_without_pending (db : database) before after event :
  MatchEvent.system event = u"touch-field" ->
  confirmed_events_queryset (with_events db (before ++ event :: after))
  = confirmed_events_queryset (with_events db (before ++ after)).
Proof.
  intros Hsystem. unfold confirmed_events_queryset, with_events. cbn.
  rewrite !filter_app. cbn. rewrite Hsystem. reflexivity.
Qed.

Lemma live_without_pending (db : database) before after event team :
  MatchEvent.system event = u"touch-field" ->
  live_events_of (with_events db (before ++ event :: after)) team
  = live_events_of (with_events db (before ++ after)) team.
Proof.
  intros Hsystem. unfold live_events_of, with_events, is_final. cbn.
  rewrite !filter_app. cbn. rewrite Hsystem.
  now rewrite andb_false_r.
Qed.

Section MatchSheetFacts.
Context `{L : PyLib}.

Lemma dashboard_reads (db1 db2 : database) team cache :
  confirmed_events_queryset db1 = confirmed_events_queryset db2 ->
  live_events_of db1 team = live_events_of db2 team ->
  players db1 = players db2 ->
  roster_rows db1 = roster_rows db2 ->
  compute_player_dashboard db1 team cache
  = compute_player_dashboard db2 team cache.
Proof.
  intros Hconfirmed Hlive Hplayers Hrows.
  unfold compute_player_dashboard, events_of, roster_players_of.
  rewrite Hconfirmed, Hlive, Hplayers, Hrows. reflexivity.
Qed.

Lemma register_effect (db : database) primary_team active_match post event :
  register_match_action db primary_team active_match post = Some event ->
  exists team player m,
    primary_team = Some team /\ active_match = Some m
    /\ In player (players db)
    /\ Player.team_id player = Team.id team
    /\ Some (Player.id player) = Post.player post
    /\ MatchEvent.player event = Some player
    /\ MatchEvent.match_ event = Some m
    /\ MatchEvent.system event = u"touch-field"
    /\ MatchEvent.minute event
       = option_map (fun minute => Z.max 0 (Z.min minute 120))
                    (Post.minute post)
    /\ MatchEvent.event_type event
       = Some (strip (or_empty (Post.action_type post)))
    /\ strip (or_empty (Post.action_type post)) <> [].
Proof.
  unfold register_match_action. intros H.
  destruct primary_team as [team|]; [|discriminate].
  destruct (player_of_team db team (Post.player post)) as [player|] eqn:Hplayer;
    [|discriminate].
  destruct (strip (or_empty (Post.action_type post))) as [|c action] eqn:Haction;
    [discriminate|].
  destruct active_match as [m|]; [|discriminate].
  injection H as <-.
  unfold player_of_team in Hplayer.
  destruct (Post.player post) as [player_id|]; [|discriminate].
  apply find_some in Hplayer. destruct Hplayer as [Hin Hb].
  apply andb_true_iff in Hb. destruct Hb as [Hteam Hid].
  apply Z.eqb_eq in Hteam. apply Z.eqb_eq in Hid.
  exists team, player, m. cbn.
  repeat split; try assumption; try congruence.
Qed.

End MatchSheetFacts.

Lemma set_final_not_pending (m : Match.t) (event : MatchEvent.t) :
  is_pending m (set_final event) = false.
Proof.
  unfold is_pending, set_final. cbn. apply andb_false_r.
Qed.

Lemma finalize_rows (db : database) (team : Team.t) (m : Match.t) :
  match_events (finalize_match_actions db (Some team) (Some m) true)
  = map (fun event => if is_pending m event then set_final event else event)
        (match_events db).
Proof.
  unfold finalize_match_actions.
  destruct (filter (is_pending m) (match_events db)) as [|e pending] eqn:Hp.
  - symmetry. erewrite map_ext_in; [apply map_id|].
    intros event Hin. cbn.
    destruct (is_pending m event) eqn:Hpending; [|reflexivity].
    assert (Hf : In event (filter (is_pending m) (match_events db)))
      by (apply filter_In; now split).
    rewrite Hp in Hf. destruct Hf.
  - reflexivity.
Qed.

(** X27.  An action the match sheet registers is a pending row: its minute
    lies between 0 and 120, its player is a player of the primary team, and
    wherever the row lands among the match events, the player dashboard, the
    player cards and the team metrics (of the team and of every match) are
    the ones computed without it. *)
Theorem registered_action_stays_out_of_statistics `{L : PyLib}
    (db : database) primary_team active_match post event :
  register_match_action db primary_team active_match post = Some event ->
  (forall minute, MatchEvent.minute event = Some minute ->
                  (0 <= minute <= 120)%Z)
  /\ (exists team player,
        primary_team = Some team
        /\ MatchEvent.player event = Some player
        /\ In player (players db)
        /\ Player.team_id player = Team.id team)
  /\ forall before after team cache,
       let registered := with_events db (before ++ event :: after) in
       let without := with_events db (before ++ after) in
       compute_player_dashboard registered team cache
       = compute_player_dashboard without team cache
       /\ compute_player_cards registered team cache
          = compute_player_cards without team cache
       /\ compute_team_metrics registered team
          = compute_team_metrics without team
       /\ forall m, compute_team_metrics_for_match registered m
                    = compute_team_metrics_for_match without m.
Proof.
  intros H. apply register_effect in H.
  destruct H as (team & player & m & -> & -> & Hin & Hteam & _ & Hplayer
                 & _ & Hsystem & Hminute & _).
  split; [|split].
  - intros minute Hm. rewrite Hminute in Hm.
    destruct (Post.minute post) as [raw|]; [|discriminate].
    injection Hm as <-. lia.
  - now exists team, player.
  - intros before after team' cache registered without.
    assert (Hdash : compute_player_dashboard registered team' cache
                    = compute_player_dashboard without team' cache).
    { apply dashboard_reads; try reflexivity.
      - now apply confirmed_without_pending.
      - now apply live_without_pending. }
    split; [exact Hdash|]. split; [|split].
    + unfold compute_player_cards. now rewrite Hdash.
    + unfold compute_team_metrics, team_events_queryset.
      subst registered without.
      now rewrite (@confirmed_without_pending db before after event Hsystem).
    + intros m'. unfold compute_team_metrics_for_match, match_events_queryset.
      subst registered without.
      now rewrite (@confirmed_without_pending db before after event Hsystem).
Qed.

Lemma registered_action_witness :
  let post := {| Post.player := Some 7%Z; Post.action_type := Some (u" Pase ");
                 Post.minute := Some 130%Z; Post.result := Some (u"OK");
                 Post.zone := Some (u"Ataque Centro"); Post.tercio := None;
                 Post.observation := None |} in
  let event :=
    {| MatchEvent.match_ := Some Sample.round2;
       MatchEvent.player := Some Sample.manu;
       MatchEvent.minute := Some 120%Z;
       MatchEvent.event_type := Some (u"Pase");
       MatchEvent.result := Some (u"OK");
       MatchEvent.zone := Some (u"Ataque Centro");
       MatchEvent.tercio := Some (u"Ataque");
       MatchEvent.observation := Some [];
       MatchEvent.system := u"touch-field" |} in
  @register_match_action Latin.lib Sample.db_squad (Some Sample.benagalbon)
    (Some Sample.round2) post = Some event
  /\ @compute_player_dashboard Latin.lib
       (with_events Sample.db_squad
          (match_events Sample.db_squad ++ [event]))
       Sample.benagalbon None
     = @compute_player_dashboard Latin.lib
         (with_events Sample.db_squad (match_events Sample.db_squad ++ []))
         Sample.benagalbon None.
Proof.
  intros post event.
  assert (H : @register_match_action Latin.lib Sample.db_squad
                (Some Sample.benagalbon) (Some Sample.round2) post
              = Some event) by (vm_compute; reflexivity).
  split; [exact H|].
  exact (proj1 (proj2 (proj2
           (@registered_action_stays_out_of_statistics Latin.lib
              Sample.db_squad (Some Sample.benagalbon) (Some Sample.round2)
              post event H))
           (match_events Sample.db_squad) [] Sample.benagalbon None)).
Defined.

(** X28.  Saving the match sheet, when the workbook is written, keeps the
    number and the order of the rows and changes only the pending rows of the
    active match: each of them gets the system of a final action, every other
    row stays as it is, none is pending for that match afterwards, and saving
    again changes nothing.  When the workbook cannot be written no row
    changes. *)
Theorem finalize_marks_pending_rows_final
    (db : database) (team : Team.t) (m : Match.t) :
  let saved := finalize_match_actions db (Some team) (Some m) true in
  List.length (match_events saved) = List.length (match_events db)
  /\ (forall i event, nth_error (match_events db) i = Some event ->
        nth_error (match_events saved) i
        = Some (if is_pending m event then set_final event else event))
  /\ (forall event, In event (match_events saved) ->
                    is_pending m event = false)
  /\ (forall event, In event (match_events db) ->
        is_pending m event = true ->
        In (set_final event) (confirmed_events_queryset saved)
        /\ forall primary_team,
             player_in_team primary_team event = true ->
             In (set_final event) (live_events_of saved primary_team))
  /\ finalize_match_actions saved (Some team) (Some m) true = saved
  /\ finalize_match_actions db (Some team) (Some m) false = db.
Proof.
  intros saved. pose proof (finalize_rows db team m) as Hrows.
  fold saved in Hrows.
  assert (Hnone : forall event, In event (match_events saved) ->
                                is_pending m event = false).
  { intros event Hin. rewrite Hrows in Hin. apply in_map_iff in Hin.
    destruct Hin as (e & <- & _).
    destruct (is_pending m e) eqn:Hp; [apply set_final_not_pending|exact Hp]. }
  split; [|split; [|split; [|split; [|split]]]].
  - rewrite Hrows. apply length_map.
  - intros i event Hi. rewrite Hrows.
    now rewrite nth_error_map, Hi.
  - exact Hnone.
  - intros event Hin Hp.
    assert (Hsaved : In (set_final event) (match_events saved)).
    { rewrite Hrows. apply in_map_iff. exists event. now rewrite Hp. }
    split.
    + unfold confirmed_events_queryset. apply filter_In. split; [exact Hsaved|].
      reflexivity.
    + intros primary_team Hteam. unfold live_events_of. apply filter_In.
      split; [exact Hsaved|].
      apply andb_true_iff. split; [exact Hteam|reflexivity].
  - unfold finalize_match_actions at 1.
    destruct (filter (is_pending m) (match_events saved)) as [|e pending] eqn:Hp;
      [reflexivity|].
    assert (Hf : In e (filter (is_pending m) (match_events saved)))
      by (rewrite Hp; now left).
    apply filter_In in Hf. destruct Hf as [Hin Hpe].
    rewrite (Hnone e Hin) in Hpe. discriminate.
  - unfold finalize_match_actions.
    now destruct (filter (is_pending m) (match_events db)).
Qed.

(** X29.  An action registered on the match sheet and then saved is read by
    both querysets of the dashboard: before saving, the row is in neither the
    confirmed events nor the live events of the team; after saving, the row
    with the system of a final action is in both. *)
Theorem registered_then_finalized_is_live `{L : PyLib}
    (db : database) (team : Team.t) (m : Match.t) post event before after :
  register_match_action db (Some team) (Some m) post = Some event ->
  let registered := with_events db (before ++ event :: after) in
  let saved := finalize_match_actions registered (Some team) (Some m) true in
  ~ In event (events_of registered team)
  /\ ~ In event (live_events_of registered team)
  /\ In (set_final event) (events_of saved team)
  /\ In (set_final event) (live_events_of saved team).
Proof.
  intros H registered saved. apply register_effect in H.
  destruct H as (team' & player & m' & Ht & Hm & Hin & Hteam & _ & Hplayer
                 & Hmatch & Hsystem & _).
  injection Ht as <-. injection Hm as <-.
  assert (Hp : is_pending m event = true).
  { unfold is_pending. rewrite Hmatch, Hsystem, Z.eqb_refl. reflexivity. }
  assert (Hpt : player_in_team team event = true).
  { unfold player_in_team. rewrite Hplayer. now apply Z.eqb_eq. }
  assert (Hrows : match_events saved
                  = map (fun e => if is_pending m e then set_final e else e)
                        (match_events registered))
    by apply finalize_rows.
  assert (Hsaved : In (set_final event) (match_events saved)).
  { rewrite Hrows. apply in_map_iff. exists event. rewrite Hp.
    split; [reflexivity|]. cbn. apply in_or_app. right. now left. }
  split; [|split; [|split]].
  - unfold events_of, confirmed_events_queryset. intros Hev.
    apply filter_In in Hev. destruct Hev as [Hev _].
    apply filter_In in Hev. destruct Hev as [_ Hev].
    rewrite Hsystem in Hev. discriminate.
  - unfold live_events_of, is_final. intros Hev.
    apply filter_In in Hev. destruct Hev as [_ Hev].
    rewrite Hsystem in Hev. rewrite andb_false_r in Hev. discriminate.
  - unfold events_of, confirmed_events_queryset.
    apply filter_In. split; [|exact Hpt].
    apply filter_In. split; [exact Hsaved|reflexivity].
  - unfold live_events_of. apply filter_In. split; [exact Hsaved|].
    apply andb_true_iff. split; [exact Hpt|reflexivity].
Qed.

Lemma registered_then_finalized_witness :
  let post := {| Post.player := Some 9%Z; Post.action_type := Some (u"Parada");
                 Post.minute := None; Post.result := None;
                 Post.zone := Some (u"Defensa Centro"); Post.tercio := None;
                 Post.observation := None |} in
  let event :=
    {| MatchEvent.match_ := Some Sample.round1;
       MatchEvent.player := Some Sample.toni;
       MatchEvent.minute := None;
       MatchEvent.event_type := Some (u"Parada");
       MatchEvent.result := Some [];
       MatchEvent.zone := Some (u"Defensa Centro");
       MatchEvent.tercio := Some (u"Defensa");
       MatchEvent.observation := Some [];
       MatchEvent.system := u"touch-field" |} in
  @register_match_action Latin.lib Sample.db_squad (Some Sample.benagalbon)
    (Some Sample.round1) post = Some event
  /\ In (set_final event)
        (live_events_of
           (finalize_match_actions
              (with_events Sample.db_squad
                 ([] ++ event :: match_events Sample.db_squad))
              (Some Sample.benagalbon) (Some Sample.round1) true)
           Sample.benagalbon).
Proof.
  intros post event.
  assert (H : @register_match_action Latin.lib Sample.db_squad
                (Some Sample.benagalbon) (Some Sample.round1) post
              = Some event) by (vm_compute; reflexivity).
  split; [exact H|].
  exact (proj2 (proj2 (proj2
           (@registered_then_finalized_is_live Latin.lib Sample.db_squad
              Sample.benagalbon Sample.round1 post event []
              (match_events Sample.db_squad) H)))).
Defined.
